(** * DataSetIQ Sheets add-on: the series-fetch client of [src/Code.ts]

    A shallow embedding of the add-on's fetch path: request construction,
    the single retry on 429/5xx, error translation, response normalisation
    and the table builder.  [Code.ts] holds two API-version variants of the
    file; the newer one (object-list payloads, lines 582-1436) is embedded at
    top level, the older one (pair-list payloads, lines 1-581) in
    [Module Legacy].  Helper functions whose text is identical in both
    variants are embedded once.

    JavaScript values are dynamically typed: what [JSON.parse] returns is an
    arbitrary value that the code only casts, so response bodies are
    [JsValue]s and a property read on [null] raises [TypeError] here as it
    does there.  Built-ins of the Apps Script runtime whose text is not part
    of the repository ([JSON.parse], [encodeURIComponent], [Date], ...) are
    the fields of the [Host] interface. *)

From Stdlib Require Import ZArith List Ascii Sorted Permutation Lia.
From Stdlib Require Import PrimFloat FloatOps SpecFloat.
From stdpp Require Import base option list gmap strings pretty.
From Equations Require Import Equations.

Local Open Scope string_scope.
Local Open Scope list_scope.
Local Open Scope Z_scope.

(** ** JavaScript values and completions *)

(** A time value is an integral number of milliseconds since the epoch, or
    NaN ([None]); this is what [Date.prototype.getTime] and [Date.parse]
    return. *)
Definition TimeValue := option Z.

#[warnings="-register-all"]
Inductive JsValue : Type :=
| JUndefined
| JNull
| JBool (b : bool)
| JNum (n : float)
| JStr (s : string)
| JDate (t : TimeValue)
| JArr (elems : list JsValue)
| JObj (props : list (string * JsValue)).

Inductive JsError : Type :=
| TypeError
| Error (message : string).

Inductive Completion (A : Type) : Type :=
| Normal (a : A)
| Throw (e : JsError).
Arguments Normal {A} a.
Arguments Throw {A} e.

#[export] Instance Completion_ret : MRet Completion := fun A a => Normal a.
#[export] Instance Completion_bind : MBind Completion :=
  fun A B f m => match m with Normal a => f a | Throw e => Throw e end.

(** [ToBoolean]. *)
Definition truthy (v : JsValue) : bool :=
  match v with
  | JUndefined | JNull => false
  | JBool b => b
  | JNum n => negb (is_zero n || is_nan n)
  | JStr s => negb (String.eqb s "")
  | JDate _ | JArr _ | JObj _ => true
  end.

Definition nullish (v : JsValue) : bool :=
  match v with JUndefined | JNull => true | _ => false end.

Fixpoint assoc (k : string) (props : list (string * JsValue)) : JsValue :=
  match props with
  | [] => JUndefined
  | (k', v) :: rest => if String.eqb k k' then v else assoc k rest
  end.

(** [v.k] for the property names this program reads ([error], [code],
    [message], [dataset], [data], [seriesId], [status], [scalar], [date],
    [value]): none of them is defined on a built-in prototype, so the read
    yields [undefined] on every value but an object that owns the property,
    and raises on [null] and [undefined]. *)
Definition get_prop (v : JsValue) (k : string) : Completion JsValue :=
  match v with
  | JUndefined | JNull => Throw TypeError
  | JObj props => Normal (assoc k props)
  | _ => Normal JUndefined
  end.

(** [v?.k]. *)
Definition get_prop_opt (v : JsValue) (k : string) : JsValue :=
  match v with
  | JObj props => assoc k props
  | _ => JUndefined
  end.

(** [o.k = x] on an object. *)
Fixpoint set_assoc (k : string) (x : JsValue) (props : list (string * JsValue))
  : list (string * JsValue) :=
  match props with
  | [] => [(k, x)]
  | (k', v) :: rest =>
      if String.eqb k k' then (k, x) :: rest else (k', v) :: set_assoc k x rest
  end.

(** [v[0]]; of a string, its first character. *)
Definition get_index0 (v : JsValue) : Completion JsValue :=
  match v with
  | JUndefined | JNull => Throw TypeError
  | JArr elems => Normal (List.hd JUndefined elems)
  | JStr (String c _) => Normal (JStr (String c EmptyString))
  | JObj props => Normal (assoc "0" props)
  | _ => Normal JUndefined
  end.

(** [=== 'literal'] *)
Definition is_string (v : JsValue) (lit : string) : bool :=
  match v with JStr s => String.eqb s lit | _ => false end.

(** ** The runtime interface *)

Class Host : Type := {
  (** [JSON.parse]; [None] when it raises [SyntaxError]. *)
  JSON_parse : string -> option JsValue;
  (** [encodeURIComponent]. *)
  encodeURIComponent : string -> string;
  (** [String.prototype.trim] and [toLowerCase]. *)
  String_trim : string -> string;
  String_toLowerCase : string -> string;
  (** [String(v)] for a value that is not a string. *)
  ToString : JsValue -> string;
  (** [Number(s)] for a string. *)
  StringToNumber : string -> float;
  (** [new Date(v).getTime()] for a value that is not a Date. *)
  Date_getTime : JsValue -> TimeValue;
  (** [Utilities.formatDate(d, 'GMT', 'yyyy-MM-dd')] of a valid time value. *)
  Utilities_formatDate : Z -> string;
}.

Section Pure.
Context `{Host}.

Definition String_ (v : JsValue) : string :=
  match v with JStr s => s | _ => ToString v end.

Definition new_Date_getTime (v : JsValue) : TimeValue :=
  match v with JDate t => t | _ => Date_getTime v end.

Definition Date_parse (s : string) : TimeValue := Date_getTime (JStr s).

(** ** Constants (lines 586-593) *)

Definition BASE_URL := "https://datasetiq.com".
Definition SERIES_PATH := "/api/public/series/".
Definition SERIES_DATA_PATH := "/data".
Definition HEADER_ROW : JsValue := JArr [JStr "Date"; JStr "Value"].
Definition API_KEY_PROP := "DATASETIQ_API_KEY".

(** ** Input normalisation (lines 1159-1195) *)

Definition normalizeOptionalString (value : JsValue) : option string :=
  match value with
  | JNull | JUndefined => None
  | JStr s =>
      let trimmed := String_trim s in
      if (String.length trimmed =? 0)%nat then None else Some trimmed
  | _ => Some (String_ value)
  end.

(** [!s] for [s : string | undefined]. *)
Definition absent (s : option string) : bool :=
  match s with None => true | Some s => String.eqb s "" end.

Definition normalizeSeriesId (seriesId : JsValue) : Completion string :=
  let normalized := normalizeOptionalString seriesId in
  if absent normalized then Throw (Error "series_id is required.")
  else Normal (default "" normalized).

Definition normalizeDateInput (value : JsValue) : Completion (option string) :=
  match value with
  | JNull | JUndefined => Normal None
  | JDate None => Throw (Error "Invalid date.")
  | JDate (Some t) => Normal (Some (Utilities_formatDate t))
  | JStr s => if String.eqb s "" then Normal None else Normal (Some s)
  | _ => Throw (Error "Invalid date input.")
  end.

(** ** Error translation (lines 1200-1210) *)

Definition mapError (code : JsValue) (status : Z) (fallback : JsValue) : JsValue :=
  if is_string code "NO_KEY" then JStr "Please open DataSetIQ sidebar to connect."
  else if is_string code "INVALID_KEY" then
    JStr "Invalid API Key. Reconnect at datasetiq.com/dashboard/api-keys"
  else if is_string code "REVOKED_KEY" then
    JStr "API Key revoked. Get a new key at datasetiq.com/dashboard/api-keys"
  else if is_string code "FREE_LIMIT" then
    JStr "Free plan limit reached. Upgrade at datasetiq.com/pricing"
  else if is_string code "QUOTA_EXCEEDED" then
    JStr "Daily Quota Exceeded. Upgrade at datasetiq.com/pricing"
  else if is_string code "PLAN_REQUIRED" then
    JStr "Upgrade required. Visit datasetiq.com/pricing"
  else if status =? 429 then JStr "Rate limited. Please retry shortly."
  else if status >=? 500 then JStr "Server unavailable. Please retry."
  else if truthy fallback then fallback else JStr "Unable to fetch data.".

(** ** [parseJson] (lines 1212-1218) *)

Definition parseJson (body : string) : JsValue :=
  match JSON_parse body with
  | Some v => v
  | None => JObj []
  end.

(** ** Retry delay (lines 1224-1246) *)

(** [Object.keys(headers || {}).forEach(...)], in key order. *)
Definition normalizeHeaders (headers : list (string * JsValue)) : gmap string string :=
  fold_left (fun normalized '(key, v) =>
               <[String_toLowerCase key := String_ v]> normalized)
            headers ∅.

(** [Math.pow(2, attempt)] for the loop counter, a natural number. *)
Fixpoint pow2 (attempt : nat) : float :=
  match attempt with
  | O => 1
  | S n => 2 * pow2 n
  end.

(** The number a time value is: integral and of magnitude at most 8.64e15,
    so below 2^53 and exactly representable. *)
Definition number_of_Z (z : Z) : float :=
  if z <? 0 then - of_uint63 (Uint63Axioms.of_Z (- z)) else of_uint63 (Uint63Axioms.of_Z z).

(** [now] is what [Date.now()] returns.  [parsed - Date.now()] subtracts two
    integral time values: the double result is positive exactly when the
    integer difference is, and is the double nearest to it. *)
Definition computeRetryAfter (now : Z) (headers : gmap string string) (attempt : nat)
  : float :=
  let fallback := (500 * pow2 attempt)%float in
  match headers !! "retry-after" with
  | Some retryAfter =>
      if String.eqb retryAfter "" then fallback
      else
        let asNumber := StringToNumber retryAfter in
        if negb (is_nan asNumber) then (asNumber * 1000)%float
        else
          match Date_parse retryAfter with
          | Some parsed =>
              let diff := parsed - now in
              if 0 <? diff then number_of_Z diff else fallback
          | None => fallback
          end
  | None => fallback
  end.

End Pure.

(** ** [Array.prototype.sort] and the table builder *)

Section Sorting.
Context {A : Type}.

(** What sort reads of [comparefn(a, b)]: a number, NaN being [None].  A
    positive result puts [b] first, a negative one [a]; zero and NaN leave
    the pair as it is. *)
Definition sortsAfter (v : option Z) : bool :=
  match v with Some d => 0 <? d | None => false end.

(** ECMAScript requires the sort to be stable, and for a comparator that is
    a consistent ordering this fixes the result; an insertion sort computes
    it.  Each element is placed in front of the already sorted elements that
    followed it, and moves past those the comparator puts strictly first.
    For a comparator that is not consistent (a date that does not parse
    makes it return NaN) the order is implementation-defined, and the one
    computed here need not be the engine's: the theorems on order assume
    dates that parse, the others use the rearrangement only. *)
Fixpoint insertSorted (comparefn : A -> A -> Completion (option Z)) (x : A) (l : list A)
  : Completion (list A) :=
  match l with
  | [] => Normal [x]
  | y :: rest =>
      v ← comparefn x y;
      if sortsAfter v then r ← insertSorted comparefn x rest; Normal (y :: r)
      else Normal (x :: y :: rest)
  end.

Fixpoint sortList (comparefn : A -> A -> Completion (option Z)) (l : list A)
  : Completion (list A) :=
  match l with
  | [] => Normal []
  | x :: rest => s ← sortList comparefn rest; insertSorted comparefn x s
  end.

End Sorting.

Definition is_undefined (v : JsValue) : bool :=
  match v with JUndefined => true | _ => false end.

(** [undefined] elements are moved to the end without being compared. *)
Definition Array_sort (comparefn : JsValue -> JsValue -> Completion (option Z))
  (elems : list JsValue) : Completion (list JsValue) :=
  s ← sortList comparefn (List.filter (fun v => negb (is_undefined v)) elems);
  Normal (s ++ List.filter is_undefined elems).

Section Table.
Context `{Host}.

(** [bDate - aDate] on two time values: NaN when either is. *)
Definition sub_time (b a : TimeValue) : option Z :=
  match b, a with
  | Some b, Some a => Some (b - a)
  | _, _ => None
  end.

(** The comparator of lines 1148-1152. *)
Definition compareRows (a b : JsValue) : Completion (option Z) :=
  a0 ← get_index0 a;
  let aDate := new_Date_getTime a0 in
  b0 ← get_index0 b;
  let bDate := new_Date_getTime b0 in
  Normal (sub_time bDate aDate).

(** Lines 1144-1154.  The grid is the list of its rows. *)
Definition buildArrayResult (data : JsValue) : Completion (list JsValue) :=
  match data with
  | JArr elems =>
      sorted ← Array_sort compareRows elems;
      Normal (HEADER_ROW :: sorted)
  | _ => Normal [HEADER_ROW]
  end.

End Table.

(** ** The script's world: stored properties, the network, the clock *)

Record Request : Type := {
  method : string;
  muteHttpExceptions : bool;
  headers : gmap string string;
}.

Record HttpResponse : Type := {
  getResponseCode : Z;
  getContentText : string;
  getAllHeaders : list (string * JsValue);
}.

Inductive Event : Type :=
| Fetch (url : string) (request : Request)
| Sleep (ms : float).

Definition is_fetch (e : Event) : bool :=
  match e with Fetch _ _ => true | Sleep _ => false end.

(** [server n] is the response to the [n]-th outbound call (from 0), every
    call being answered; [events] is what the script did so far, oldest
    first. *)
Record World : Type := {
  userProperties : gmap string string;
  server : nat -> HttpResponse;
  clock : Z;
  events : list Event;
}.

Definition calls (w : World) : nat := length (List.filter is_fetch (events w)).

Definition record (e : Event) (w : World) : World :=
  {| userProperties := userProperties w; server := server w; clock := clock w;
     events := events w ++ [e] |}.

Definition Script (A : Type) : Type := World -> Completion A * World.

#[export] Instance Script_ret : MRet Script := fun A a w => (Normal a, w).
#[export] Instance Script_bind : MBind Script :=
  fun A B f m w =>
    match m w with
    | (Normal a, w') => f a w'
    | (Throw e, w') => (Throw e, w')
    end.

Definition lift {A} (c : Completion A) : Script A := fun w => (c, w).
Definition throw {A} (e : JsError) : Script A := fun w => (Throw e, w).

Definition UrlFetchApp_fetch (url : string) (request : Request) : Script HttpResponse :=
  fun w => (Normal (server w (calls w)), record (Fetch url request) w).

(** [Utilities.sleep] is taken to return normally after the pause. *)
Definition Utilities_sleep (ms : float) : Script unit :=
  fun w => (Normal tt, record (Sleep ms) w).

Definition Date_now : Script Z := fun w => (Normal (clock w), w).

Definition getProperty (k : string) : Script (option string) :=
  fun w => (Normal (userProperties w !! k), w).

Definition setProperty (k v : string) : Script unit :=
  fun w => (Normal tt,
            {| userProperties := <[k := v]> (userProperties w); server := server w;
               clock := clock w; events := events w |}).

Definition deleteProperty (k : string) : Script unit :=
  fun w => (Normal tt,
            {| userProperties := delete k (userProperties w); server := server w;
               clock := clock w; events := events w |}).

(** ** The fetch (lines 1058-1139) *)

Record Options : Type := {
  mode : string;
  freq : option string;
  start : option string;
  date : option string;
}.

(** What [fetchSeries] returns: an object with either a [response] or an
    [errorMessage] property. *)
Inductive FetchResult : Type :=
| FResponse (r : JsValue)
| FErrorMessage (m : JsValue).

Definition response (r : FetchResult) : JsValue :=
  match r with FResponse v => v | FErrorMessage _ => JUndefined end.

Definition errorMessage (r : FetchResult) : JsValue :=
  match r with FResponse _ => JUndefined | FErrorMessage m => m end.

(** How one pass through the body of [while (attempt < 2)] ends. *)
Inductive Step : Type :=
| Continue
| Return (r : FetchResult).

Section Fetch.
Context `{Host}.

Definition getApiKey : Script (option string) := getProperty API_KEY_PROP.

(** Lines 1072-1076: the query parameters of a data-mode request. *)
Definition queryParams (key : option string) (options : Options) : list string :=
  (if absent (start options) then []
   else ["start=" +:+ encodeURIComponent (default "" (start options))]) ++
  (if absent (date options) then []
   else ["end=" +:+ encodeURIComponent (default "" (date options))]) ++
  ["limit=" +:+ (if absent key then "100" else "1000")].

(** Lines 1067-1080. *)
Definition buildUrl (key : option string) (seriesId : string) (options : Options)
  : string :=
  let url := BASE_URL +:+ SERIES_PATH +:+ encodeURIComponent seriesId in
  if String.eqb (mode options) "meta" then url
  else
    let url := url +:+ SERIES_DATA_PATH in
    let params := queryParams key options in
    if (0 <? length params)%nat then url +:+ "?" +:+ String.concat "&" params
    else url.

(** Lines 1082-1086. *)
Definition buildRequest (key : option string) : Request :=
  {| method := "get";
     muteHttpExceptions := true;
     headers := if absent key then ∅
                else {[ "Authorization" := "Bearer " +:+ default "" key ]} |}.

(** [data.map(f)]: only an array has a [map] method. *)
Definition Array_map (f : JsValue -> Completion JsValue) (data : JsValue)
  : Completion (list JsValue) :=
  match data with
  | JArr elems => mapM f elems
  | _ => Throw TypeError
  end.

(** [row[1]] of a row that the map below built. *)
Definition index1 (row : JsValue) : JsValue :=
  match row with
  | JArr (_ :: v :: _) => v
  | _ => JUndefined
  end.

(** Lines 1097-1122: the success branch. *)
Definition transformResponse (mode : string) (body : JsValue) : Completion JsValue :=
  isMeta ← (if String.eqb mode "meta"
            then dataset ← get_prop body "dataset"; Normal (truthy dataset)
            else Normal false);
  if (isMeta : bool) then
    dataset ← get_prop body "dataset";
    Normal (JObj [("dataset", dataset)])
  else
    data ← get_prop body "data";
    if truthy data then
      dataArray ← Array_map (fun obs =>
                               d ← get_prop obs "date";
                               v ← get_prop obs "value";
                               Normal (JArr [d; v])) data;
      seriesId ← get_prop body "seriesId";
      status ← get_prop body "status";
      message ← get_prop body "message";
      let transformedResponse :=
        [("data", JArr dataArray); ("seriesId", seriesId);
         ("status", status); ("message", message)] in
      if String.eqb mode "latest" && (0 <? length dataArray)%nat then
        let latest := List.last dataArray JUndefined in
        Normal (JObj (set_assoc "scalar" (index1 latest) transformedResponse))
      else if String.eqb mode "value" && (0 <? length dataArray)%nat then
        Normal (JObj (set_assoc "scalar" (index1 (List.hd JUndefined dataArray))
                        transformedResponse))
      else Normal (JObj transformedResponse)
    else Normal body.

(** [status >= 200 && status < 300 && !body?.error] *)
Definition isSuccess (status : Z) (body : JsValue) : bool :=
  (200 <=? status) && (status <? 300) && negb (truthy (get_prop_opt body "error")).

(** [status === 429 || status >= 500] *)
Definition retryable (status : Z) : bool := (status =? 429) || (500 <=? status).

(** One pass through the loop body (lines 1090-1136).  The two variants of
    the file differ in the success branch only, which is the parameter
    [onSuccess]. *)
Definition attemptOnce (onSuccess : JsValue -> Completion JsValue)
  (url : string) (request : Request) (attempt : nat) : Script Step :=
  response ← UrlFetchApp_fetch url request;
  let status := getResponseCode response in
  let bodyText := getContentText response in
  let body := parseJson bodyText in
  let headers := normalizeHeaders (getAllHeaders response) in
  if isSuccess status body then
    transformed ← lift (onSuccess body);
    mret (Return (FResponse transformed))
  else if (attempt =? 0)%nat && retryable status then
    now ← Date_now;
    let retryAfterMs := computeRetryAfter now headers attempt in
    Utilities_sleep retryAfterMs;;
    mret Continue
  else
    let code := get_prop_opt (get_prop_opt body "error") "code" in
    let messageFromBody := get_prop_opt (get_prop_opt body "error") "message" in
    let message := mapError code status messageFromBody in
    mret (Return (FErrorMessage message)).

(** [let attempt = 0; while (attempt < 2) { ... }] and the statement after
    the loop. *)
Equations? attemptLoop (onSuccess : JsValue -> Completion JsValue)
  (url : string) (request : Request) (attempt : nat) (w : World)
  : Completion FetchResult * World by wf (2 - attempt)%nat lt :=
  attemptLoop onSuccess url request attempt w with decide (attempt < 2)%nat := {
    | left _ with attemptOnce onSuccess url request attempt w := {
        | (Normal Continue, w') := attemptLoop onSuccess url request (S attempt) w';
        | (Normal (Return r), w') := (Normal r, w');
        | (Throw e, w') := (Throw e, w') };
    | right _ :=
        (Normal (FErrorMessage (JStr "Unable to reach DataSetIQ. Please try again.")), w) }.
Proof. lia. Qed.

Definition fetchSeries (seriesId : string) (options : Options) : Script FetchResult :=
  key ← getApiKey;
  attemptLoop (transformResponse (mode options))
    (buildUrl key seriesId options) (buildRequest key) 0.

(** ** Entry points (lines 695-765, 1043-1053) *)

Definition scalarOptions (mode : string) (date : option string) : Options :=
  {| mode := mode; freq := None; start := None; date := date |}.

Definition handleScalar (seriesId : JsValue) (opts : Options) : Script JsValue :=
  series ← lift (normalizeSeriesId seriesId);
  r ← fetchSeries series opts;
  if truthy (errorMessage r) then throw (Error (String_ (errorMessage r)))
  else if is_undefined (get_prop_opt (response r) "scalar")
  then throw (Error "Value not available.")
  else mret (get_prop_opt (response r) "scalar").

Definition DSIQ_LATEST (seriesId : JsValue) : Script JsValue :=
  handleScalar seriesId (scalarOptions "latest" None).

Definition DSIQ_VALUE (seriesId : JsValue) (date : JsValue) : Script JsValue :=
  normalizedDate ← lift (normalizeDateInput date);
  if absent normalizedDate then throw (Error "Date is required for DSIQ_VALUE.")
  else handleScalar seriesId (scalarOptions "value" normalizedDate).

Definition DSIQ_YOY (seriesId : JsValue) : Script JsValue :=
  handleScalar seriesId (scalarOptions "yoy" None).

(** [data.length >= 100] *)
Definition length_ge_100 (data : JsValue) : bool :=
  match data with
  | JArr elems => (100 <=? length elems)%nat
  | JStr s => (100 <=? String.length s)%nat
  | _ => false
  end.

(** Lines 713-715; the first characters of the notice are as the file has
    them. *)
Definition freeTierNotice : string :=
  "âš ï¸ Free tier limited to 100 most recent observations".

Definition upgradeLink : string := "Upgrade for full access: datasetiq.com/pricing".

Definition upgradeRows : list JsValue :=
  [JArr [JStr ""; JStr ""];
   JArr [JStr freeTierNotice; JStr ""];
   JArr [JStr upgradeLink; JStr ""]].

Definition DSIQ (seriesId frequency startDate : JsValue) : Script (list JsValue) :=
  series ← lift (normalizeSeriesId seriesId);
  let freq := normalizeOptionalString frequency in
  start ← lift (normalizeDateInput startDate);
  r ← fetchSeries series {| mode := "table"; freq := freq; start := start; date := None |};
  if truthy (errorMessage r) then throw (Error (String_ (errorMessage r)))
  else
    let data := let d := get_prop_opt (response r) "data" in
                if nullish d then JArr [] else d in
    result ← lift (buildArrayResult data);
    key ← getApiKey;
    if absent key && length_ge_100 data then mret (result ++ upgradeRows)
    else mret result.

(** ** The stored credential (lines 770-785) *)

Definition saveApiKey (key : JsValue) : Script unit :=
  let trimmed := normalizeOptionalString key in
  if absent trimmed then throw (Error "API key is required.")
  else setProperty API_KEY_PROP (default "" trimmed).

Definition clearApiKey : Script unit := deleteProperty API_KEY_PROP.

End Fetch.

(** ** The older variant of the file (lines 1-581)

    It reads the observations as the provider sends them, as
    [[date, value]] pairs, and hands the parsed body on unchanged. *)

Module Legacy.
Section Legacy.
Context `{Host}.

Definition SERIES_PATH := "/api/public/sheets/series/".

(** Lines 402-406: the [params] object, in insertion order. *)
Definition params (options : Options) : list (string * string) :=
  (if String.eqb (mode options) "" then [] else [("mode", mode options)]) ++
  (if absent (freq options) then [] else [("freq", default "" (freq options))]) ++
  (if absent (start options) then [] else [("start", default "" (start options))]) ++
  (if absent (date options) then [] else [("date", default "" (date options))]).

(** Lines 408-411. *)
Definition buildUrl (seriesId : string) (options : Options) : string :=
  let query :=
    String.concat "&"
      (List.map (fun '(k, v) => encodeURIComponent k +:+ "=" +:+ encodeURIComponent v)
         (params options)) in
  BASE_URL +:+ SERIES_PATH +:+ encodeURIComponent seriesId +:+
  (if String.eqb query "" then "" else "?" +:+ query).

(** Lines 397-445; on success [return { response: body }]. *)
Definition fetchSeries (seriesId : string) (options : Options) : Script FetchResult :=
  key ← getApiKey;
  attemptLoop (fun body => Normal body)
    (buildUrl seriesId options) (buildRequest key) 0.

End Legacy.
End Legacy.

(** ** A small executable host

    An instance of [Host] for evaluating the program on closed inputs.  Each
    function covers the fragment its comment names and is meant to agree
    with an Apps Script runtime there; strings are byte strings (UTF-8). *)

Module DemoHost.

Definition code (c : ascii) : nat := nat_of_ascii c.

Definition isDigit (c : ascii) : bool := (48 <=? code c)%nat && (code c <=? 57)%nat.

Definition digit (c : ascii) : Z := Z.of_nat (code c) - 48.

(** Space, tab, line feed, vertical tab, form feed, carriage return. *)
Definition isSpace (c : ascii) : bool :=
  (code c =? 32)%nat || ((9 <=? code c)%nat && (code c <=? 13)%nat).

Fixpoint trimStart (s : string) : string :=
  match s with
  | String c rest => if isSpace c then trimStart rest else s
  | EmptyString => EmptyString
  end.

Definition reverse (s : string) : string :=
  String.string_of_list_ascii (List.rev (String.list_ascii_of_string s)).

(** [trim], for ASCII white space. *)
Definition trim (s : string) : string := reverse (trimStart (reverse (trimStart s))).

Fixpoint mapChars (f : ascii -> ascii) (s : string) : string :=
  match s with
  | String c rest => String (f c) (mapChars f rest)
  | EmptyString => EmptyString
  end.

(** [toLowerCase], for ASCII letters. *)
Definition toLowerCase (s : string) : string :=
  mapChars (fun c => if (65 <=? code c)%nat && (code c <=? 90)%nat
                     then ascii_of_nat (code c + 32) else c) s.

Definition isAlnum (c : ascii) : bool :=
  isDigit c || ((65 <=? code c)%nat && (code c <=? 90)%nat)
  || ((97 <=? code c)%nat && (code c <=? 122)%nat).

(** The characters [encodeURIComponent] leaves alone. *)
Definition unreserved (c : ascii) : bool :=
  isAlnum c || existsb (Ascii.eqb c) (String.list_ascii_of_string "-_.!~*'()").

Definition hexDigit (n : nat) : ascii :=
  List.nth n (String.list_ascii_of_string "0123456789ABCDEF") "0"%char.

(** Every other byte of the UTF-8 text becomes [%XX]. *)
Fixpoint percentEncode (s : string) : string :=
  match s with
  | EmptyString => EmptyString
  | String c rest =>
      if unreserved c then String c (percentEncode rest)
      else String "%" (String (hexDigit (code c / 16))
                         (String (hexDigit (code c mod 16)) (percentEncode rest)))
  end.

(** *** Numbers *)

Fixpoint readDigits (acc : Z) (n : nat) (s : string) : Z * nat * string :=
  match s with
  | String c rest =>
      if isDigit c then readDigits (acc * 10 + digit c) (S n) rest else (acc, n, s)
  | EmptyString => (acc, n, s)
  end.

(** The double nearest to [m / 10^k]: exact operands and one correctly
    rounded division, for [m] below 2^53 and [k] at most 18. *)
Definition decimal (negative : bool) (m : Z) (k : nat) : float :=
  let x := (number_of_Z m / number_of_Z (10 ^ Z.of_nat k))%float in
  if negative then (- x)%float else x.

(** A decimal literal without exponent: digits, then an optional fraction. *)
Definition readDecimal (negative : bool) (s : string) : option (float * string) :=
  let '(i, ni, rest) := readDigits 0 0 s in
  if (ni =? 0)%nat then None
  else
    match rest with
    | String "." rest' =>
        let '(m, nf, rest'') := readDigits i 0 rest' in
        if (nf =? 0)%nat then None else Some (decimal negative m nf, rest'')
    | _ => Some (decimal negative i 0, rest)
    end.

(** [Number(s)] for decimal literals without exponent, the empty string and
    the infinities; everything else is NaN here. *)
Definition stringToNumber (s : string) : float :=
  let t := trim s in
  if String.eqb t "" then 0%float
  else if String.eqb t "Infinity" || String.eqb t "+Infinity" then infinity
  else if String.eqb t "-Infinity" then neg_infinity
  else
    let '(negative, body) :=
      match t with
      | String "-" rest => (true, rest)
      | String "+" rest => (false, rest)
      | _ => (false, t)
      end in
    match readDecimal negative body with
    | Some (x, EmptyString) => x
    | _ => nan
    end.

(** The integer a number is, when it is one. *)
Definition integerOfNumber (x : float) : option Z :=
  match Prim2SF x with
  | S754_zero _ => Some 0
  | S754_finite s m e =>
      let magnitude :=
        if 0 <=? e then Some (Z.pos m * 2 ^ e)
        else if Z.pos m mod 2 ^ (- e) =? 0 then Some (Z.pos m / 2 ^ (- e))
        else None in
      (fun z : Z => if s then - z else z) <$> magnitude
  | _ => None
  end.

(** *** Dates *)

Definition isLeap (y : Z) : bool :=
  ((y mod 4 =? 0) && negb (y mod 100 =? 0)) || (y mod 400 =? 0).

Definition daysInMonth (y m : Z) : Z :=
  if m =? 2 then (if isLeap y then 29 else 28)
  else if (m =? 4) || (m =? 6) || (m =? 9) || (m =? 11) then 30 else 31.

(** Days from 1970-01-01 to the civil date [y-m-d]. *)
Definition daysFromCivil (y m d : Z) : Z :=
  let y' := if m <=? 2 then y - 1 else y in
  let era := y' / 400 in
  let yoe := y' - era * 400 in
  let doy := (153 * (if 2 <? m then m - 3 else m + 9) + 2) / 5 + d - 1 in
  let doe := yoe * 365 + yoe / 4 - yoe / 100 + doy in
  era * 146097 + doe - 719468.

(** The civil date [(y, m, d)] that is [days] after 1970-01-01. *)
Definition civilFromDays (days : Z) : Z * Z * Z :=
  let z := days + 719468 in
  let era := z / 146097 in
  let doe := z - era * 146097 in
  let yoe := (doe - doe / 1460 + doe / 36524 - doe / 146096) / 365 in
  let doy := doe - (365 * yoe + yoe / 4 - yoe / 100) in
  let mp := (5 * doy + 2) / 153 in
  let d := doy - (153 * mp + 2) / 5 + 1 in
  let m := if mp <? 10 then mp + 3 else mp - 9 in
  ((if m <=? 2 then yoe + era * 400 + 1 else yoe + era * 400), m, d).

Definition msPerDay : Z := 86400000.

(** Exactly [n] digits. *)
Definition readFixed (n : nat) (s : string) : option (Z * string) :=
  let '(v, k, rest) := readDigits 0 0 (String.substring 0 n s) in
  if (k =? n)%nat && String.eqb rest ""
  then Some (v, String.substring n (String.length s - n) s) else None.

Definition expect (c : ascii) (s : string) : option string :=
  match s with
  | String c' rest => if Ascii.eqb c c' then Some rest else None
  | EmptyString => None
  end.

Definition civilTime (y m d hh mm ss : Z) : TimeValue :=
  if (1 <=? m) && (m <=? 12) && (1 <=? d) && (d <=? daysInMonth y m)
     && (hh <? 24) && (mm <? 60) && (ss <? 60)
  then Some (daysFromCivil y m d * msPerDay + ((hh * 60 + mm) * 60 + ss) * 1000)
  else None.

(** [YYYY-MM-DD] and [YYYY-MM-DDTHH:mm:ssZ], both UTC. *)
Definition parseIsoDate (s : string) : TimeValue :=
  '(y, s) ← readFixed 4 s;
  s ← expect "-" s;
  '(m, s) ← readFixed 2 s;
  s ← expect "-" s;
  '(d, s) ← readFixed 2 s;
  if String.eqb s "" then civilTime y m d 0 0 0
  else
    s ← expect "T" s;
    '(hh, s) ← readFixed 2 s;
    s ← expect ":" s;
    '(mm, s) ← readFixed 2 s;
    s ← expect ":" s;
    '(ss, s) ← readFixed 2 s;
    if String.eqb s "Z" then civilTime y m d hh mm ss else None.

Definition monthNames : list string :=
  ["Jan"; "Feb"; "Mar"; "Apr"; "May"; "Jun"; "Jul"; "Aug"; "Sep"; "Oct"; "Nov"; "Dec"].

Fixpoint indexOf (x : string) (l : list string) (i : Z) : option Z :=
  match l with
  | [] => None
  | y :: rest => if String.eqb x y then Some i else indexOf x rest (i + 1)
  end.

(** The HTTP date [Sun, 06 Nov 1994 08:49:37 GMT]; the day name is not
    checked against the date. *)
Definition parseHttpDate (s : string) : TimeValue :=
  s ← expect "," (String.substring 3 (String.length s - 3) s);
  s ← expect " " s;
  '(d, s) ← readFixed 2 s;
  s ← expect " " s;
  m ← indexOf (String.substring 0 3 s) monthNames 1;
  s ← expect " " (String.substring 3 (String.length s - 3) s);
  '(y, s) ← readFixed 4 s;
  s ← expect " " s;
  '(hh, s) ← readFixed 2 s;
  s ← expect ":" s;
  '(mm, s) ← readFixed 2 s;
  s ← expect ":" s;
  '(ss, s) ← readFixed 2 s;
  if String.eqb s " GMT" then civilTime y m d hh mm ss else None.

(** [new Date(v).getTime()]: the two string formats above, and the numbers
    [null], booleans and integral numbers convert to. *)
Definition getTime (v : JsValue) : TimeValue :=
  match v with
  | JStr s => match parseIsoDate s with Some t => Some t | None => parseHttpDate s end
  | JNull => Some 0
  | JBool b => Some (if b then 1 else 0)
  | JNum n =>
      match integerOfNumber n with
      | Some z => if Z.abs z <=? 8640000000000000 then Some z else None
      | None => None
      end
  | JDate t => t
  | _ => None
  end.

Definition pad (n : nat) (z : Z) : string :=
  let digits := pretty.pretty z in
  String.concat "" (List.repeat "0" (n - String.length digits)) +:+ digits.

(** [yyyy-MM-dd] in UTC, for the years 0 to 9999. *)
Definition formatDate (t : Z) : string :=
  let '(y, m, d) := civilFromDays (t / msPerDay) in
  pad 4 y +:+ "-" +:+ pad 2 m +:+ "-" +:+ pad 2 d.
(** *** JSON

    [parse] reads JSON text without exponents in numbers and without
    [\u] escapes in strings; [json] writes such text. *)

Definition doubleQuote : ascii := ascii_of_nat 34.
Definition backslash : ascii := ascii_of_nat 92.

Definition isJsonSpace (c : ascii) : bool :=
  (code c =? 32)%nat || (code c =? 9)%nat || (code c =? 10)%nat || (code c =? 13)%nat.

Fixpoint skipSpace (s : string) : string :=
  match s with
  | String c rest => if isJsonSpace c then skipSpace rest else s
  | EmptyString => EmptyString
  end.

Definition unescape (c : ascii) : option ascii :=
  if Ascii.eqb c doubleQuote || Ascii.eqb c backslash || Ascii.eqb c "/" then Some c
  else if Ascii.eqb c "b" then Some (ascii_of_nat 8)
  else if Ascii.eqb c "f" then Some (ascii_of_nat 12)
  else if Ascii.eqb c "n" then Some (ascii_of_nat 10)
  else if Ascii.eqb c "r" then Some (ascii_of_nat 13)
  else if Ascii.eqb c "t" then Some (ascii_of_nat 9)
  else None.

(** The characters of a string literal, after its opening quote. *)
Fixpoint readString (s : string) : option (string * string) :=
  match s with
  | EmptyString => None
  | String c rest =>
      if Ascii.eqb c doubleQuote then Some (EmptyString, rest)
      else if Ascii.eqb c backslash then
        match rest with
        | String e rest' =>
            x ← unescape e;
            '(t, r) ← readString rest';
            Some (String x t, r)
        | EmptyString => None
        end
      else if (code c <? 32)%nat then None
      else '(t, r) ← readString rest; Some (String c t, r)
  end.

Definition stripPrefix (p s : string) : option string :=
  if String.prefix p s
  then Some (String.substring (String.length p) (String.length s - String.length p) s)
  else None.

Definition readNumber (s : string) : option (float * string) :=
  let '(negative, body) :=
    match s with String "-" rest => (true, rest) | _ => (false, s) end in
  match body with
  | String "0" (String c _) => if isDigit c then None else readDecimal negative body
  | _ => readDecimal negative body
  end.

Definition hasKey (k : string) (props : list (string * JsValue)) : bool :=
  existsb (fun p => String.eqb k (fst p)) props.

(** Of two members with one key the later one stands. *)
Fixpoint readValue (fuel : nat) (s : string) {struct fuel} : option (JsValue * string) :=
  match fuel with
  | O => None
  | S fuel =>
      match skipSpace s with
      | EmptyString => None
      | String c rest as s' =>
          if Ascii.eqb c "{" then
            match skipSpace rest with
            | String "}" r => Some (JObj [], r)
            | _ => '(props, r) ← readMembers fuel rest; Some (JObj props, r)
            end
          else if Ascii.eqb c "[" then
            match skipSpace rest with
            | String "]" r => Some (JArr [], r)
            | _ => '(elems, r) ← readElements fuel rest; Some (JArr elems, r)
            end
          else if Ascii.eqb c doubleQuote then
            '(t, r) ← readString rest; Some (JStr t, r)
          else if Ascii.eqb c "n" then r ← stripPrefix "null" s'; Some (JNull, r)
          else if Ascii.eqb c "t" then r ← stripPrefix "true" s'; Some (JBool true, r)
          else if Ascii.eqb c "f" then r ← stripPrefix "false" s'; Some (JBool false, r)
          else '(x, r) ← readNumber s'; Some (JNum x, r)
      end
  end
with readElements (fuel : nat) (s : string) {struct fuel}
  : option (list JsValue * string) :=
  match fuel with
  | O => None
  | S fuel =>
      '(v, r) ← readValue fuel s;
      match skipSpace r with
      | String "," r' => '(vs, r'') ← readElements fuel r'; Some (v :: vs, r'')
      | String "]" r' => Some ([v], r')
      | _ => None
      end
  end
with readMembers (fuel : nat) (s : string) {struct fuel}
  : option (list (string * JsValue) * string) :=
  match fuel with
  | O => None
  | S fuel =>
      r ← expect doubleQuote (skipSpace s);
      '(k, r) ← readString r;
      r ← expect ":" (skipSpace r);
      '(v, r) ← readValue fuel r;
      match skipSpace r with
      | String "," r' =>
          '(props, r'') ← readMembers fuel r';
          Some (if hasKey k props then props else (k, v) :: props, r'')
      | String "}" r' => Some ([(k, v)], r')
      | _ => None
      end
  end.

Definition parse (s : string) : option JsValue :=
  '(v, r) ← readValue (2 * String.length s + 2) s;
  if String.eqb (skipSpace r) "" then Some v else None.

Fixpoint escape (s : string) : string :=
  match s with
  | EmptyString => EmptyString
  | String c rest =>
      if Ascii.eqb c doubleQuote || Ascii.eqb c backslash
      then String backslash (String c (escape rest))
      else String c (escape rest)
  end.

Definition quoted (s : string) : string :=
  String doubleQuote (escape s) +:+ String doubleQuote EmptyString.

(** JSON text of a value whose numbers are integers and whose strings hold
    no control character. *)
Fixpoint json (v : JsValue) : string :=
  match v with
  | JBool true => "true"
  | JBool false => "false"
  | JNum n => match integerOfNumber n with Some z => pretty.pretty z | None => "null" end
  | JStr s => quoted s
  | JArr elems => "[" +:+ String.concat "," (List.map json elems) +:+ "]"
  | JObj props =>
      "{" +:+ String.concat "," (List.map (fun p => quoted (fst p) +:+ ":" +:+ json (snd p)) props)
      +:+ "}"
  | JUndefined | JNull | JDate _ => "null"
  end.

(** [String(v)]: numbers that are not integers and valid dates are outside
    the fragment and give the empty string. *)
Fixpoint toString (v : JsValue) : string :=
  match v with
  | JUndefined => "undefined"
  | JNull => "null"
  | JBool true => "true"
  | JBool false => "false"
  | JNum n =>
      if is_nan n then "NaN"
      else if (n =? infinity)%float then "Infinity"
      else if (n =? neg_infinity)%float then "-Infinity"
      else match integerOfNumber n with Some z => pretty.pretty z | None => "" end
  | JStr s => s
  | JDate None => "Invalid Date"
  | JDate (Some _) => ""
  | JArr elems =>
      String.concat "," (List.map (fun e => if nullish e then "" else toString e) elems)
  | JObj _ => "[object Object]"
  end.

Definition host : Host := {|
  JSON_parse := parse;
  encodeURIComponent := percentEncode;
  String_trim := trim;
  String_toLowerCase := toLowerCase;
  ToString := toString;
  StringToNumber := stringToNumber;
  Date_getTime := getTime;
  Utilities_formatDate := formatDate;
|}.

(** A reply with the given status, JSON body and headers. *)
Definition reply (status : Z) (body : JsValue) (headers : list (string * JsValue))
  : HttpResponse :=
  {| getResponseCode := status; getContentText := json body; getAllHeaders := headers |}.

(** A world whose server sends [replies] in turn, and 503 with an empty
    body from then on; nothing has happened in it yet. *)
Definition world (properties : gmap string string) (replies : list HttpResponse)
  : World :=
  {| userProperties := properties;
     server := fun n => List.nth n replies
                          {| getResponseCode := 503; getContentText := "";
                             getAllHeaders := [] |};
     clock := 1700000000000;
     events := [] |}.

End DemoHost.

(** ** Notions the properties are stated with *)

Section Notions.
Context `{Host}.

Definition bodyOf (r : HttpResponse) : JsValue := parseJson (getContentText r).

(** The response is a success: 2xx and no truthy [error] in the body. *)
Definition succeeded (r : HttpResponse) : bool :=
  isSuccess (getResponseCode r) (bodyOf r).

(** The response is a transient failure: 429 or 5xx. *)
Definition transient (r : HttpResponse) : bool := retryable (getResponseCode r).

Definition firstResponse (w : World) : HttpResponse := server w (calls w).
Definition secondResponse (w : World) : HttpResponse := server w (S (calls w)).

(** The response that ends the fetch: the second one after a transient
    first one, else the first. *)
Definition decisive (w : World) : HttpResponse :=
  if transient (firstResponse w) then secondResponse w else firstResponse w.

(** The message a failed response is translated to (lines 1133-1135). *)
Definition errorOf (r : HttpResponse) : JsValue :=
  mapError (get_prop_opt (get_prop_opt (bodyOf r) "error") "code")
    (getResponseCode r)
    (get_prop_opt (get_prop_opt (bodyOf r) "error") "message").

(** What the fetch returns on a response that ends it. *)
Definition outcome (onSuccess : JsValue -> Completion JsValue) (r : HttpResponse)
  : Completion FetchResult :=
  if succeeded r then transformed ← onSuccess (bodyOf r); Normal (FResponse transformed)
  else Normal (FErrorMessage (errorOf r)).

(** The pause before the retry. *)
Definition retryDelay (w : World) : float :=
  computeRetryAfter (clock w) (normalizeHeaders (getAllHeaders (firstResponse w))) 0.

(** What a fetch adds to the log. *)
Definition fetchEvents (url : string) (request : Request) (w : World) : list Event :=
  if transient (firstResponse w)
  then [Fetch url request; Sleep (retryDelay w); Fetch url request]
  else [Fetch url request].

Definition extend (evs : list Event) (w : World) : World :=
  {| userProperties := userProperties w; server := server w; clock := clock w;
     events := events w ++ evs |}.

(** A logical observation, and the two shapes a provider sends it in:
    the pair [[date, value]] and the object [{date, value}]. *)
Record Observation : Type := { obs_date : string; obs_value : float }.

Definition pairForm (o : Observation) : JsValue :=
  JArr [JStr (obs_date o); JNum (obs_value o)].

Definition objectForm (o : Observation) : JsValue :=
  JObj [("date", JStr (obs_date o)); ("value", JNum (obs_value o))].

(** [new Date(date).getTime()] of an observation. *)
Definition parsedDate (o : Observation) : TimeValue := Date_parse (obs_date o).

(** [a] may stand before [b] in a list that is non-increasing by parsed date. *)
Definition notBefore (a b : Observation) : Prop :=
  match parsedDate a, parsedDate b with
  | Some ta, Some tb => tb <= ta
  | _, _ => False
  end.

Definition hasDate (t : Z) (o : Observation) : bool :=
  match parsedDate o with Some t' => t' =? t | None => false end.

(** The row [[obs.date, obs.value]] the newer variant makes of an element
    of [body.data]. *)
Definition pairOf (obs : JsValue) : JsValue :=
  JArr [get_prop_opt obs "date"; get_prop_opt obs "value"].

(** The body carries no observation: its [data] is the empty list, or it
    has no [data] and no [scalar]. *)
Definition noObservations (body : JsValue) : Prop :=
  get_prop_opt body "data" = JArr []
  \/ (nullish body = false
      /\ truthy (get_prop_opt body "data") = false
      /\ get_prop_opt body "scalar" = JUndefined).

Definition scalarMode (mode : string) : Prop :=
  mode = "latest" \/ mode = "value" \/ mode = "yoy".

(** The fixed messages of the six provider error codes. *)
Definition codeMessages : list (string * string) :=
  [("NO_KEY", "Please open DataSetIQ sidebar to connect.");
   ("INVALID_KEY", "Invalid API Key. Reconnect at datasetiq.com/dashboard/api-keys");
   ("REVOKED_KEY", "API Key revoked. Get a new key at datasetiq.com/dashboard/api-keys");
   ("FREE_LIMIT", "Free plan limit reached. Upgrade at datasetiq.com/pricing");
   ("QUOTA_EXCEEDED", "Daily Quota Exceeded. Upgrade at datasetiq.com/pricing");
   ("PLAN_REQUIRED", "Upgrade required. Visit datasetiq.com/pricing")].

(** The code is none of the six. *)
Definition otherCode (code : JsValue) : Prop :=
  forall c m, In (c, m) codeMessages -> code <> JStr c.

End Notions.

Section Proofs.
Context `{Host}.

Lemma calls_record_fetch url request w :
  calls (record (Fetch url request) w) = S (calls w).
Proof.
  unfold calls, record; simpl.
  rewrite List.filter_app, List.length_app; simpl. lia.
Qed.

Lemma calls_record_sleep ms w : calls (record (Sleep ms) w) = calls w.
Proof.
  unfold calls, record; simpl.
  rewrite List.filter_app, List.length_app; simpl. lia.
Qed.

Lemma transient_not_succeeded r : transient r = true -> succeeded r = false.
Proof.
  unfold transient, succeeded, retryable, isSuccess.
  destruct (getResponseCode r =? 429) eqn:E1;
    destruct (500 <=? getResponseCode r) eqn:E2;
    destruct (200 <=? getResponseCode r) eqn:E3;
    destruct (getResponseCode r <? 300) eqn:E4; simpl; try reflexivity; try discriminate; lia.
Qed.

Lemma attemptOnce_unfold onSuccess url request attempt w :
  attemptOnce onSuccess url request attempt w =
  let r := firstResponse w in
  let w1 := record (Fetch url request) w in
  if succeeded r then
    match onSuccess (bodyOf r) with
    | Normal t => (Normal (Return (FResponse t)), w1)
    | Throw e => (Throw e, w1)
    end
  else if (attempt =? 0)%nat && transient r then
    (Normal Continue,
     record (Sleep (computeRetryAfter (clock w)
                      (normalizeHeaders (getAllHeaders r)) attempt)) w1)
  else (Normal (Return (FErrorMessage (errorOf r))), w1).
Proof.
  unfold attemptOnce, UrlFetchApp_fetch, mbind, Script_bind, firstResponse,
    succeeded, transient, bodyOf, errorOf, lift, mret, Script_ret,
    Date_now, Utilities_sleep; simpl.
  destruct (isSuccess _ _); [destruct (onSuccess _); reflexivity|].
  destruct ((attempt =? 0)%nat && retryable _); reflexivity.
Qed.

Lemma record_record_record e1 e2 e3 w :
  record e3 (record e2 (record e1 w)) = extend [e1; e2; e3] w.
Proof.
  unfold record, extend; simpl. f_equal.
  rewrite <- !List.app_assoc. reflexivity.
Qed.

Lemma firstResponse_after_retry url request ms w :
  firstResponse (record (Sleep ms) (record (Fetch url request) w)) = secondResponse w.
Proof.
  unfold firstResponse, secondResponse.
  rewrite calls_record_sleep, calls_record_fetch. reflexivity.
Qed.

Lemma attemptLoop_0 onSuccess url request w :
  attemptLoop onSuccess url request 0 w =
  (outcome onSuccess (decisive w), extend (fetchEvents url request w) w).
Proof.
  simp attemptLoop.
  destruct (decide (0 < 2)%nat) as [Hlt|]; [|lia].
  simp attemptLoop. rewrite attemptOnce_unfold; cbv zeta.
  unfold outcome, decisive, fetchEvents.
  destruct (transient (firstResponse w)) eqn:Ht.
  - rewrite (transient_not_succeeded _ Ht); simpl.
    simp attemptLoop.
    destruct (decide (1 < 2)%nat) as [Hlt1|]; [|lia].
    simp attemptLoop. rewrite attemptOnce_unfold; cbv zeta.
    rewrite firstResponse_after_retry, record_record_record.
    fold (retryDelay w).
    destruct (succeeded (secondResponse w)); simpl.
    + destruct (onSuccess _); simpl; simp attemptLoop; reflexivity.
    + simp attemptLoop. reflexivity.
  - rewrite Bool.andb_false_r.
    destruct (succeeded (firstResponse w)); simpl.
    + destruct (onSuccess _); simpl; simp attemptLoop; reflexivity.
    + simp attemptLoop. reflexivity.
Qed.

Lemma fetchSeries_unfold seriesId options w :
  fetchSeries seriesId options w =
  let key := userProperties w !! API_KEY_PROP in
  (outcome (transformResponse (mode options)) (decisive w),
   extend (fetchEvents (buildUrl key seriesId options) (buildRequest key) w) w).
Proof.
  unfold fetchSeries, getApiKey, getProperty, mbind, Script_bind; simpl.
  apply attemptLoop_0.
Qed.

Lemma Legacy_fetchSeries_unfold seriesId options w :
  Legacy.fetchSeries seriesId options w =
  let key := userProperties w !! API_KEY_PROP in
  (outcome (fun body => Normal body) (decisive w),
   extend (fetchEvents (Legacy.buildUrl seriesId options) (buildRequest key) w) w).
Proof.
  unfold Legacy.fetchSeries, getApiKey, getProperty, mbind, Script_bind; simpl.
  apply attemptLoop_0.
Qed.

Lemma calls_extend evs w :
  calls (extend evs w) = (calls w + length (List.filter is_fetch evs))%nat.
Proof.
  unfold calls, extend; simpl. rewrite List.filter_app, List.length_app. reflexivity.
Qed.

Lemma transient_iff r :
  transient r = true <-> getResponseCode r = 429 \/ 500 <= getResponseCode r.
Proof.
  unfold transient, retryable.
  rewrite Bool.orb_true_iff, Z.eqb_eq, Z.leb_le. reflexivity.
Qed.

(** C1. For every sequence of HTTP responses, [fetchSeries] issues one or
    two outbound calls; it issues the second one if and only if the first
    response has status 429 or at least 500 and was not a success; and when
    the second response is again 429 or 5xx the fetch ends there, with an
    error message and no third call. *)
Theorem C1_retry_iff_first_transient_and_no_third_call
  (seriesId : string) (options : Options) (w : World) :
  let result := fst (fetchSeries seriesId options w) in
  let w' := snd (fetchSeries seriesId options w) in
  let first := firstResponse w in
  let second := secondResponse w in
  (calls w' = calls w + 1 \/ calls w' = calls w + 2)%nat /\
  (calls w' = (calls w + 2)%nat <->
   (getResponseCode first = 429 \/ 500 <= getResponseCode first)
   /\ succeeded first = false) /\
  ((getResponseCode first = 429 \/ 500 <= getResponseCode first) ->
   (getResponseCode second = 429 \/ 500 <= getResponseCode second) ->
   calls w' = (calls w + 2)%nat /\
   result = Normal (FErrorMessage (errorOf second))).
Proof.
  cbv zeta. rewrite fetchSeries_unfold; cbv zeta; simpl fst; simpl snd.
  rewrite calls_extend. unfold fetchEvents, decisive.
  rewrite <- !transient_iff.
  destruct (transient (firstResponse w)) eqn:Ht; simpl.
  - pose proof (transient_not_succeeded _ Ht) as Hs.
    split; [right; reflexivity|].
    split; [split; auto|].
    intros _ Ht2. split; [reflexivity|]. unfold outcome.
    rewrite (transient_not_succeeded _ Ht2). reflexivity.
  - split; [left; lia|].
    split; [split; [lia|intros [? _]; discriminate]|].
    discriminate.
Qed.

Lemma is_string_false code c : code <> JStr c -> is_string code c = false.
Proof.
  destruct code; simpl; try reflexivity.
  intros Hne. apply String.eqb_neq. congruence.
Qed.

Lemma mapError_otherCode code status fallback :
  otherCode code ->
  mapError code status fallback =
  if status =? 429 then JStr "Rate limited. Please retry shortly."
  else if status >=? 500 then JStr "Server unavailable. Please retry."
  else if truthy fallback then fallback else JStr "Unable to fetch data.".
Proof.
  intros Hother. unfold mapError.
  rewrite !is_string_false; [reflexivity| | | | | |];
    eapply Hother; simpl; eauto 10.
Qed.

(** C5. [mapError] on the code REVOKED_KEY returns the fixed API-Key-revoked
    message for every HTTP status and every fallback; each of the six codes
    has its fixed message whatever the status and fallback; for any other
    code, status 429 gives the rate-limit message and a status of 500 or
    more the server-unavailable message whatever the fallback; otherwise
    the result is the fallback when there is one, and the generic
    unable-to-fetch message when there is none. *)
Theorem C5_mapError_priority :
  (forall status fallback,
      mapError (JStr "REVOKED_KEY") status fallback =
      JStr "API Key revoked. Get a new key at datasetiq.com/dashboard/api-keys") /\
  (forall code message status fallback,
      In (code, message) codeMessages ->
      mapError (JStr code) status fallback = JStr message) /\
  (forall code fallback,
      otherCode code ->
      mapError code 429 fallback = JStr "Rate limited. Please retry shortly.") /\
  (forall code status fallback,
      otherCode code -> 500 <= status ->
      mapError code status fallback = JStr "Server unavailable. Please retry.") /\
  (forall code status fallback,
      otherCode code -> status <> 429 -> status < 500 ->
      mapError code status fallback =
      if truthy fallback then fallback else JStr "Unable to fetch data.") /\
  (forall code status,
      otherCode code -> status <> 429 -> status < 500 ->
      mapError code status JUndefined = JStr "Unable to fetch data.").
Proof.
  split; [reflexivity|].
  split.
  { intros code message status fallback Hin. simpl in Hin.
    repeat (destruct Hin as [Heq|Hin]; [inversion Heq; reflexivity|]).
    destruct Hin. }
  split.
  { intros code fallback Hother. rewrite mapError_otherCode by assumption. reflexivity. }
  split.
  { intros code status fallback Hother Hge. rewrite mapError_otherCode by assumption.
    destruct (status =? 429) eqn:E; [lia|].
    destruct (status >=? 500) eqn:E'; [reflexivity|lia]. }
  split.
  { intros code status fallback Hother Hne Hlt. rewrite mapError_otherCode by assumption.
    destruct (status =? 429) eqn:E; [lia|].
    destruct (status >=? 500) eqn:E'; [lia|reflexivity]. }
  intros code status Hother Hne Hlt. rewrite mapError_otherCode by assumption.
  destruct (status =? 429) eqn:E; [lia|].
  destruct (status >=? 500) eqn:E'; [lia|reflexivity].
Qed.

(** C4. [computeRetryAfter] returns 2000 for the header value 2 (a runtime
    reads the string 2 as the number 2); it returns 500 * 2^attempt, which
    is 500 for attempt 0, when the header is absent or reads neither as a
    number nor as a date; and for a header that is no number but reads as a
    date it returns the difference to the clock when that is positive, and
    500 * 2^attempt when it is not. *)
Theorem C4_computeRetryAfter (now : Z) (headers : gmap string string) (attempt : nat) :
  (headers !! "retry-after" = Some "2" -> StringToNumber "2" = 2%float ->
   computeRetryAfter now headers attempt = 2000%float) /\
  (headers !! "retry-after" = None ->
   computeRetryAfter now headers attempt = (500 * pow2 attempt)%float) /\
  (forall retryAfter,
      headers !! "retry-after" = Some retryAfter ->
      is_nan (StringToNumber retryAfter) = true -> Date_parse retryAfter = None ->
      computeRetryAfter now headers attempt = (500 * pow2 attempt)%float) /\
  (500 * pow2 0)%float = 500%float /\
  (forall retryAfter parsed,
      headers !! "retry-after" = Some retryAfter -> retryAfter <> "" ->
      is_nan (StringToNumber retryAfter) = true ->
      Date_parse retryAfter = Some parsed ->
      (0 < parsed - now ->
       computeRetryAfter now headers attempt = number_of_Z (parsed - now)) /\
      (parsed - now <= 0 ->
       computeRetryAfter now headers attempt = (500 * pow2 attempt)%float)).
Proof.
  unfold computeRetryAfter.
  split; [intros -> Hnum; simpl; rewrite Hnum; reflexivity|].
  split; [intros ->; reflexivity|].
  split.
  { intros retryAfter -> Hnan Hdate. rewrite Hnan, Hdate; simpl.
    destruct (String.eqb retryAfter ""); reflexivity. }
  split; [reflexivity|].
  intros retryAfter parsed -> Hne Hnan Hdate.
  apply String.eqb_neq in Hne. rewrite Hne, Hnan, Hdate; simpl.
  split; intros Hdiff.
  - apply Z.ltb_lt in Hdiff. rewrite Hdiff. reflexivity.
  - destruct (0 <? parsed - now) eqn:E; [lia|reflexivity].
Qed.


(** *** The sort on a comparator that is the difference of two keys *)

Section SortByKey.
Context {A : Type} (key : A -> Z) (P : A -> Prop).
Context (comparefn : A -> A -> Completion (option Z)).
Hypothesis comparefn_key :
  forall a b, P a -> P b -> comparefn a b = Normal (Some (key b - key a)).

Let descending (a b : A) : Prop := key b <= key a.
Let keyIs (t : Z) (a : A) : bool := key a =? t.

Lemma insertSorted_by_key x s :
  P x -> Forall P s -> StronglySorted descending s ->
  exists r, insertSorted comparefn x s = Normal r
            /\ Permutation r (x :: s)
            /\ StronglySorted descending r
            /\ Forall P r
            /\ forall t, List.filter (keyIs t) r = List.filter (keyIs t) (x :: s).
Proof.
  intros Px HP Hs. induction s as [|y rest IH]; simpl.
  - exists [x]. repeat split; auto. repeat constructor.
  - inversion HP as [|? ? Py HPrest]; subst.
    inversion Hs as [|? ? Hsrest Hy]; subst.
    rewrite (comparefn_key x y Px Py); simpl.
    destruct (0 <? key y - key x) eqn:Hlt.
    + destruct (IH HPrest Hsrest) as (r & -> & Hperm & Hsorted & HPr & Hfilter).
      simpl. exists (y :: r). split; [reflexivity|].
      split; [rewrite Hperm; apply perm_swap|].
      split.
      { constructor; [assumption|].
        eapply Permutation_Forall; [symmetry; exact Hperm|].
        constructor; [unfold descending; lia|assumption]. }
      split; [constructor; assumption|].
      intros t. simpl. rewrite Hfilter. simpl. unfold keyIs.
      destruct (key x =? t) eqn:Ex; destruct (key y =? t) eqn:Ey; try reflexivity.
      lia.
    + exists (x :: y :: rest). split; [reflexivity|].
      split; [reflexivity|].
      split.
      { constructor; [assumption|].
        constructor; [unfold descending; lia|].
        eapply List.Forall_impl; [|exact Hy]. unfold descending; simpl. intros; lia. }
      split; [constructor; assumption|]. reflexivity.
Qed.

Lemma sortList_by_key l :
  Forall P l ->
  exists r, sortList comparefn l = Normal r
            /\ Permutation r l
            /\ StronglySorted descending r
            /\ Forall P r
            /\ forall t, List.filter (keyIs t) r = List.filter (keyIs t) l.
Proof.
  induction l as [|x rest IH]; intros HP; simpl.
  - exists []. repeat split; auto. constructor.
  - inversion HP as [|? ? Px HPrest]; subst.
    destruct (IH HPrest) as (s & -> & Hperm & Hsorted & HPs & Hfilter). simpl.
    destruct (insertSorted_by_key x s Px HPs Hsorted)
      as (r & -> & Hperm' & Hsorted' & HPr & Hfilter').
    exists r. split; [reflexivity|].
    split; [rewrite Hperm', Hperm; reflexivity|].
    split; [assumption|]. split; [assumption|].
    intros t. rewrite Hfilter'. simpl. rewrite Hfilter. reflexivity.
Qed.

End SortByKey.

(** The sort of the images of a list is the image of the sort. *)
Lemma insertSorted_map {A B} (f : A -> B) comparefn x l :
  insertSorted comparefn (f x) (List.map f l) =
  r ← insertSorted (fun a b => comparefn (f a) (f b)) x l; Normal (List.map f r).
Proof.
  induction l as [|y rest IH]; simpl; [reflexivity|].
  destruct (comparefn (f x) (f y)) as [v|e]; simpl; [|reflexivity].
  destruct (sortsAfter v); [|reflexivity].
  rewrite IH.
  destruct (insertSorted _ x rest); reflexivity.
Qed.

Lemma sortList_map {A B} (f : A -> B) comparefn l :
  sortList comparefn (List.map f l) =
  r ← sortList (fun a b => comparefn (f a) (f b)) l; Normal (List.map f r).
Proof.
  induction l as [|x rest IH]; simpl; [reflexivity|].
  rewrite IH.
  destruct (sortList _ rest) as [s|e]; simpl; [|reflexivity].
  apply insertSorted_map.
Qed.

Lemma filter_defined_rows {A} (f : A -> JsValue) l :
  (forall a, is_undefined (f a) = false) ->
  List.filter (fun v => negb (is_undefined v)) (List.map f l) = List.map f l
  /\ List.filter is_undefined (List.map f l) = [].
Proof.
  intros Hf. induction l as [|x rest [IH1 IH2]]; simpl; [split; reflexivity|].
  rewrite Hf; simpl. rewrite IH1, IH2. split; reflexivity.
Qed.

Lemma StronglySorted_impl_on {A} (P : A -> Prop) (R R' : A -> A -> Prop) l :
  (forall a b, P a -> P b -> R a b -> R' a b) ->
  Forall P l -> StronglySorted R l -> StronglySorted R' l.
Proof.
  intros Himpl HP Hs. induction Hs as [|a l Hs IH Ha]; [constructor|].
  inversion HP as [|? ? Pa HPl]; subst.
  constructor; [apply IH; assumption|].
  rewrite List.Forall_forall in *. intros b Hb. apply Himpl; auto.
Qed.

Lemma compareRows_pairForm a b :
  compareRows (pairForm a) (pairForm b) = Normal (sub_time (parsedDate b) (parsedDate a)).
Proof. reflexivity. Qed.

(** C2. For every list of observations whose dates parse, the grid that
    [buildArrayResult] returns starts with the row [Date, Value], and its
    other rows are the observations in non-increasing order of parsed date,
    observations of one date keeping their input order; for every input
    that is not an array the grid is the header row alone. *)
Theorem C2_buildArrayResult_header_then_sorted :
  HEADER_ROW = JArr [JStr "Date"; JStr "Value"] /\
  (forall obs : list Observation,
      Forall (fun o => parsedDate o <> None) obs ->
      exists sorted,
        buildArrayResult (JArr (List.map pairForm obs))
        = Normal (HEADER_ROW :: List.map pairForm sorted)
        /\ Permutation sorted obs
        /\ StronglySorted notBefore sorted
        /\ forall t, List.filter (hasDate t) sorted = List.filter (hasDate t) obs) /\
  (forall data : JsValue,
      (forall elems, data <> JArr elems) ->
      buildArrayResult data = Normal [HEADER_ROW]).
Proof.
  split; [reflexivity|]. split.
  - intros obs Hdates.
    set (key := fun o : Observation => default 0 (parsedDate o)).
    set (P := fun o : Observation => parsedDate o <> None).
    destruct (sortList_by_key key P
                (fun a b => compareRows (pairForm a) (pairForm b))) with (l := obs)
      as (sorted & Hsort & Hperm & Hsorted & HP & Hfilter).
    { intros a b Pa Pb. rewrite compareRows_pairForm. unfold P, key in *.
      destruct (parsedDate a); [|congruence].
      destruct (parsedDate b); [|congruence]. reflexivity. }
    { exact Hdates. }
    exists sorted. split; [|split; [assumption|split]].
    + unfold buildArrayResult, Array_sort.
      destruct (filter_defined_rows pairForm obs) as [-> ->]; [reflexivity|].
      rewrite sortList_map, Hsort. simpl. rewrite List.app_nil_r. reflexivity.
    + eapply (StronglySorted_impl_on P); [|exact HP|exact Hsorted].
      intros a b Pa Pb. unfold notBefore, P, key in *. simpl.
      destruct (parsedDate a); [|congruence].
      destruct (parsedDate b); [|congruence]. simpl. auto.
    + intros t.
      assert (Hext : forall l, Forall P l ->
                List.filter (hasDate t) l = List.filter (fun a => key a =? t) l).
      { intros l Hl. apply List.filter_ext_in. intros a Ha.
        rewrite List.Forall_forall in Hl. specialize (Hl a Ha).
        unfold hasDate, key, P in *. destruct (parsedDate a); [reflexivity|congruence]. }
      rewrite (Hext sorted HP), (Hext obs Hdates). apply Hfilter.
  - intros data Hna. destruct data; try reflexivity.
    exfalso. eapply Hna. reflexivity.
Qed.

(** *** The success branch *)

Lemma get_prop_defined v k : nullish v = false -> get_prop v k = Normal (get_prop_opt v k).
Proof. destruct v; simpl; intros; try reflexivity; discriminate. Qed.

Lemma get_prop_opt_array body k elems :
  get_prop_opt body k = JArr elems -> exists props, body = JObj props.
Proof. destruct body; simpl; try discriminate. eauto. Qed.

Lemma mapM_pairOf elems :
  Forall (fun o => nullish o = false) elems ->
  mapM (fun obs => d ← get_prop obs "date"; v ← get_prop obs "value"; Normal (JArr [d; v]))
    elems = Normal (List.map pairOf elems).
Proof.
  induction 1 as [|o rest Ho _ IH]; [reflexivity|].
  simpl. rewrite !get_prop_defined by assumption. simpl.
  rewrite IH. reflexivity.
Qed.

Lemma index1_last elems :
  elems <> [] ->
  index1 (List.last (List.map pairOf elems) JUndefined)
  = get_prop_opt (List.last elems JUndefined) "value".
Proof.
  induction elems as [|o rest IH]; [congruence|]. intros _.
  destruct rest as [|o' rest']; [reflexivity|].
  change (List.last (List.map pairOf (o :: o' :: rest')) JUndefined)
    with (List.last (List.map pairOf (o' :: rest')) JUndefined).
  rewrite IH by discriminate. reflexivity.
Qed.

Lemma index1_hd elems :
  elems <> [] ->
  index1 (List.hd JUndefined (List.map pairOf elems))
  = get_prop_opt (List.hd JUndefined elems) "value".
Proof. destruct elems; [congruence|reflexivity]. Qed.

(** The object the success branch builds from a body with a [data] array. *)
Lemma transformResponse_data mode body elems :
  get_prop_opt body "data" = JArr elems ->
  Forall (fun o => nullish o = false) elems ->
  String.eqb mode "meta" && truthy (get_prop_opt body "dataset") = false ->
  let base :=
    [("data", JArr (List.map pairOf elems));
     ("seriesId", get_prop_opt body "seriesId");
     ("status", get_prop_opt body "status");
     ("message", get_prop_opt body "message")] in
  transformResponse mode body =
  Normal (JObj
    (if String.eqb mode "latest" && (0 <? length elems)%nat
     then base ++ [("scalar", get_prop_opt (List.last elems JUndefined) "value")]
     else if String.eqb mode "value" && (0 <? length elems)%nat
     then base ++ [("scalar", get_prop_opt (List.hd JUndefined elems) "value")]
     else base)).
Proof.
  intros Hdata Helems Hmeta.
  destruct (get_prop_opt_array _ _ _ Hdata) as [props ->].
  simpl in Hdata, Hmeta. unfold transformResponse. simpl.
  destruct (String.eqb mode "meta") eqn:Em; simpl in *.
  - rewrite Hmeta. simpl. rewrite Hdata. simpl.
    rewrite mapM_pairOf by assumption. simpl.
    rewrite List.length_map.
    apply String.eqb_eq in Em; subst mode. reflexivity.
  - rewrite Hdata. simpl. rewrite mapM_pairOf by assumption. simpl.
    rewrite List.length_map.
    destruct (String.eqb mode "latest" && (0 <? length elems)%nat) eqn:El.
    { simpl. rewrite index1_last; [reflexivity|].
      apply Bool.andb_true_iff in El as [_ El]. apply Nat.ltb_lt in El.
      destruct elems; [simpl in El; lia|discriminate]. }
    destruct (String.eqb mode "value" && (0 <? length elems)%nat) eqn:Ev; [|reflexivity].
    simpl. rewrite index1_hd; [reflexivity|].
    apply Bool.andb_true_iff in Ev as [_ Ev]. apply Nat.ltb_lt in Ev.
    destruct elems; [simpl in Ev; lia|discriminate].
Qed.

Lemma fetchSeries_result seriesId options w :
  fst (fetchSeries seriesId options w) =
  outcome (transformResponse (mode options)) (decisive w).
Proof. rewrite fetchSeries_unfold. reflexivity. Qed.

(** C3. When the response that ends the fetch is a success whose [data] is a
    non-empty list of observations, the normalised result carries the
    observations in the order received, and its scalar is, in mode latest,
    the value of the last observation of that list and, in mode value, the
    value of the observation at index 0. *)
Theorem C3_scalar_is_last_or_first_value
  (seriesId : string) (options : Options) (w : World) (elems : list JsValue) :
  succeeded (decisive w) = true ->
  get_prop_opt (bodyOf (decisive w)) "data" = JArr elems ->
  elems <> [] ->
  Forall (fun o => nullish o = false) elems ->
  (mode options = "latest" ->
   exists resp,
     fst (fetchSeries seriesId options w) = Normal (FResponse resp)
     /\ get_prop_opt resp "data" = JArr (List.map pairOf elems)
     /\ get_prop_opt resp "scalar" = get_prop_opt (List.last elems JUndefined) "value") /\
  (mode options = "value" ->
   exists resp,
     fst (fetchSeries seriesId options w) = Normal (FResponse resp)
     /\ get_prop_opt resp "data" = JArr (List.map pairOf elems)
     /\ get_prop_opt resp "scalar" = get_prop_opt (List.hd JUndefined elems) "value").
Proof.
  intros Hok Hdata Hne Helems.
  assert (Hlen : (0 <? length elems)%nat = true).
  { apply Nat.ltb_lt. destruct elems; [congruence|simpl; lia]. }
  rewrite fetchSeries_result. unfold outcome. rewrite Hok.
  split; intros Hmode; rewrite Hmode;
    rewrite (transformResponse_data _ _ elems) by (assumption || reflexivity);
    cbv zeta; simpl; rewrite Hlen; simpl; eexists; repeat split; reflexivity.
Qed.

(** *** The scalar entry points *)

Lemma handleScalar_unfold seriesId series opts w :
  normalizeSeriesId seriesId = Normal series ->
  fst (handleScalar seriesId opts w) =
  match fst (fetchSeries series opts w) with
  | Normal r =>
      if truthy (errorMessage r) then Throw (Error (String_ (errorMessage r)))
      else if is_undefined (get_prop_opt (response r) "scalar")
      then Throw (Error "Value not available.")
      else Normal (get_prop_opt (response r) "scalar")
  | Throw e => Throw e
  end.
Proof.
  intros Hid. unfold handleScalar, mbind, Script_bind, lift. rewrite Hid.
  destruct (fetchSeries series opts w) as [[r|e] w']; simpl; [|reflexivity].
  destruct (truthy (errorMessage r)); [reflexivity|].
  destruct (is_undefined _); reflexivity.
Qed.

Lemma handleScalar_not_available seriesId series opts w resp :
  normalizeSeriesId seriesId = Normal series ->
  fst (fetchSeries series opts w) = Normal (FResponse resp) ->
  get_prop_opt resp "scalar" = JUndefined ->
  fst (handleScalar seriesId opts w) = Throw (Error "Value not available.").
Proof.
  intros Hid Hres Hscalar.
  rewrite (handleScalar_unfold _ _ _ _ Hid), Hres. simpl. rewrite Hscalar. reflexivity.
Qed.

Lemma transformResponse_noObservations mode body :
  scalarMode mode -> noObservations body ->
  exists resp, transformResponse mode body = Normal resp
               /\ get_prop_opt resp "scalar" = JUndefined.
Proof.
  intros Hmode [Hdata|(Hbody & Hdata & Hscalar)].
  - rewrite (transformResponse_data mode body []); [|assumption|constructor|].
    + cbv zeta. simpl. rewrite !Bool.andb_false_r. eexists; split; reflexivity.
    + destruct Hmode as [->|[->| ->]]; reflexivity.
  - exists body. split; [|assumption].
    unfold transformResponse.
    replace (String.eqb mode "meta") with false
      by (destruct Hmode as [->|[->| ->]]; reflexivity).
    simpl. rewrite (get_prop_defined body "data" Hbody). simpl.
    rewrite Hdata. reflexivity.
Qed.

(** C10. When the response that ends a fetch in mode latest, value or yoy is
    a success whose observation list is empty (or absent, the body carrying
    no scalar either), the normalised result has no scalar, and DSIQ_LATEST,
    DSIQ_VALUE and DSIQ_YOY raise the error Value not available. *)
Theorem C10_empty_observations_value_not_available
  (seriesId : JsValue) (series : string) (w : World) :
  normalizeSeriesId seriesId = Normal series ->
  succeeded (decisive w) = true ->
  noObservations (bodyOf (decisive w)) ->
  (forall mode date,
      scalarMode mode ->
      exists resp,
        fst (fetchSeries series (scalarOptions mode date) w) = Normal (FResponse resp)
        /\ get_prop_opt resp "scalar" = JUndefined) /\
  fst (DSIQ_LATEST seriesId w) = Throw (Error "Value not available.") /\
  fst (DSIQ_YOY seriesId w) = Throw (Error "Value not available.") /\
  (forall date normalizedDate,
      normalizeDateInput date = Normal normalizedDate ->
      absent normalizedDate = false ->
      fst (DSIQ_VALUE seriesId date w) = Throw (Error "Value not available.")).
Proof.
  intros Hid Hok Hnone.
  assert (Hfetch : forall mode date,
             scalarMode mode ->
             exists resp,
               fst (fetchSeries series (scalarOptions mode date) w)
               = Normal (FResponse resp)
               /\ get_prop_opt resp "scalar" = JUndefined).
  { intros mode date Hmode. rewrite fetchSeries_result. unfold outcome.
    rewrite Hok. simpl.
    destruct (transformResponse_noObservations mode _ Hmode Hnone) as (resp & -> & Hs).
    exists resp. split; [reflexivity|assumption]. }
  split; [exact Hfetch|].
  split.
  { destruct (Hfetch "latest" None) as (resp & Hres & Hs); [left; reflexivity|].
    eapply handleScalar_not_available; eassumption. }
  split.
  { destruct (Hfetch "yoy" None) as (resp & Hres & Hs); [right; right; reflexivity|].
    eapply handleScalar_not_available; eassumption. }
  intros date normalizedDate Hdate Hpresent.
  destruct (Hfetch "value" normalizedDate) as (resp & Hres & Hs);
    [right; left; reflexivity|].
  unfold DSIQ_VALUE, mbind, Script_bind, lift. rewrite Hdate, Hpresent.
  eapply handleScalar_not_available; eassumption.
Qed.

Lemma transformResponse_empty_object mode :
  transformResponse mode (JObj []) = Normal (JObj []).
Proof. unfold transformResponse. destruct (String.eqb mode "meta"); reflexivity. Qed.

(** C7. For a body that is not valid JSON, [parseJson] returns the empty
    object instead of raising; a 2xx response with such a body therefore
    counts as a success without fields, and a scalar call that it ends
    raises the ordinary error Value not available. *)
Theorem C7_malformed_body_is_empty_object (bodyText : string) :
  JSON_parse bodyText = None ->
  parseJson bodyText = JObj [] /\
  (forall (seriesId : JsValue) (series : string) (opts : Options) (w : World),
      normalizeSeriesId seriesId = Normal series ->
      getContentText (decisive w) = bodyText ->
      200 <= getResponseCode (decisive w) < 300 ->
      succeeded (decisive w) = true
      /\ fst (fetchSeries series opts w) = Normal (FResponse (JObj []))
      /\ fst (handleScalar seriesId opts w) = Throw (Error "Value not available.")).
Proof.
  intros Hparse.
  assert (Hempty : parseJson bodyText = JObj []) by (unfold parseJson; rewrite Hparse; reflexivity).
  split; [exact Hempty|].
  intros seriesId series opts w Hid Htext [Hlo Hhi].
  assert (Hok : succeeded (decisive w) = true).
  { unfold succeeded, bodyOf, isSuccess. rewrite Htext, Hempty. simpl.
    apply Z.leb_le in Hlo. apply Z.ltb_lt in Hhi. rewrite Hlo, Hhi. reflexivity. }
  assert (Hres : fst (fetchSeries series opts w) = Normal (FResponse (JObj []))).
  { rewrite fetchSeries_result. unfold outcome. rewrite Hok.
    unfold bodyOf. rewrite Htext, Hempty, transformResponse_empty_object. reflexivity. }
  split; [exact Hok|]. split; [exact Hres|].
  eapply handleScalar_not_available; [exact Hid|exact Hres|reflexivity].
Qed.

(** *** The two payload shapes *)

Lemma pairOf_objectForm o : pairOf (objectForm o) = pairForm o.
Proof. reflexivity. Qed.

Lemma map_pairOf_objectForm obs :
  List.map pairOf (List.map objectForm obs) = List.map pairForm obs.
Proof. rewrite List.map_map. apply List.map_ext. exact pairOf_objectForm. Qed.

Lemma Legacy_fetchSeries_result seriesId options w :
  fst (Legacy.fetchSeries seriesId options w) =
  outcome (fun body => Normal body) (decisive w).
Proof. rewrite Legacy_fetchSeries_unfold. reflexivity. Qed.

(** C6. Let a list of observations be sent as pairs to the older variant
    and as objects to the newer one, each in a successful response that
    ends the fetch (in mode meta, a response without a dataset).  Both
    variants return a response whose [data] is the same sequence, the
    observations as pairs in the order sent: the newer variant's translation
    undoes the difference of shape. *)
Theorem C6_pair_list_and_object_list_agree
  (obs : list Observation) (seriesId : string) (options : Options)
  (wOld wNew : World) :
  succeeded (decisive wOld) = true ->
  succeeded (decisive wNew) = true ->
  get_prop_opt (bodyOf (decisive wOld)) "data" = JArr (List.map pairForm obs) ->
  get_prop_opt (bodyOf (decisive wNew)) "data" = JArr (List.map objectForm obs) ->
  String.eqb (mode options) "meta"
    && truthy (get_prop_opt (bodyOf (decisive wNew)) "dataset") = false ->
  exists respOld respNew,
    fst (Legacy.fetchSeries seriesId options wOld) = Normal (FResponse respOld)
    /\ fst (fetchSeries seriesId options wNew) = Normal (FResponse respNew)
    /\ get_prop_opt respOld "data" = JArr (List.map pairForm obs)
    /\ get_prop_opt respNew "data" = get_prop_opt respOld "data".
Proof.
  intros HokOld HokNew HdataOld HdataNew Hmeta.
  rewrite Legacy_fetchSeries_result, fetchSeries_result. unfold outcome.
  rewrite HokOld, HokNew. simpl.
  rewrite (transformResponse_data _ _ (List.map objectForm obs)); try assumption.
  - cbv zeta. eexists; eexists.
    split; [reflexivity|]. split; [reflexivity|]. split; [exact HdataOld|].
    rewrite HdataOld, map_pairOf_objectForm.
    destruct (String.eqb (mode options) "latest" && _); [reflexivity|].
    destruct (String.eqb (mode options) "value" && _); reflexivity.
  - apply List.Forall_forall. intros o Ho.
    apply List.in_map_iff in Ho as (x & <- & _). reflexivity.
Qed.

(** *** The request *)

Lemma append_assoc (a b c : string) : (a +:+ b) +:+ c = a +:+ b +:+ c.
Proof.
  induction a as [|x a IH]; [reflexivity|].
  change (String x ((a +:+ b) +:+ c) = String x (a +:+ b +:+ c)).
  rewrite IH. reflexivity.
Qed.

Lemma absent_credential key :
  key <> Some "" -> absent key = match key with Some _ => false | None => true end.
Proof.
  destruct key as [k|]; [|reflexivity]. intros Hne. simpl.
  apply String.eqb_neq. congruence.
Qed.

Lemma limit_parameter key options :
  List.filter (String.prefix "limit=") (queryParams key options)
  = ["limit=" +:+ (if absent key then "100" else "1000")].
Proof.
  unfold queryParams.
  destruct (absent (start options)); destruct (absent (date options));
    destruct (absent key); reflexivity.
Qed.

Lemma In_fetchEvents e url request w :
  In e (fetchEvents url request w) ->
  is_fetch e = true -> e = Fetch url request.
Proof.
  unfold fetchEvents. destruct (transient _); simpl; intros Hin Hf.
  - destruct Hin as [<-|[<-|[<-|[]]]]; try reflexivity. discriminate.
  - destruct Hin as [<-|[]]. reflexivity.
Qed.

(** The credential is stored by [saveApiKey] alone, which stores no empty
    string. *)
Lemma saveApiKey_stores_nonempty key w w' :
  saveApiKey key w = (Normal tt, w') ->
  exists credential,
    userProperties w' !! API_KEY_PROP = Some credential /\ credential <> "".
Proof.
  unfold saveApiKey, setProperty, throw.
  destruct (absent (normalizeOptionalString key)) eqn:Habs; [discriminate|].
  intros Heq. inversion Heq; subst; clear Heq. simpl.
  destruct (normalizeOptionalString key) as [k|]; [|discriminate]. simpl in *.
  exists k. split; [apply lookup_insert_eq|].
  apply String.eqb_neq. exact Habs.
Qed.

(** C8. For every request that is not in mode meta, each outbound call of
    [fetchSeries] goes to the data URL whose query has exactly one limit
    parameter, limit=1000 when a credential is stored and limit=100 when
    none is, and carries the header Authorization: Bearer <credential> when
    a credential is stored and no Authorization header when none is.  A
    stored credential is a non-empty string, as [saveApiKey] stores it. *)
Theorem C8_limit_and_bearer_follow_credential
  (seriesId : string) (options : Options) (w : World) :
  let key := userProperties w !! API_KEY_PROP in
  mode options <> "meta" ->
  key <> Some "" ->
  exists evs,
    events (snd (fetchSeries seriesId options w)) = events w ++ evs
    /\ (exists url request, In (Fetch url request) evs)
    /\ forall url request,
        In (Fetch url request) evs ->
        url = BASE_URL +:+ SERIES_PATH +:+ encodeURIComponent seriesId
                +:+ SERIES_DATA_PATH +:+ "?"
                +:+ String.concat "&" (queryParams key options)
        /\ List.filter (String.prefix "limit=") (queryParams key options)
           = [match key with Some _ => "limit=1000" | None => "limit=100" end]
        /\ headers request !! "Authorization"
           = (fun credential => "Bearer " +:+ credential) <$> key
        /\ (forall name, name <> "Authorization" -> headers request !! name = None).
Proof.
  intros key Hmode Hkey.
  rewrite fetchSeries_unfold. cbv zeta. simpl. fold key.
  eexists. split; [reflexivity|]. split.
  { unfold fetchEvents. destruct (transient _); do 2 eexists; left; reflexivity. }
  intros url request Hin.
  apply In_fetchEvents in Hin; [|reflexivity]. inversion Hin; subst; clear Hin.
  split.
  { unfold buildUrl. apply String.eqb_neq in Hmode. rewrite Hmode.
    replace (0 <? length (queryParams key options))%nat with true;
      [rewrite !append_assoc; reflexivity|].
    unfold queryParams. rewrite !List.length_app. simpl.
    symmetry. apply Nat.ltb_lt. lia. }
  split.
  { rewrite limit_parameter, (absent_credential _ Hkey). destruct key; reflexivity. }
  unfold buildRequest. simpl. rewrite (absent_credential _ Hkey).
  destruct key as [credential|]; simpl.
  - split; [apply lookup_singleton_eq|].
    intros name Hname. apply lookup_singleton_ne. congruence.
  - split; [apply lookup_empty|]. intros; apply lookup_empty.
Qed.

(** *** The table entry point *)

Section SortTotal.
Context {A : Type} (P : A -> Prop) (comparefn : A -> A -> Completion (option Z)).
Hypothesis comparefn_returns :
  forall a b, P a -> P b -> exists v, comparefn a b = Normal v.

Lemma insertSorted_total x s :
  P x -> Forall P s ->
  exists r, insertSorted comparefn x s = Normal r /\ Permutation r (x :: s).
Proof.
  intros Px HP. induction HP as [|y rest Py HPrest IH]; simpl.
  - exists [x]. split; reflexivity.
  - destruct (comparefn_returns x y Px Py) as [v ->]. simpl.
    destruct (sortsAfter v).
    + destruct IH as (r & -> & Hperm). simpl. exists (y :: r).
      split; [reflexivity|]. rewrite Hperm. apply perm_swap.
    + exists (x :: y :: rest). split; reflexivity.
Qed.

Lemma sortList_total l :
  Forall P l -> exists r, sortList comparefn l = Normal r /\ Permutation r l.
Proof.
  induction 1 as [|x rest Px HPrest IH]; simpl.
  - exists []. split; reflexivity.
  - destruct IH as (s & -> & Hperm). simpl.
    destruct (insertSorted_total x s Px) as (r & -> & Hperm').
    { eapply Permutation_Forall; [symmetry; exact Hperm|exact HPrest]. }
    exists r. split; [reflexivity|]. rewrite Hperm', Hperm. reflexivity.
Qed.

End SortTotal.

(** The table builder returns normally on the rows the fetch built. *)
Lemma buildArrayResult_pairOf elems :
  exists sorted,
    buildArrayResult (JArr (List.map pairOf elems)) = Normal (HEADER_ROW :: sorted)
    /\ Permutation sorted (List.map pairOf elems).
Proof.
  unfold buildArrayResult, Array_sort.
  destruct (filter_defined_rows pairOf elems) as [-> ->]; [reflexivity|].
  destruct (sortList_total (fun row => exists l, row = JArr l) compareRows)
    with (l := List.map pairOf elems) as (sorted & -> & Hperm).
  - intros a b [la ->] [lb ->]. eexists. reflexivity.
  - apply List.Forall_forall. intros row Hrow.
    apply List.in_map_iff in Hrow as (o & <- & _). eexists. reflexivity.
  - exists sorted. simpl. rewrite List.app_nil_r. split; [reflexivity|assumption].
Qed.

Lemma DSIQ_unfold seriesId frequency startDate series start w :
  normalizeSeriesId seriesId = Normal series ->
  normalizeDateInput startDate = Normal start ->
  fst (DSIQ seriesId frequency startDate w) =
  match fst (fetchSeries series
               {| mode := "table"; freq := normalizeOptionalString frequency;
                  start := start; date := None |} w) with
  | Normal r =>
      if truthy (errorMessage r) then Throw (Error (String_ (errorMessage r)))
      else
        let data := if nullish (get_prop_opt (response r) "data") then JArr []
                    else get_prop_opt (response r) "data" in
        match buildArrayResult data with
        | Normal result =>
            if absent (userProperties w !! API_KEY_PROP) && length_ge_100 data
            then Normal (result ++ upgradeRows) else Normal result
        | Throw e => Throw e
        end
  | Throw e => Throw e
  end.
Proof.
  intros Hid Hstart.
  unfold DSIQ, mbind, Script_bind, lift. rewrite Hid, Hstart.
  rewrite fetchSeries_unfold. cbv zeta. simpl.
  destruct (outcome _ _) as [r|e]; [|reflexivity].
  destruct (truthy (errorMessage r)); [reflexivity|].
  destruct (buildArrayResult _) as [result|e]; [|reflexivity].
  unfold getApiKey, getProperty. simpl.
  destruct (absent _ && _); reflexivity.
Qed.

Lemma buildArrayResult_observations (obs : list Observation) :
  Forall (fun o => parsedDate o <> None) obs ->
  exists newestFirst,
    buildArrayResult (JArr (List.map pairForm obs))
    = Normal (HEADER_ROW :: List.map pairForm newestFirst)
    /\ Permutation newestFirst obs
    /\ StronglySorted notBefore newestFirst
    /\ forall t, List.filter (hasDate t) newestFirst = List.filter (hasDate t) obs.
Proof.
  intros Hdates.
  set (key := fun o : Observation => default 0 (parsedDate o)).
  set (P := fun o : Observation => parsedDate o <> None).
  destruct (sortList_by_key key P
              (fun a b => compareRows (pairForm a) (pairForm b))) with (l := obs)
    as (sorted & Hsort & Hperm & Hsorted & HP & Hfilter).
  { intros a b Pa Pb. rewrite compareRows_pairForm. unfold P, key in *.
    destruct (parsedDate a); [|congruence].
    destruct (parsedDate b); [|congruence]. reflexivity. }
  { exact Hdates. }
  exists sorted. split; [|split; [assumption|split]].
  - unfold buildArrayResult, Array_sort.
    destruct (filter_defined_rows pairForm obs) as [-> ->]; [reflexivity|].
    rewrite sortList_map, Hsort. simpl. rewrite List.app_nil_r. reflexivity.
  - eapply (StronglySorted_impl_on P); [|exact HP|exact Hsorted].
    intros a b Pa Pb. unfold notBefore, P, key in *. simpl.
    destruct (parsedDate a); [|congruence].
    destruct (parsedDate b); [|congruence]. simpl. auto.
  - intros t.
    assert (Hext : forall l, Forall P l ->
              List.filter (hasDate t) l = List.filter (fun a => key a =? t) l).
    { intros l Hl. apply List.filter_ext_in. intros a Ha.
      rewrite List.Forall_forall in Hl. specialize (Hl a Ha).
      unfold hasDate, key, P in *. destruct (parsedDate a); [reflexivity|congruence]. }
    rewrite (Hext sorted HP), (Hext obs Hdates). apply Hfilter.
Qed.

(** C9. When no credential is stored and the successful response that ends
    a table fetch carries 100 observations or more, [DSIQ] returns the
    header row, the data rows as [buildArrayResult] orders them, and after
    them three more rows: a blank row, the free-tier notice and the upgrade
    link.  The data rows are a rearrangement of the observations, and when
    the observations' dates parse they stand newest first, in
    non-increasing order of parsed date, observations of one date keeping
    the order received.  The grid is then three rows longer than header
    plus observations. *)
Theorem C9_free_tier_rows_appended
  (seriesId frequency startDate : JsValue) (series : string) (start : option string)
  (w : World) (elems : list JsValue) :
  normalizeSeriesId seriesId = Normal series ->
  normalizeDateInput startDate = Normal start ->
  absent (userProperties w !! API_KEY_PROP) = true ->
  succeeded (decisive w) = true ->
  get_prop_opt (bodyOf (decisive w)) "data" = JArr elems ->
  Forall (fun o => nullish o = false) elems ->
  (100 <= length elems)%nat ->
  exists sorted,
    buildArrayResult (JArr (List.map pairOf elems)) = Normal (HEADER_ROW :: sorted)
    /\ Permutation sorted (List.map pairOf elems)
    /\ (forall obs : list Observation,
          elems = List.map objectForm obs ->
          Forall (fun o => parsedDate o <> None) obs ->
          exists newestFirst,
            sorted = List.map pairForm newestFirst
            /\ Permutation newestFirst obs
            /\ StronglySorted notBefore newestFirst
            /\ forall t, List.filter (hasDate t) newestFirst
                         = List.filter (hasDate t) obs)
    /\ fst (DSIQ seriesId frequency startDate w)
       = Normal (HEADER_ROW :: sorted
                   ++ [JArr [JStr ""; JStr ""];
                       JArr [JStr freeTierNotice; JStr ""];
                       JArr [JStr upgradeLink; JStr ""]])
    /\ (forall grid,
          fst (DSIQ seriesId frequency startDate w) = Normal grid ->
          length grid = (1 + length elems + 3)%nat).
Proof.
  intros Hid Hstart Hkey Hok Hdata Helems Hlen.
  destruct (buildArrayResult_pairOf elems) as (sorted & Hbuild & Hperm).
  assert (Hgrid : fst (DSIQ seriesId frequency startDate w)
                  = Normal (HEADER_ROW :: sorted ++ upgradeRows)).
  { rewrite (DSIQ_unfold _ _ _ _ _ _ Hid Hstart), fetchSeries_result.
    unfold outcome. rewrite Hok. simpl mode.
    rewrite (transformResponse_data _ _ elems) by (assumption || reflexivity).
    cbv zeta.
    change (match buildArrayResult (JArr (List.map pairOf elems)) with
            | Normal result =>
                if absent (userProperties w !! API_KEY_PROP)
                   && length_ge_100 (JArr (List.map pairOf elems))
                then Normal (result ++ upgradeRows) else Normal result
            | Throw e => Throw e
            end = Normal (HEADER_ROW :: sorted ++ upgradeRows)).
    rewrite Hbuild, Hkey. unfold length_ge_100. rewrite List.length_map.
    apply Nat.leb_le in Hlen. rewrite Hlen. reflexivity. }
  exists sorted. split; [exact Hbuild|]. split; [exact Hperm|].
  split; [|split; [exact Hgrid|]].
  - intros obs Hobs Hdates.
    destruct (buildArrayResult_observations obs Hdates)
      as (newestFirst & Hrows & Hperm' & Hsorted & Hstable).
    exists newestFirst. split; [|split; [exact Hperm'|split; [exact Hsorted|exact Hstable]]].
    rewrite Hobs, map_pairOf_objectForm, Hrows in Hbuild.
    injection Hbuild as Hbuild. symmetry. exact Hbuild.
  - intros grid Hgrid'. rewrite Hgrid in Hgrid'. inversion Hgrid'; subst.
    simpl. rewrite List.length_app. simpl.
    rewrite (Permutation_length Hperm), List.length_map. lia.
Qed.


End Proofs.

(** ** Closed instances on the demonstration host *)

(** A header value of 2 seconds, a missing header, a header that is no
    number and no date, and two HTTP dates, one second after and one
    second before the clock, on the demonstration host. *)
Lemma C4_computeRetryAfter_witness :
  @computeRetryAfter DemoHost.host 0 {["retry-after" := "2"]} 0 = 2000%float /\
  @computeRetryAfter DemoHost.host 0 ∅ 1 = 1000%float /\
  @computeRetryAfter DemoHost.host 0 {["retry-after" := "soon"]} 0 = 500%float /\
  @computeRetryAfter DemoHost.host 784111776000
    {["retry-after" := "Sun, 06 Nov 1994 08:49:37 GMT"]} 0 = 1000%float /\
  @computeRetryAfter DemoHost.host 784111778000
    {["retry-after" := "Sun, 06 Nov 1994 08:49:37 GMT"]} 0 = 500%float.
Proof.
  split.
  { apply (@C4_computeRetryAfter DemoHost.host 0 {["retry-after" := "2"]} 0);
      reflexivity. }
  split.
  { apply (@C4_computeRetryAfter DemoHost.host 0 ∅ 1). reflexivity. }
  split.
  { apply (proj1 (proj2 (proj2
      (@C4_computeRetryAfter DemoHost.host 0 {["retry-after" := "soon"]} 0))) "soon");
      reflexivity. }
  split.
  { refine (proj1 (proj2 (proj2 (proj2 (proj2
      (@C4_computeRetryAfter DemoHost.host 784111776000
         {["retry-after" := "Sun, 06 Nov 1994 08:49:37 GMT"]} 0))))
      "Sun, 06 Nov 1994 08:49:37 GMT" 784111777000 _ _ _ _) _);
      try reflexivity; try discriminate. }
  refine (proj2 (proj2 (proj2 (proj2 (proj2
      (@C4_computeRetryAfter DemoHost.host 784111778000
         {["retry-after" := "Sun, 06 Nov 1994 08:49:37 GMT"]} 0))))
      "Sun, 06 Nov 1994 08:49:37 GMT" 784111777000 _ _ _ _) _);
      try reflexivity; try discriminate.
Defined.

(** Two observations sent oldest first, and a third of the newer date. *)
Lemma C2_buildArrayResult_witness :
  exists sorted,
    @buildArrayResult DemoHost.host
      (JArr [JArr [JStr "2023-01-01"; JNum 290];
             JArr [JStr "2024-01-01"; JNum 300];
             JArr [JStr "2024-01-01"; JNum 301]])
    = Normal (HEADER_ROW :: List.map pairForm sorted)
    /\ Permutation sorted
         [{| obs_date := "2023-01-01"; obs_value := 290 |};
          {| obs_date := "2024-01-01"; obs_value := 300 |};
          {| obs_date := "2024-01-01"; obs_value := 301 |}]
    /\ StronglySorted (@notBefore DemoHost.host) sorted
    /\ forall t,
        List.filter (@hasDate DemoHost.host t) sorted =
        List.filter (@hasDate DemoHost.host t)
          [{| obs_date := "2023-01-01"; obs_value := 290 |};
           {| obs_date := "2024-01-01"; obs_value := 300 |};
           {| obs_date := "2024-01-01"; obs_value := 301 |}].
Proof.
  apply (proj1 (proj2 (@C2_buildArrayResult_header_then_sorted DemoHost.host))
           [{| obs_date := "2023-01-01"; obs_value := 290 |};
            {| obs_date := "2024-01-01"; obs_value := 300 |};
            {| obs_date := "2024-01-01"; obs_value := 301 |}]).
  repeat constructor; discriminate.
Defined.

Example buildArrayResult_newest_first :
  @buildArrayResult DemoHost.host
    (JArr [JArr [JStr "2023-01-01"; JNum 290];
           JArr [JStr "2024-01-01"; JNum 300];
           JArr [JStr "2024-01-01"; JNum 301]])
  = Normal [JArr [JStr "Date"; JStr "Value"];
            JArr [JStr "2024-01-01"; JNum 300];
            JArr [JStr "2024-01-01"; JNum 301];
            JArr [JStr "2023-01-01"; JNum 290]].
Proof. reflexivity. Qed.

(** Three observations in ascending order, served on the first call. *)
Lemma C3_scalar_witness :
  let body :=
    JObj [("seriesId", JStr "CPIAUCSL");
          ("data", JArr [JObj [("date", JStr "2023-01-01"); ("value", JNum 290)];
                         JObj [("date", JStr "2023-06-01"); ("value", JNum 305)];
                         JObj [("date", JStr "2024-01-01"); ("value", JNum 300)]])] in
  let w := DemoHost.world ∅ [DemoHost.reply 200 body []] in
  (exists resp,
      fst (@fetchSeries DemoHost.host "CPIAUCSL" (scalarOptions "latest" None) w)
      = Normal (FResponse resp)
      /\ get_prop_opt resp "scalar" = JNum 300) /\
  (exists resp,
      fst (@fetchSeries DemoHost.host "CPIAUCSL"
             (scalarOptions "value" (Some "2023-06-01")) w)
      = Normal (FResponse resp)
      /\ get_prop_opt resp "scalar" = JNum 290).
Proof.
  cbv zeta.
  set (elems := [JObj [("date", JStr "2023-01-01"); ("value", JNum 290)];
                 JObj [("date", JStr "2023-06-01"); ("value", JNum 305)];
                 JObj [("date", JStr "2024-01-01"); ("value", JNum 300)]]).
  set (w := DemoHost.world ∅ _).
  assert (Helems : Forall (fun o => nullish o = false) elems)
    by (repeat constructor).
  assert (Hne : elems <> []) by discriminate.
  split.
  - destruct (proj1 (@C3_scalar_is_last_or_first_value DemoHost.host "CPIAUCSL"
                       (scalarOptions "latest" None) w elems
                       eq_refl eq_refl Hne Helems) eq_refl)
      as (resp & Hres & _ & Hscalar).
    exists resp. split; [exact Hres|exact Hscalar].
  - destruct (proj2 (@C3_scalar_is_last_or_first_value DemoHost.host "CPIAUCSL"
                       (scalarOptions "value" (Some "2023-06-01")) w elems
                       eq_refl eq_refl Hne Helems) eq_refl)
      as (resp & Hres & _ & Hscalar).
    exists resp. split; [exact Hres|exact Hscalar].
Defined.

(** A success with an empty observation list, served on the first call. *)
Lemma C10_empty_observations_witness :
  let w := DemoHost.world ∅
             [DemoHost.reply 200 (JObj [("seriesId", JStr "GDP"); ("data", JArr [])]) []] in
  fst (@DSIQ_LATEST DemoHost.host (JStr "GDP") w) = Throw (Error "Value not available.")
  /\ fst (@DSIQ_YOY DemoHost.host (JStr "GDP") w) = Throw (Error "Value not available.")
  /\ fst (@DSIQ_VALUE DemoHost.host (JStr "GDP") (JStr "2023-06-01") w)
     = Throw (Error "Value not available.").
Proof.
  cbv zeta. set (w := DemoHost.world ∅ _).
  destruct (@C10_empty_observations_value_not_available DemoHost.host
              (JStr "GDP") "GDP" w eq_refl eq_refl (or_introl eq_refl))
    as (_ & Hlatest & Hyoy & Hvalue).
  split; [exact Hlatest|]. split; [exact Hyoy|].
  exact (Hvalue (JStr "2023-06-01") (Some "2023-06-01") eq_refl eq_refl).
Defined.

(** A 200 response whose body is an HTML page. *)
Lemma C7_malformed_body_witness :
  let w := DemoHost.world ∅
             [{| getResponseCode := 200; getContentText := "<html>Bad gateway</html>";
                 getAllHeaders := [] |}] in
  @parseJson DemoHost.host "<html>Bad gateway</html>" = JObj [] /\
  fst (@DSIQ_LATEST DemoHost.host (JStr "GDP") w) = Throw (Error "Value not available.").
Proof.
  cbv zeta. set (w := DemoHost.world ∅ _).
  destruct (@C7_malformed_body_is_empty_object DemoHost.host
              "<html>Bad gateway</html>" eq_refl) as [Hempty Hcall].
  split; [exact Hempty|].
  refine (proj2 (proj2 (Hcall (JStr "GDP") "GDP" (scalarOptions "latest" None) w
                          eq_refl eq_refl _))).
  split; [discriminate|reflexivity].
Defined.

(** Two observations, as pairs for the older variant and as objects for
    the newer one. *)
Lemma C6_pair_list_and_object_list_witness :
  let obs := [{| obs_date := "2024-01-01"; obs_value := 300 |};
              {| obs_date := "2023-01-01"; obs_value := 290 |}] in
  let table := {| mode := "table"; freq := None; start := None; date := None |} in
  let wOld :=
    DemoHost.world ∅
      [DemoHost.reply 200 (JObj [("data", JArr (List.map pairForm obs))]) []] in
  let wNew :=
    DemoHost.world ∅
      [DemoHost.reply 200 (JObj [("data", JArr (List.map objectForm obs))]) []] in
  exists respOld respNew,
    fst (@Legacy.fetchSeries DemoHost.host "CPIAUCSL" table wOld)
    = Normal (FResponse respOld)
    /\ fst (@fetchSeries DemoHost.host "CPIAUCSL" table wNew) = Normal (FResponse respNew)
    /\ get_prop_opt respOld "data" = JArr (List.map pairForm obs)
    /\ get_prop_opt respNew "data" = get_prop_opt respOld "data".
Proof.
  cbv zeta.
  set (wOld := DemoHost.world ∅ [DemoHost.reply 200 (JObj [("data", JArr (List.map pairForm _))]) []]).
  set (wNew := DemoHost.world ∅ [DemoHost.reply 200 (JObj [("data", JArr (List.map objectForm _))]) []]).
  exact (@C6_pair_list_and_object_list_agree DemoHost.host
           [{| obs_date := "2024-01-01"; obs_value := 300 |};
            {| obs_date := "2023-01-01"; obs_value := 290 |}]
           "CPIAUCSL"
           {| mode := "table"; freq := None; start := None; date := None |}
           wOld wNew eq_refl eq_refl eq_refl eq_refl eq_refl).
Defined.

(** A value request with a stored key, and the same request without one. *)
Lemma C8_limit_and_bearer_witness :
  let options := scalarOptions "value" (Some "2023-06-01") in
  let stored := DemoHost.world {[API_KEY_PROP := "dsiq_live_k1"]} [] in
  let anonymous := DemoHost.world ∅ [] in
  (exists evs,
      events (snd (@fetchSeries DemoHost.host "CPIAUCSL" options stored)) = evs
      /\ forall url request,
          In (Fetch url request) evs ->
          url = "https://datasetiq.com/api/public/series/CPIAUCSL/data?end=2023-06-01&limit=1000"
          /\ headers request !! "Authorization" = Some "Bearer dsiq_live_k1") /\
  (exists evs,
      events (snd (@fetchSeries DemoHost.host "CPIAUCSL" options anonymous)) = evs
      /\ forall url request,
          In (Fetch url request) evs ->
          url = "https://datasetiq.com/api/public/series/CPIAUCSL/data?end=2023-06-01&limit=100"
          /\ headers request !! "Authorization" = None).
Proof.
  cbv zeta. split.
  - destruct (@C8_limit_and_bearer_follow_credential DemoHost.host "CPIAUCSL"
                (scalarOptions "value" (Some "2023-06-01"))
                (DemoHost.world {[API_KEY_PROP := "dsiq_live_k1"]} []))
      as (evs & Hevs & _ & Hall); [discriminate|discriminate|].
    exists evs. split; [exact Hevs|].
    intros url request Hin. destruct (Hall url request Hin) as (Hurl & _ & Hauth & _).
    split; [exact Hurl|exact Hauth].
  - destruct (@C8_limit_and_bearer_follow_credential DemoHost.host "CPIAUCSL"
                (scalarOptions "value" (Some "2023-06-01"))
                (DemoHost.world ∅ []))
      as (evs & Hevs & _ & Hall); [discriminate|discriminate|].
    exists evs. split; [exact Hevs|].
    intros url request Hin. destruct (Hall url request Hin) as (Hurl & _ & Hauth & _).
    split; [exact Hurl|exact Hauth].
Defined.

(** One hundred yearly observations received oldest first, no stored key:
    the grid has them newest first, and the three rows follow. *)
Lemma C9_free_tier_rows_witness :
  let observation :=
    fun i : nat => {| obs_date := pretty (1925 + Z.of_nat i) +:+ "-01-01";
                      obs_value := number_of_Z (Z.of_nat i) |} in
  let obs := List.map observation (List.seq 0 100) in
  let w := DemoHost.world ∅
             [DemoHost.reply 200 (JObj [("data", JArr (List.map objectForm obs))]) []] in
  fst (@DSIQ DemoHost.host (JStr "CPIAUCSL") JUndefined JUndefined w)
  = Normal (HEADER_ROW :: List.map pairForm (List.rev obs)
              ++ [JArr [JStr ""; JStr ""];
                  JArr [JStr freeTierNotice; JStr ""];
                  JArr [JStr upgradeLink; JStr ""]]).
Proof.
  cbv zeta.
  set (observation :=
         fun i : nat => {| obs_date := pretty (1925 + Z.of_nat i) +:+ "-01-01";
                           obs_value := number_of_Z (Z.of_nat i) |}).
  set (obs := List.map observation (List.seq 0 100)).
  set (elems := List.map objectForm obs).
  set (w := DemoHost.world ∅ _).
  assert (Hok : @succeeded DemoHost.host (decisive w) = true)
    by (vm_compute; reflexivity).
  assert (Hdata : get_prop_opt (@bodyOf DemoHost.host (decisive w)) "data"
                  = JArr elems) by (vm_compute; reflexivity).
  assert (Helems : Forall (fun o => nullish o = false) elems).
  { apply List.Forall_forall. intros o Ho.
    apply List.in_map_iff in Ho. destruct Ho as (x & <- & _). reflexivity. }
  assert (Hlen : (100 <= length elems)%nat).
  { unfold elems, obs. rewrite !List.length_map, List.length_seq. lia. }
  destruct (@C9_free_tier_rows_appended DemoHost.host (JStr "CPIAUCSL") JUndefined
              JUndefined "CPIAUCSL" None w elems eq_refl eq_refl eq_refl
              Hok Hdata Helems Hlen) as (sorted & Hbuild & _ & _ & Hgrid & _).
  assert (Hrows : @buildArrayResult DemoHost.host (JArr (List.map pairOf elems))
                  = Normal (HEADER_ROW :: List.map pairForm (List.rev obs)))
    by (vm_compute; reflexivity).
  rewrite Hrows in Hbuild. injection Hbuild as Hsorted.
  rewrite Hgrid, <- Hsorted. reflexivity.
Defined.

(** *** The specification's end-to-end scenarios *)

(** Two observations, no credential: the grid is the header and the two
    rows, newest first. *)
Example scenario_table :
  let body := JObj [("data", JArr [JObj [("date", JStr "2023-01-01"); ("value", JNum 290)];
                                   JObj [("date", JStr "2024-01-01"); ("value", JNum 300)]])] in
  fst (@DSIQ DemoHost.host (JStr "CPIAUCSL") JUndefined JUndefined
         (DemoHost.world ∅ [DemoHost.reply 200 body []]))
  = Normal [JArr [JStr "Date"; JStr "Value"];
            JArr [JStr "2024-01-01"; JNum 300];
            JArr [JStr "2023-01-01"; JNum 290]].
Proof. vm_compute. reflexivity. Qed.

(** 429 with [Retry-After: 1], then 200: two calls, one pause of 1000 ms
    between them, and the call succeeds. *)
Example scenario_retry :
  let body := JObj [("data", JArr [JObj [("date", JStr "2024-01-01"); ("value", JNum 300)]])] in
  let w := DemoHost.world ∅ [DemoHost.reply 429 (JObj []) [("Retry-After", JStr "1")];
                             DemoHost.reply 200 body []] in
  fst (@DSIQ_LATEST DemoHost.host (JStr "CPIAUCSL") w) = Normal (JNum 300)
  /\ List.map (fun e => match e with Fetch _ _ => None | Sleep ms => Some ms end)
       (events (snd (@DSIQ_LATEST DemoHost.host (JStr "CPIAUCSL") w)))
     = [None; Some 1000%float; None].
Proof. vm_compute. split; reflexivity. Qed.

(** 401 with the code INVALID_KEY: the fixed message, and a single call. *)
Example scenario_invalid_key :
  let body := JObj [("error", JObj [("code", JStr "INVALID_KEY")])] in
  let w := DemoHost.world {[API_KEY_PROP := "stale"]} [DemoHost.reply 401 body []] in
  fst (@DSIQ_LATEST DemoHost.host (JStr "CPIAUCSL") w)
  = Throw (Error "Invalid API Key. Reconnect at datasetiq.com/dashboard/api-keys")
  /\ calls (snd (@DSIQ_LATEST DemoHost.host (JStr "CPIAUCSL") w)) = 1%nat.
Proof. vm_compute. split; reflexivity. Qed.


(** * Further properties of the fetch path *)

Section FetchFacts.
Context `{Host}.

(** ** Input errors *)

Lemma normalizeSeriesId_absent seriesId :
  absent (normalizeOptionalString seriesId) = true ->
  normalizeSeriesId seriesId = Throw (Error "series_id is required.").
Proof. intros Habs. unfold normalizeSeriesId. rewrite Habs. reflexivity. Qed.

Lemma normalizeSeriesId_nonempty seriesId series :
  normalizeSeriesId seriesId = Normal series -> series <> "".
Proof.
  unfold normalizeSeriesId.
  destruct (absent (normalizeOptionalString seriesId)) eqn:Habs; [discriminate|].
  destruct (normalizeOptionalString seriesId) as [s|]; [|discriminate].
  simpl in *. intros [= <-]. apply String.eqb_neq. exact Habs.
Qed.

(** The date argument is missing: [null], [undefined] or the empty string. *)
Definition missingDate (date : JsValue) : Prop :=
  date = JNull \/ date = JUndefined \/ date = JStr "".

(** The date argument has a type the code refuses. *)
Definition refusedDate (date : JsValue) : Prop :=
  match date with
  | JBool _ | JNum _ | JArr _ | JObj _ => True
  | _ => False
  end.

(** X1. Every input error of the four data entry points is raised before
    any outbound call: the world is left as it was.  A series id that is
    missing or blank gives series_id is required; for DSIQ_VALUE a missing
    date gives Date is required for DSIQ_VALUE, an invalid Date object
    Invalid date, and a boolean, number, array or object Invalid date input,
    each before the series id is even looked at; DSIQ looks at the series id
    first and then refuses a bad start date in the same way. *)
Theorem X1_input_errors_precede_network (w : World) :
  (forall seriesId,
      absent (normalizeOptionalString seriesId) = true ->
      DSIQ_LATEST seriesId w = (Throw (Error "series_id is required."), w)
      /\ DSIQ_YOY seriesId w = (Throw (Error "series_id is required."), w)
      /\ (forall frequency startDate,
            DSIQ seriesId frequency startDate w
            = (Throw (Error "series_id is required."), w))
      /\ (forall date normalizedDate,
            normalizeDateInput date = Normal normalizedDate ->
            absent normalizedDate = false ->
            DSIQ_VALUE seriesId date w = (Throw (Error "series_id is required."), w))) /\
  (forall seriesId date,
      (missingDate date ->
       DSIQ_VALUE seriesId date w = (Throw (Error "Date is required for DSIQ_VALUE."), w))
      /\ (date = JDate None ->
          DSIQ_VALUE seriesId date w = (Throw (Error "Invalid date."), w))
      /\ (refusedDate date ->
          DSIQ_VALUE seriesId date w = (Throw (Error "Invalid date input."), w))) /\
  (forall seriesId series frequency startDate,
      normalizeSeriesId seriesId = Normal series ->
      (startDate = JDate None ->
       DSIQ seriesId frequency startDate w = (Throw (Error "Invalid date."), w))
      /\ (refusedDate startDate ->
          DSIQ seriesId frequency startDate w = (Throw (Error "Invalid date input."), w))).
Proof.
  split; [|split].
  - intros seriesId Habs.
    pose proof (normalizeSeriesId_absent _ Habs) as Hid.
    unfold DSIQ_LATEST, DSIQ_YOY, DSIQ, DSIQ_VALUE, handleScalar, mbind, Script_bind, lift.
    rewrite Hid. repeat split.
    intros date normalizedDate -> ->. reflexivity.
  - intros seriesId date. unfold DSIQ_VALUE, mbind, Script_bind, lift, throw.
    repeat split.
    + intros [-> | [-> | ->]]; reflexivity.
    + intros ->. reflexivity.
    + destruct date; simpl; intros []; reflexivity.
  - intros seriesId series frequency startDate Hid.
    unfold DSIQ, mbind, Script_bind, lift. rewrite Hid.
    split.
    + intros ->. reflexivity.
    + destruct startDate; simpl; intros []; reflexivity.
Qed.

(** ** Failed fetches *)

Lemma mapError_truthy code status fallback :
  truthy (mapError code status fallback) = true.
Proof.
  unfold mapError.
  repeat match goal with
         | |- context [if ?b then _ else _] => destruct b eqn:?; try reflexivity
         end.
  assumption.
Qed.

Lemma fetchSeries_failed seriesId options w :
  succeeded (decisive w) = false ->
  fst (fetchSeries seriesId options w) = Normal (FErrorMessage (errorOf (decisive w))).
Proof. intros Hfail. rewrite fetchSeries_result. unfold outcome. rewrite Hfail. reflexivity. Qed.

Lemma DSIQ_result seriesId frequency startDate series start w :
  normalizeSeriesId seriesId = Normal series ->
  normalizeDateInput startDate = Normal start ->
  fst (DSIQ seriesId frequency startDate w) =
  match outcome (transformResponse "table") (decisive w) with
  | Normal r =>
      if truthy (errorMessage r) then Throw (Error (String_ (errorMessage r)))
      else
        let data := if nullish (get_prop_opt (response r) "data") then JArr []
                    else get_prop_opt (response r) "data" in
        match buildArrayResult data with
        | Normal result =>
            if absent (userProperties w !! API_KEY_PROP) && length_ge_100 data
            then Normal (result ++ upgradeRows) else Normal result
        | Throw e => Throw e
        end
  | Throw e => Throw e
  end.
Proof.
  intros Hid Hstart. rewrite (DSIQ_unfold _ _ _ _ _ _ Hid Hstart), fetchSeries_result.
  reflexivity.
Qed.

(** X2. The message a failure is translated to is never empty or otherwise
    falsy, so no failure passes for a success: whenever the response that
    ends the fetch is not a success, [fetchSeries] returns that message,
    and [handleScalar] (so DSIQ_LATEST, DSIQ_VALUE, DSIQ_YOY) and [DSIQ]
    raise an Error carrying it. *)
Theorem X2_failure_is_raised_with_translated_message
  (seriesId : JsValue) (series : string) (w : World) :
  normalizeSeriesId seriesId = Normal series ->
  succeeded (decisive w) = false ->
  truthy (errorOf (decisive w)) = true
  /\ (forall opts,
        fst (fetchSeries series opts w) = Normal (FErrorMessage (errorOf (decisive w)))
        /\ fst (handleScalar seriesId opts w)
           = Throw (Error (String_ (errorOf (decisive w)))))
  /\ (forall frequency startDate start,
        normalizeDateInput startDate = Normal start ->
        fst (DSIQ seriesId frequency startDate w)
        = Throw (Error (String_ (errorOf (decisive w))))).
Proof.
  intros Hid Hfail.
  assert (Htruthy : truthy (errorOf (decisive w)) = true) by apply mapError_truthy.
  split; [exact Htruthy|]. split.
  - intros opts. split; [apply fetchSeries_failed; assumption|].
    rewrite (handleScalar_unfold _ _ _ _ Hid), (fetchSeries_failed _ _ _ Hfail).
    simpl. rewrite Htruthy. reflexivity.
  - intros frequency startDate start Hstart.
    rewrite (DSIQ_result _ _ _ _ _ _ Hid Hstart). unfold outcome. rewrite Hfail.
    simpl. rewrite Htruthy. reflexivity.
Qed.

(** X3. A 2xx response whose body carries a truthy [error] is a failure that
    is never retried: [fetchSeries] makes the one call, sleeps not at all,
    and returns the message [mapError] gives for the error's code, the 2xx
    status and the error's own message. *)
Theorem X3_error_object_on_2xx_is_terminal
  (seriesId : string) (options : Options) (w : World) :
  200 <= getResponseCode (firstResponse w) < 300 ->
  truthy (get_prop_opt (bodyOf (firstResponse w)) "error") = true ->
  let key := userProperties w !! API_KEY_PROP in
  fetchSeries seriesId options w
  = (Normal (FErrorMessage (errorOf (firstResponse w))),
     extend [Fetch (buildUrl key seriesId options) (buildRequest key)] w)
  /\ forall code,
      get_prop_opt (get_prop_opt (bodyOf (firstResponse w)) "error") "code" = code ->
      otherCode code ->
      errorOf (firstResponse w)
      = let message :=
          get_prop_opt (get_prop_opt (bodyOf (firstResponse w)) "error") "message" in
        if truthy message then message else JStr "Unable to fetch data.".
Proof.
  intros [Hlo Hhi] Herror key.
  assert (Hnt : transient (firstResponse w) = false).
  { unfold transient, retryable.
    destruct (getResponseCode (firstResponse w) =? 429) eqn:E1; [lia|].
    destruct (500 <=? getResponseCode (firstResponse w)) eqn:E2; [lia|reflexivity]. }
  assert (Hfail : succeeded (firstResponse w) = false).
  { unfold succeeded, isSuccess. rewrite Herror. simpl. apply Bool.andb_false_r. }
  split.
  - rewrite fetchSeries_unfold. cbv zeta. fold key.
    unfold decisive, fetchEvents, outcome. rewrite Hnt, Hfail. reflexivity.
  - intros code Hcode Hother. unfold errorOf. rewrite Hcode.
    rewrite mapError_otherCode by assumption.
    destruct (getResponseCode (firstResponse w) =? 429) eqn:E1; [lia|].
    destruct (getResponseCode (firstResponse w) >=? 500) eqn:E2; [lia|]. reflexivity.
Qed.

(** ** The retry path *)

(** X4. What a fetch does besides returning: it writes no stored property
    and leaves the clock alone; when the first response is not transient it
    makes the one call; when it is, it makes the call, sleeps once, for the
    delay computed from the first response's headers at attempt 0, and
    repeats the call with the same URL and the same request. *)
Theorem X4_fetch_trace (seriesId : string) (options : Options) (w : World) :
  let key := userProperties w !! API_KEY_PROP in
  let url := buildUrl key seriesId options in
  let request := buildRequest key in
  let w' := snd (fetchSeries seriesId options w) in
  userProperties w' = userProperties w
  /\ clock w' = clock w
  /\ (transient (firstResponse w) = false -> events w' = events w ++ [Fetch url request])
  /\ (transient (firstResponse w) = true ->
      events w'
      = events w
          ++ [Fetch url request;
              Sleep (computeRetryAfter (clock w)
                       (normalizeHeaders (getAllHeaders (firstResponse w))) 0);
              Fetch url request]).
Proof.
  cbv zeta. rewrite fetchSeries_unfold. cbv zeta. simpl snd.
  unfold extend, fetchEvents, retryDelay. simpl.
  repeat split; intros ->; reflexivity.
Qed.

(** ** Response headers *)

Definition namedLike (name : string) (header : string * JsValue) : bool :=
  String.eqb (String_toLowerCase (fst header)) name.

Lemma normalizeHeaders_snoc headers key v :
  normalizeHeaders (headers ++ [(key, v)])
  = <[String_toLowerCase key := String_ v]> (normalizeHeaders headers).
Proof. unfold normalizeHeaders. rewrite List.fold_left_app. reflexivity. Qed.

Lemma normalizeHeaders_lookup headers name :
  normalizeHeaders headers !! name
  = (fun header => String_ (snd header)) <$> last (List.filter (namedLike name) headers).
Proof.
  induction headers as [|[key v] headers IH] using List.rev_ind; [reflexivity|].
  rewrite normalizeHeaders_snoc, List.filter_app. simpl.
  unfold namedLike at 2. simpl.
  destruct (String.eqb (String_toLowerCase key) name) eqn:E.
  - apply String.eqb_eq in E. subst name.
    rewrite lookup_insert_eq, last_snoc. reflexivity.
  - apply String.eqb_neq in E.
    rewrite lookup_insert_ne by assumption. rewrite List.app_nil_r. exact IH.
Qed.

(** X5. [normalizeHeaders] makes header lookup blind to letter case, the
    last header of a name standing: the normalised value under a name is the
    string of the last raw header whose lower-cased name it is, and there is
    none when no raw header has that name.  So the retry delay is read from
    the last Retry-After header however it is capitalised: a value that is
    a number gives that number times 1000. *)
Theorem X5_headers_are_case_blind_last_wins
  (raw : list (string * JsValue)) :
  (forall name,
      normalizeHeaders raw !! name
      = (fun header => String_ (snd header)) <$> last (List.filter (namedLike name) raw)) /\
  (forall now attempt header,
      last (List.filter (namedLike "retry-after") raw) = Some header ->
      String_ (snd header) <> "" ->
      is_nan (StringToNumber (String_ (snd header))) = false ->
      computeRetryAfter now (normalizeHeaders raw) attempt
      = (StringToNumber (String_ (snd header)) * 1000)%float).
Proof.
  split; [intros name; apply normalizeHeaders_lookup|].
  intros now attempt header Hlast Hne Hnum.
  unfold computeRetryAfter. rewrite normalizeHeaders_lookup, Hlast. simpl.
  apply String.eqb_neq in Hne. rewrite Hne, Hnum. reflexivity.
Qed.

(** ** What the scalar entry points return *)

Lemma handleScalar_of_response seriesId series opts w resp :
  normalizeSeriesId seriesId = Normal series ->
  fst (fetchSeries series opts w) = Normal (FResponse resp) ->
  fst (handleScalar seriesId opts w)
  = if is_undefined (get_prop_opt resp "scalar")
    then Throw (Error "Value not available.")
    else Normal (get_prop_opt resp "scalar").
Proof.
  intros Hid Hres. rewrite (handleScalar_unfold _ _ _ _ Hid), Hres. reflexivity.
Qed.

Lemma fetchSeries_data seriesId options w elems :
  succeeded (decisive w) = true ->
  get_prop_opt (bodyOf (decisive w)) "data" = JArr elems ->
  Forall (fun o => nullish o = false) elems ->
  String.eqb (mode options) "meta"
    && truthy (get_prop_opt (bodyOf (decisive w)) "dataset") = false ->
  let body := bodyOf (decisive w) in
  let base :=
    [("data", JArr (List.map pairOf elems));
     ("seriesId", get_prop_opt body "seriesId");
     ("status", get_prop_opt body "status");
     ("message", get_prop_opt body "message")] in
  fst (fetchSeries seriesId options w) =
  Normal (FResponse (JObj
    (if String.eqb (mode options) "latest" && (0 <? length elems)%nat
     then base ++ [("scalar", get_prop_opt (List.last elems JUndefined) "value")]
     else if String.eqb (mode options) "value" && (0 <? length elems)%nat
     then base ++ [("scalar", get_prop_opt (List.hd JUndefined elems) "value")]
     else base))).
Proof.
  intros Hok Hdata Helems Hmeta. cbv zeta.
  rewrite fetchSeries_result. unfold outcome. rewrite Hok.
  rewrite (transformResponse_data _ _ elems) by assumption. reflexivity.
Qed.

(** X6. In mode yoy the newer variant copies no scalar into the result it
    builds from a [data] list: whenever the successful response that ends
    the fetch carries a [data] array, DSIQ_YOY raises Value not available,
    whatever [scalar] the body has.  DSIQ_YOY returns the body's [scalar]
    only when the body has no [data]. *)
Theorem X6_yoy_needs_a_body_without_data
  (seriesId : JsValue) (series : string) (w : World) :
  normalizeSeriesId seriesId = Normal series ->
  succeeded (decisive w) = true ->
  let body := bodyOf (decisive w) in
  (forall elems,
      get_prop_opt body "data" = JArr elems ->
      Forall (fun o => nullish o = false) elems ->
      fst (DSIQ_YOY seriesId w) = Throw (Error "Value not available.")) /\
  (nullish body = false ->
   truthy (get_prop_opt body "data") = false ->
   is_undefined (get_prop_opt body "scalar") = false ->
   fst (DSIQ_YOY seriesId w) = Normal (get_prop_opt body "scalar")).
Proof.
  intros Hid Hok body. split.
  - intros elems Hdata Helems. unfold DSIQ_YOY.
    rewrite (handleScalar_of_response _ _ _ _ _ Hid
               (fetchSeries_data series (scalarOptions "yoy" None) w elems
                  Hok Hdata Helems eq_refl)).
    reflexivity.
  - subst body. intros Hbody Hdata Hscalar. unfold DSIQ_YOY.
    assert (Hres : fst (fetchSeries series (scalarOptions "yoy" None) w)
                   = Normal (FResponse (bodyOf (decisive w)))).
    { rewrite fetchSeries_result. unfold outcome. rewrite Hok.
      unfold transformResponse. simpl.
      rewrite (get_prop_defined _ "data" Hbody). simpl.
      rewrite Hdata. reflexivity. }
    rewrite (handleScalar_of_response _ _ _ _ _ Hid Hres), Hscalar. reflexivity.
Qed.

(** X7. On a successful response with a non-empty [data] list, DSIQ_LATEST
    returns the [value] of the last observation and DSIQ_VALUE the [value]
    of the first, and each raises Value not available when that
    observation has no [value]. *)
Theorem X7_latest_and_value_return_an_observation_value
  (seriesId : JsValue) (series : string) (w : World) (elems : list JsValue) :
  normalizeSeriesId seriesId = Normal series ->
  succeeded (decisive w) = true ->
  get_prop_opt (bodyOf (decisive w)) "data" = JArr elems ->
  elems <> [] ->
  Forall (fun o => nullish o = false) elems ->
  fst (DSIQ_LATEST seriesId w)
  = (let v := get_prop_opt (List.last elems JUndefined) "value" in
     if is_undefined v then Throw (Error "Value not available.") else Normal v)
  /\ forall date normalizedDate,
      normalizeDateInput date = Normal normalizedDate ->
      absent normalizedDate = false ->
      fst (DSIQ_VALUE seriesId date w)
      = (let v := get_prop_opt (List.hd JUndefined elems) "value" in
         if is_undefined v then Throw (Error "Value not available.") else Normal v).
Proof.
  intros Hid Hok Hdata Hne Helems.
  assert (Hlen : (0 <? length elems)%nat = true).
  { apply Nat.ltb_lt. destruct elems; [congruence|simpl; lia]. }
  split.
  - unfold DSIQ_LATEST.
    rewrite (handleScalar_of_response _ _ _ _ _ Hid
               (fetchSeries_data series (scalarOptions "latest" None) w elems
                  Hok Hdata Helems eq_refl)).
    simpl. rewrite Hlen. reflexivity.
  - intros date normalizedDate Hdate Hpresent.
    unfold DSIQ_VALUE, mbind, Script_bind, lift. rewrite Hdate, Hpresent.
    rewrite (handleScalar_of_response _ _ _ _ _ Hid
               (fetchSeries_data series (scalarOptions "value" normalizedDate) w elems
                  Hok Hdata Helems eq_refl)).
    simpl. rewrite Hlen. reflexivity.
Qed.

(** ** The table *)

Definition isArray (v : JsValue) : Prop := exists elems, v = JArr elems.

Lemma filter_defined_arrays rows :
  Forall isArray rows ->
  List.filter (fun v => negb (is_undefined v)) rows = rows
  /\ List.filter is_undefined rows = [].
Proof.
  induction 1 as [|row rows [l ->] _ [IH1 IH2]]; [split; reflexivity|].
  simpl. rewrite IH1, IH2. split; reflexivity.
Qed.

Lemma buildArrayResult_arrays rows :
  Forall isArray rows ->
  exists sorted,
    buildArrayResult (JArr rows) = Normal (HEADER_ROW :: sorted)
    /\ Permutation sorted rows.
Proof.
  intros Hrows. unfold buildArrayResult, Array_sort.
  destruct (filter_defined_arrays rows Hrows) as [-> ->].
  destruct (sortList_total isArray compareRows) with (l := rows)
    as (sorted & -> & Hperm); [|assumption|].
  - intros a b [la ->] [lb ->]. eexists. reflexivity.
  - exists sorted. simpl. rewrite List.app_nil_r. split; [reflexivity|assumption].
Qed.

Lemma sortList_already_sorted (obs : list Observation) :
  StronglySorted notBefore obs ->
  sortList (fun a b => compareRows (pairForm a) (pairForm b)) obs = Normal obs.
Proof.
  induction 1 as [|x rest Hsorted IH Hx]; [reflexivity|].
  cbn [sortList]. rewrite IH.
  change (insertSorted (fun a b => compareRows (pairForm a) (pairForm b)) x rest
          = Normal (x :: rest)).
  destruct rest as [|y rest']; [reflexivity|].
  cbn [insertSorted]. rewrite compareRows_pairForm.
  inversion Hx as [|? ? Hxy _]; subst. unfold notBefore in Hxy.
  destruct (parsedDate x) as [tx|]; [|destruct Hxy].
  destruct (parsedDate y) as [ty|]; [|destruct Hxy].
  simpl. destruct (0 <? ty - tx) eqn:E; [lia|reflexivity].
Qed.

(** X8. [buildArrayResult] neither drops nor repeats a row: on every list of
    rows that are arrays it returns the header followed by a rearrangement
    of exactly those rows, whether or not their dates parse.  And a list of
    observations that is already non-increasing by date comes back in the
    order it came in. *)
Theorem X8_table_keeps_rows_and_sorted_input :
  (forall rows,
      Forall isArray rows ->
      exists sorted,
        buildArrayResult (JArr rows) = Normal (HEADER_ROW :: sorted)
        /\ Permutation sorted rows) /\
  (forall obs : list Observation,
      StronglySorted notBefore obs ->
      buildArrayResult (JArr (List.map pairForm obs))
      = Normal (HEADER_ROW :: List.map pairForm obs)).
Proof.
  split; [exact buildArrayResult_arrays|].
  intros obs Hsorted. unfold buildArrayResult, Array_sort.
  destruct (filter_defined_rows pairForm obs) as [-> ->]; [reflexivity|].
  rewrite sortList_map, (sortList_already_sorted obs Hsorted). simpl.
  rewrite List.app_nil_r. reflexivity.
Qed.

(** X9. Apart from the free-tier case DSIQ returns the header and the data
    rows and nothing else: with a stored credential, or with fewer than 100
    observations, the grid of a successful table fetch is the header
    followed by a rearrangement of the rows made of the observations; and a
    success whose body has no [data] gives the header row alone. *)
Theorem X9_table_without_upgrade_rows
  (seriesId frequency startDate : JsValue) (series : string) (start : option string)
  (w : World) :
  normalizeSeriesId seriesId = Normal series ->
  normalizeDateInput startDate = Normal start ->
  succeeded (decisive w) = true ->
  (forall elems,
      get_prop_opt (bodyOf (decisive w)) "data" = JArr elems ->
      Forall (fun o => nullish o = false) elems ->
      absent (userProperties w !! API_KEY_PROP) = false \/ (length elems < 100)%nat ->
      exists sorted,
        Permutation sorted (List.map pairOf elems)
        /\ fst (DSIQ seriesId frequency startDate w) = Normal (HEADER_ROW :: sorted)) /\
  (nullish (bodyOf (decisive w)) = false ->
   truthy (get_prop_opt (bodyOf (decisive w)) "data") = false ->
   fst (DSIQ seriesId frequency startDate w) = Normal [HEADER_ROW]).
Proof.
  intros Hid Hstart Hok. split.
  - intros elems Hdata Helems Hplain.
    destruct (buildArrayResult_pairOf elems) as (sorted & Hbuild & Hperm).
    exists sorted. split; [exact Hperm|].
    rewrite (DSIQ_result _ _ _ _ _ _ Hid Hstart). unfold outcome. rewrite Hok.
    rewrite (transformResponse_data _ _ elems) by (assumption || reflexivity).
    cbv zeta.
    change (match buildArrayResult (JArr (List.map pairOf elems)) with
            | Normal result =>
                if absent (userProperties w !! API_KEY_PROP)
                   && length_ge_100 (JArr (List.map pairOf elems))
                then Normal (result ++ upgradeRows) else Normal result
            | Throw e => Throw e
            end = Normal (HEADER_ROW :: sorted)).
    rewrite Hbuild. unfold length_ge_100. rewrite List.length_map.
    destruct Hplain as [-> | Hshort]; [reflexivity|].
    replace (100 <=? length elems)%nat with false
      by (symmetry; apply Nat.leb_gt; exact Hshort).
    rewrite Bool.andb_false_r. reflexivity.
  - intros Hbody Hdata.
    rewrite (DSIQ_result _ _ _ _ _ _ Hid Hstart). unfold outcome. rewrite Hok.
    unfold transformResponse. simpl.
    rewrite (get_prop_defined _ "data" Hbody). simpl. rewrite Hdata. simpl.
    destruct (get_prop_opt (bodyOf (decisive w)) "data") as [| |b|n|s| | |] eqn:Ed;
      simpl in Hdata; try discriminate; simpl.
    + rewrite Bool.andb_false_r. reflexivity.
    + rewrite Bool.andb_false_r. reflexivity.
    + subst. rewrite Bool.andb_false_r. reflexivity.
    + rewrite Bool.andb_false_r. reflexivity.
    + apply Bool.negb_false_iff, String.eqb_eq in Hdata. subst s.
      rewrite Bool.andb_false_r. reflexivity.
Qed.

(** ** Payloads the success branch cannot read *)

(** The body is [null], or its [data] is truthy and no array, or its [data]
    is an array with a [null] (or [undefined]) element. *)
Definition unreadable (body : JsValue) : Prop :=
  nullish body = true
  \/ (truthy (get_prop_opt body "data") = true
      /\ forall elems, get_prop_opt body "data" <> JArr elems)
  \/ (exists elems,
         get_prop_opt body "data" = JArr elems
         /\ List.Exists (fun o => nullish o = true) elems).

Lemma get_prop_nullish v k : nullish v = true -> get_prop v k = Throw TypeError.
Proof. destruct v; simpl; intros; try discriminate; reflexivity. Qed.

Lemma mapM_null_element elems :
  List.Exists (fun o => nullish o = true) elems ->
  mapM (fun obs => d ← get_prop obs "date"; v ← get_prop obs "value"; Normal (JArr [d; v]))
    elems = Throw TypeError.
Proof.
  induction elems as [|o rest IH]; intros Hex; [inversion Hex|].
  simpl. destruct (nullish o) eqn:Ho.
  - destruct o; simpl in Ho; try discriminate; reflexivity.
  - rewrite !get_prop_defined by assumption. simpl.
    rewrite IH; [reflexivity|].
    inversion Hex; subst; [congruence|assumption].
Qed.

Lemma transformResponse_unreadable mode body :
  mode <> "meta" -> unreadable body -> transformResponse mode body = Throw TypeError.
Proof.
  intros Hmode Hbad. apply String.eqb_neq in Hmode.
  unfold transformResponse. rewrite Hmode. simpl.
  destruct Hbad as [Hnull | [[Htruthy Hnot] | (elems & Hdata & Hex)]].
  - rewrite (get_prop_nullish body "data" Hnull). reflexivity.
  - destruct (nullish body) eqn:Hb;
      [rewrite (get_prop_nullish body "data" Hb); reflexivity|].
    rewrite (get_prop_defined _ "data" Hb). simpl. rewrite Htruthy.
    destruct (get_prop_opt body "data") eqn:Ed; try reflexivity.
    exfalso. eapply Hnot. reflexivity.
  - destruct (get_prop_opt_array _ _ _ Hdata) as [props ->].
    simpl in *. rewrite Hdata. simpl. rewrite mapM_null_element by assumption.
    reflexivity.
Qed.

(** X10. Not every bad payload becomes a message.  When the response that
    ends the fetch has a 2xx status and a body that is the JSON value null,
    or whose [data] is something truthy other than an array, or whose
    [data] array has a null element, and carries no truthy [error], then in
    every mode but meta [fetchSeries] raises a TypeError, and so do
    DSIQ_LATEST, DSIQ_YOY, DSIQ_VALUE and DSIQ. *)
Theorem X10_unreadable_payload_raises_TypeError
  (seriesId : JsValue) (series : string) (w : World) :
  normalizeSeriesId seriesId = Normal series ->
  succeeded (decisive w) = true ->
  unreadable (bodyOf (decisive w)) ->
  (forall options,
      mode options <> "meta" ->
      fst (fetchSeries series options w) = Throw TypeError)
  /\ fst (DSIQ_LATEST seriesId w) = Throw TypeError
  /\ fst (DSIQ_YOY seriesId w) = Throw TypeError
  /\ (forall date normalizedDate,
        normalizeDateInput date = Normal normalizedDate ->
        absent normalizedDate = false ->
        fst (DSIQ_VALUE seriesId date w) = Throw TypeError)
  /\ (forall frequency startDate start,
        normalizeDateInput startDate = Normal start ->
        fst (DSIQ seriesId frequency startDate w) = Throw TypeError).
Proof.
  intros Hid Hok Hbad.
  assert (Hfetch : forall options,
             mode options <> "meta" ->
             fst (fetchSeries series options w) = Throw TypeError).
  { intros options Hmode. rewrite fetchSeries_result. unfold outcome. rewrite Hok.
    rewrite (transformResponse_unreadable _ _ Hmode Hbad). reflexivity. }
  split; [exact Hfetch|].
  split; [unfold DSIQ_LATEST; rewrite (handleScalar_unfold _ _ _ _ Hid), Hfetch;
          [reflexivity|discriminate]|].
  split; [unfold DSIQ_YOY; rewrite (handleScalar_unfold _ _ _ _ Hid), Hfetch;
          [reflexivity|discriminate]|].
  split.
  - intros date normalizedDate Hdate Hpresent.
    unfold DSIQ_VALUE, mbind, Script_bind, lift. rewrite Hdate, Hpresent.
    rewrite (handleScalar_unfold _ _ _ _ Hid), Hfetch; [reflexivity|discriminate].
  - intros frequency startDate start Hstart.
    rewrite (DSIQ_unfold _ _ _ _ _ _ Hid Hstart), Hfetch; [reflexivity|discriminate].
Qed.

End FetchFacts.

(** ** Closed instances *)

(** A blank series id, a missing date and a number for a date, in a world
    whose server would answer. *)
Lemma X1_input_errors_witness :
  let w := DemoHost.world ∅ [DemoHost.reply 200 (JObj [("data", JArr [])]) []] in
  @DSIQ_LATEST DemoHost.host (JStr "   ") w = (Throw (Error "series_id is required."), w)
  /\ @DSIQ DemoHost.host JNull JUndefined JUndefined w
     = (Throw (Error "series_id is required."), w)
  /\ @DSIQ_VALUE DemoHost.host (JStr "GDP") (JStr "") w
     = (Throw (Error "Date is required for DSIQ_VALUE."), w)
  /\ @DSIQ_VALUE DemoHost.host (JStr "GDP") (JNum 45000) w
     = (Throw (Error "Invalid date input."), w)
  /\ @DSIQ DemoHost.host (JStr "GDP") JUndefined (JDate None) w
     = (Throw (Error "Invalid date."), w).
Proof.
  cbv zeta. set (w := DemoHost.world ∅ _).
  destruct (@X1_input_errors_precede_network DemoHost.host w) as (Hid & Hdate & Hstart).
  split; [exact (proj1 (Hid (JStr "   ") eq_refl))|].
  split; [exact (proj1 (proj2 (proj2 (Hid JNull eq_refl))) JUndefined JUndefined)|].
  split; [exact (proj1 (Hdate (JStr "GDP") (JStr "")) (or_intror (or_intror eq_refl)))|].
  split; [exact (proj2 (proj2 (Hdate (JStr "GDP") (JNum 45000))) I)|].
  exact (proj1 (Hstart (JStr "GDP") "GDP" JUndefined (JDate None) eq_refl) eq_refl).
Defined.

(** 403 with the code PLAN_REQUIRED. *)
Lemma X2_failure_is_raised_witness :
  let body := JObj [("error", JObj [("code", JStr "PLAN_REQUIRED");
                                    ("message", JStr "Pro plan needed")])] in
  let w := DemoHost.world ∅ [DemoHost.reply 403 body []] in
  fst (@DSIQ_YOY DemoHost.host (JStr "GDP") w)
  = Throw (Error "Upgrade required. Visit datasetiq.com/pricing")
  /\ fst (@DSIQ DemoHost.host (JStr "GDP") JUndefined JUndefined w)
     = Throw (Error "Upgrade required. Visit datasetiq.com/pricing").
Proof.
  cbv zeta. set (w := DemoHost.world ∅ _).
  destruct (@X2_failure_is_raised_with_translated_message DemoHost.host
              (JStr "GDP") "GDP" w eq_refl eq_refl) as (_ & Hscalar & Htable).
  split; [exact (proj2 (Hscalar (scalarOptions "yoy" None)))|].
  exact (Htable JUndefined JUndefined None eq_refl).
Defined.

(** 200 with an error object whose code is not one of the six. *)
Lemma X3_error_object_on_2xx_witness :
  let body := JObj [("error", JObj [("code", JStr "NOT_FOUND");
                                    ("message", JStr "Series not found")])] in
  let w := DemoHost.world ∅ [DemoHost.reply 200 body []; DemoHost.reply 200 (JObj []) []] in
  fst (@fetchSeries DemoHost.host "NOPE" (scalarOptions "latest" None) w)
  = Normal (FErrorMessage (JStr "Series not found"))
  /\ calls (snd (@fetchSeries DemoHost.host "NOPE" (scalarOptions "latest" None) w)) = 1%nat.
Proof.
  cbv zeta. set (w := DemoHost.world ∅ _).
  destruct (@X3_error_object_on_2xx_is_terminal DemoHost.host "NOPE"
              (scalarOptions "latest" None) w) as [Hrun Hmessage].
  { split; [discriminate|reflexivity]. }
  { reflexivity. }
  assert (Hother : otherCode (JStr "NOT_FOUND")).
  { intros c m Hin. simpl in Hin.
    repeat (destruct Hin as [Heq|Hin]; [inversion Heq; discriminate|]). destruct Hin. }
  rewrite (Hmessage (JStr "NOT_FOUND") eq_refl Hother) in Hrun.
  rewrite Hrun. split; reflexivity.
Defined.

(** Two Retry-After headers in different capitals: the later one counts. *)
Lemma X5_headers_witness :
  @computeRetryAfter DemoHost.host 0
    (@normalizeHeaders DemoHost.host
       [("RETRY-AFTER", JStr "30"); ("Content-Type", JStr "application/json");
        ("Retry-After", JStr "2")]) 0
  = 2000%float.
Proof.
  refine (proj2 (@X5_headers_are_case_blind_last_wins DemoHost.host
                   [("RETRY-AFTER", JStr "30"); ("Content-Type", JStr "application/json");
                    ("Retry-After", JStr "2")])
            0 0%nat ("Retry-After", JStr "2") eq_refl _ eq_refl).
  discriminate.
Defined.

(** A yoy response with observations and a scalar, and one with the scalar
    alone. *)
Lemma X6_yoy_witness :
  let obs := JObj [("date", JStr "2024-01-01"); ("value", JNum 300)] in
  let both := DemoHost.world ∅
                [DemoHost.reply 200 (JObj [("data", JArr [obs]); ("scalar", JNum 3)]) []] in
  let scalarOnly := DemoHost.world ∅ [DemoHost.reply 200 (JObj [("scalar", JNum 3)]) []] in
  fst (@DSIQ_YOY DemoHost.host (JStr "GDP") both) = Throw (Error "Value not available.")
  /\ fst (@DSIQ_YOY DemoHost.host (JStr "GDP") scalarOnly) = Normal (JNum 3).
Proof.
  cbv zeta.
  set (obs := JObj [("date", JStr "2024-01-01"); ("value", JNum 300)]).
  set (both := DemoHost.world ∅
                 [DemoHost.reply 200 (JObj [("data", JArr [obs]); ("scalar", JNum 3)]) []]).
  set (scalarOnly := DemoHost.world ∅ [DemoHost.reply 200 (JObj [("scalar", JNum 3)]) []]).
  split.
  - refine (proj1 (@X6_yoy_needs_a_body_without_data DemoHost.host (JStr "GDP") "GDP"
                     both eq_refl eq_refl) [obs] eq_refl _).
    repeat constructor.
  - exact (proj2 (@X6_yoy_needs_a_body_without_data DemoHost.host (JStr "GDP") "GDP"
                    scalarOnly eq_refl eq_refl) eq_refl eq_refl eq_refl).
Defined.

(** Two observations, the later one without a value. *)
Lemma X7_latest_and_value_witness :
  let elems := [JObj [("date", JStr "2023-01-01"); ("value", JNum 290)];
                JObj [("date", JStr "2024-01-01")]] in
  let w := DemoHost.world ∅ [DemoHost.reply 200 (JObj [("data", JArr elems)]) []] in
  fst (@DSIQ_LATEST DemoHost.host (JStr "GDP") w) = Throw (Error "Value not available.")
  /\ fst (@DSIQ_VALUE DemoHost.host (JStr "GDP") (JStr "2023-06-01") w) = Normal (JNum 290).
Proof.
  cbv zeta.
  set (elems := [JObj [("date", JStr "2023-01-01"); ("value", JNum 290)];
                 JObj [("date", JStr "2024-01-01")]]).
  set (w := DemoHost.world ∅ _).
  assert (Helems : Forall (fun o => nullish o = false) elems) by (repeat constructor).
  assert (Hne : elems <> []) by discriminate.
  destruct (@X7_latest_and_value_return_an_observation_value DemoHost.host
              (JStr "GDP") "GDP" w elems eq_refl eq_refl eq_refl Hne Helems)
    as [Hlatest Hvalue].
  split; [exact Hlatest|].
  exact (Hvalue (JStr "2023-06-01") (Some "2023-06-01") eq_refl eq_refl).
Defined.

(** Rows whose dates do not parse are kept all the same; rows that are
    newest first stay as they are. *)
Lemma X8_table_witness :
  (exists sorted,
      @buildArrayResult DemoHost.host
        (JArr [JArr [JStr "Q1 2024"; JNum 1]; JArr [JStr "Q2 2024"; JNum 2]])
      = Normal (HEADER_ROW :: sorted)
      /\ Permutation sorted [JArr [JStr "Q1 2024"; JNum 1]; JArr [JStr "Q2 2024"; JNum 2]]) /\
  @buildArrayResult DemoHost.host
    (JArr [JArr [JStr "2024-01-01"; JNum 300]; JArr [JStr "2023-01-01"; JNum 290]])
  = Normal [HEADER_ROW; JArr [JStr "2024-01-01"; JNum 300];
            JArr [JStr "2023-01-01"; JNum 290]].
Proof.
  destruct (@X8_table_keeps_rows_and_sorted_input DemoHost.host) as [Hkeeps Hsorted].
  split.
  - apply Hkeeps. repeat constructor; eexists; reflexivity.
  - apply (Hsorted [{| obs_date := "2024-01-01"; obs_value := 300 |};
                    {| obs_date := "2023-01-01"; obs_value := 290 |}]).
    repeat constructor. vm_compute. discriminate.
Defined.

(** Two observations without a credential, and a body without data. *)
Lemma X9_table_without_upgrade_rows_witness :
  let elems := [JObj [("date", JStr "2023-01-01"); ("value", JNum 290)];
                JObj [("date", JStr "2024-01-01"); ("value", JNum 300)]] in
  let w := DemoHost.world ∅ [DemoHost.reply 200 (JObj [("data", JArr elems)]) []] in
  let bare := DemoHost.world ∅ [DemoHost.reply 200 (JObj [("seriesId", JStr "GDP")]) []] in
  (exists sorted,
      Permutation sorted (List.map pairOf elems)
      /\ fst (@DSIQ DemoHost.host (JStr "GDP") JUndefined JUndefined w)
         = Normal (HEADER_ROW :: sorted)) /\
  fst (@DSIQ DemoHost.host (JStr "GDP") JUndefined JUndefined bare) = Normal [HEADER_ROW].
Proof.
  cbv zeta.
  set (elems := [JObj [("date", JStr "2023-01-01"); ("value", JNum 290)];
                 JObj [("date", JStr "2024-01-01"); ("value", JNum 300)]]).
  set (w := DemoHost.world ∅ [DemoHost.reply 200 (JObj [("data", JArr elems)]) []]).
  set (bare := DemoHost.world ∅ [DemoHost.reply 200 (JObj [("seriesId", JStr "GDP")]) []]).
  split.
  - refine (proj1 (@X9_table_without_upgrade_rows DemoHost.host (JStr "GDP") JUndefined
                     JUndefined "GDP" None w eq_refl eq_refl eq_refl)
              elems eq_refl _ _).
    + repeat constructor.
    + right. simpl. lia.
  - exact (proj2 (@X9_table_without_upgrade_rows DemoHost.host (JStr "GDP") JUndefined
                    JUndefined "GDP" None bare eq_refl eq_refl eq_refl)
             eq_refl eq_refl).
Defined.

(** A 200 response whose body is the JSON text null, and one whose data
    list has a null element. *)
Lemma X10_unreadable_payload_witness :
  let nullBody :=
    DemoHost.world ∅ [{| getResponseCode := 200; getContentText := "null";
                         getAllHeaders := [] |}] in
  let nullElement :=
    DemoHost.world ∅
      [DemoHost.reply 200
         (JObj [("data", JArr [JObj [("date", JStr "2024-01-01"); ("value", JNum 1)];
                               JNull])]) []] in
  fst (@DSIQ_LATEST DemoHost.host (JStr "GDP") nullBody) = Throw TypeError
  /\ fst (@DSIQ DemoHost.host (JStr "GDP") JUndefined JUndefined nullElement)
     = Throw TypeError.
Proof.
  cbv zeta.
  set (nullBody := DemoHost.world ∅ [{| getResponseCode := 200; getContentText := "null";
                                        getAllHeaders := [] |}]).
  set (nullElement := DemoHost.world ∅ _).
  split.
  - exact (proj1 (proj2 (@X10_unreadable_payload_raises_TypeError DemoHost.host
                           (JStr "GDP") "GDP" nullBody eq_refl eq_refl
                           (or_introl eq_refl)))).
  - refine (proj2 (proj2 (proj2 (proj2
              (@X10_unreadable_payload_raises_TypeError DemoHost.host
                 (JStr "GDP") "GDP" nullElement eq_refl eq_refl _))))
              JUndefined JUndefined None eq_refl).
    right. right. eexists. split; [reflexivity|].
    right. left. reflexivity.
Defined.

(** * Further functions of the file

    The metadata entry point, the sidebar's search, preview and status
    helpers, and the stored lists of favourites, recent series and
    templates (lines 749-1038 and 1256-1385 of the newer variant).  What
    they need of the runtime beyond [Host] is the class [Runtime]. *)

Class Runtime : Type := {
  (** [JSON.stringify] of an array or an object. *)
  JSON_stringify : JsValue -> string;
  (** The message of the [SyntaxError] that [JSON.parse] raises on a text. *)
  SyntaxError_message : string -> string;
  (** The property is found on the prototype chain of the object, array or
      Date. *)
  inherited : JsValue -> string -> bool;
  (** [toISOString] of the Date of a time value. *)
  Date_toISOString : Z -> string;
}.

(** What [dataset[field]] is: a value the dataset owns, or a built-in
    inherited from a prototype. *)
Inductive Property : Type :=
| Own (v : JsValue)
| Inherited (name : string).

(** Lines 1256-1266 and 653-661. *)
Record PremiumAccess : Type := { allowed : bool; message : option string }.

Record SidebarStatus : Type := {
  connected : bool;
  isPaid : bool;
  status : option string;
  error : option string;
}.

Section Further.
Context `{Host} `{Runtime}.

Definition SEARCH_PATH := "/api/public/search".
Definition FAVORITES_PROP := "DATASETIQ_FAVORITES".
Definition RECENT_PROP := "DATASETIQ_RECENT".
Definition TEMPLATES_PROP := "DATASETIQ_TEMPLATES".

Definition quoteMark : string := String (ascii_of_nat 34) EmptyString.

(** ** The metadata entry point (lines 749-765) *)

Definition hasOwn (name : string) (props : list (string * JsValue)) : bool :=
  existsb (fun p => String.eqb name (fst p)) props.

(** The index an array property name is: the decimal numeral of a position
    of the array. *)
Definition arrayIndex (name : string) (len : nat) : option nat :=
  List.find (fun i => String.eqb name (pretty i)) (List.seq 0 len).

(** The properties a value owns: the members of an object; the positions
    and the [length] of an array. *)
Definition ownProperty (v : JsValue) (name : string) : option JsValue :=
  match v with
  | JObj props => if hasOwn name props then Some (assoc name props) else None
  | JArr elems =>
      match arrayIndex name (length elems) with
      | Some i => Some (List.nth i elems JUndefined)
      | None =>
          if String.eqb name "length"
          then Some (JNum (number_of_Z (Z.of_nat (length elems)))) else None
      end
  | _ => None
  end.

(** [name in v]: a [TypeError] unless [v] is an object. *)
Definition hasProperty (v : JsValue) (name : string) : Completion bool :=
  match v with
  | JObj _ | JArr _ | JDate _ =>
      Normal (match ownProperty v name with Some _ => true | None => inherited v name end)
  | _ => Throw TypeError
  end.

(** [v[name]] of a property that [name in v] found. *)
Definition readProperty (v : JsValue) (name : string) : Property :=
  match ownProperty v name with
  | Some x => Own x
  | None => Inherited name
  end.

Definition metaOptions : Options :=
  {| mode := "meta"; freq := None; start := None; date := None |}.

Definition DSIQ_META (seriesId field : JsValue) : Script Property :=
  series ← lift (normalizeSeriesId seriesId);
  let normalizedField := normalizeOptionalString field in
  if absent normalizedField then throw (Error "Field is required for DSIQ_META.")
  else
    let name := default "" normalizedField in
    r ← fetchSeries series metaOptions;
    if truthy (errorMessage r) then throw (Error (String_ (errorMessage r)))
    else
      let dataset := get_prop_opt (response r) "dataset" in
      found ← (if truthy dataset then lift (hasProperty dataset name) else mret false);
      if (found : bool) then mret (readProperty dataset name)
      else throw (Error ("Metadata " +:+ quoteMark +:+ name +:+ quoteMark +:+ " not found.")).

(** ** Search (lines 823-883) *)

(** Lines 845-851 and 876-882. *)
Definition searchItem (item : JsValue) : Completion JsValue :=
  id ← get_prop item "id";
  title ← get_prop item "title";
  frequency ← get_prop item "frequency";
  units ← get_prop item "units";
  source ← get_prop item "source";
  Normal (JObj [("id", id); ("title", title); ("frequency", frequency);
                ("units", units); ("source", source)]).

(** Lines 838-851, and the same text at lines 869-882. *)
Definition searchResults (response : HttpResponse) : Completion (list JsValue) :=
  if 300 <=? getResponseCode response then Normal []
  else
    let parsed := parseJson (getContentText response) in
    results ← get_prop parsed "results";
    match results with
    | JArr items => mapM searchItem items
    | _ => Normal []
    end.

Definition searchUrl (q : string) : string :=
  BASE_URL +:+ SEARCH_PATH +:+ "?q=" +:+ encodeURIComponent q.

(** A request without [headers] is the request with no header. *)
Definition searchSeries (query : JsValue) : Script (list JsValue) :=
  let q := normalizeOptionalString query in
  if absent q then mret []
  else
    key ← getApiKey;
    response ← UrlFetchApp_fetch (searchUrl (default "" q)) (buildRequest key);
    lift (searchResults response).

Definition browseUrl (source : string) : string :=
  BASE_URL +:+ SEARCH_PATH +:+ "?source=" +:+ encodeURIComponent source +:+ "&limit=50".

Definition browseBySource (source : string) : Script (list JsValue) :=
  if String.eqb source "" then mret []
  else
    key ← getApiKey;
    response ← UrlFetchApp_fetch (browseUrl source) (buildRequest key);
    lift (searchResults response).

(** ** Preview (lines 895-914) *)

Definition getPreviewData (seriesId : string) : Script JsValue :=
  latest ← fetchSeries seriesId (scalarOptions "latest" None);
  meta ← fetchSeries seriesId metaOptions;
  let latestErr := errorMessage latest in
  let metaErr := errorMessage meta in
  if truthy latestErr || truthy metaErr then
    mret (JObj [("error", if truthy latestErr then latestErr else metaErr)])
  else
    let latestRes := response latest in
    let isMetadataOnly := is_string (get_prop_opt latestRes "status") "metadata_only" in
    let isPending := is_string (get_prop_opt latestRes "status") "ingestion_pending" in
    mret (JObj [("latest", get_prop_opt latestRes "scalar");
                ("meta", get_prop_opt (response meta) "dataset");
                ("isMetadataOnly", JBool isMetadataOnly);
                ("isPending", JBool isPending);
                ("statusMessage", get_prop_opt latestRes "message")]).

(** ** Premium access and the status panel (lines 790-818, 1256-1266) *)

Definition premiumMessage : string :=
  "ðŸ”’ Premium features require an API key. Visit datasetiq.com/dashboard/api-keys to get started.".

Definition checkPremiumAccess : Script PremiumAccess :=
  key ← getApiKey;
  if absent key then mret {| allowed := false; message := Some premiumMessage |}
  else mret {| allowed := true; message := None |}.

Definition statusUrl : string := BASE_URL +:+ SEARCH_PATH +:+ "?q=test&limit=1".

Definition connectedStatus : string :=
  "âœ… Connected - Premium features unlocked".

(** The calls in the [try] block return normally here, every call being
    answered, so the [catch] of line 815 is not reached. *)
Definition getSidebarStatus : Script SidebarStatus :=
  key ← getApiKey;
  if absent key then
    mret {| connected := false; isPaid := false; status := None; error := None |}
  else
    response ← UrlFetchApp_fetch statusUrl
                 {| method := "get";
                    headers := {[ "Authorization" := "Bearer " +:+ default "" key ]};
                    muteHttpExceptions := true |};
    let code := getResponseCode response in
    if (code =? 401) || (code =? 403) then
      mret {| connected := false; isPaid := false; status := None;
              error := Some "Invalid API key. Please reconnect." |}
    else if (200 <=? code) && (code <? 300) then
      mret {| connected := true; isPaid := true; status := Some connectedStatus;
              error := None |}
    else
      mret {| connected := false; isPaid := false; status := None;
              error := Some "Unable to verify API key" |}.

(** ** Stored lists (lines 998-1038, 1326-1385) *)

(** [JSON.parse] where the code does not catch. *)
Definition JSON_parse_ (text : string) : Completion JsValue :=
  match JSON_parse text with
  | Some v => Normal v
  | None => Throw (Error (SyntaxError_message text))
  end.

Definition getFavorites : Script JsValue :=
  stored ← getProperty FAVORITES_PROP;
  if absent stored then mret (JArr []) else lift (JSON_parse_ (default "" stored)).

Definition getRecent : Script JsValue :=
  stored ← getProperty RECENT_PROP;
  if absent stored then mret (JArr []) else lift (JSON_parse_ (default "" stored)).

Definition getTemplates : Script JsValue :=
  stored ← getProperty TEMPLATES_PROP;
  if absent stored then mret (JArr []) else lift (JSON_parse_ (default "" stored)).

Fixpoint isSubstring (s t : string) : bool :=
  String.prefix s t
  || match t with
     | String _ rest => isSubstring s rest
     | EmptyString => false
     end.

(** [v.includes(s)]: arrays and strings have the method. *)
Definition includes (v : JsValue) (s : string) : Completion bool :=
  match v with
  | JArr elems => Normal (existsb (fun e => is_string e s) elems)
  | JStr t => Normal (isSubstring s t)
  | _ => Throw TypeError
  end.

(** [v.unshift(x)], then [v]; [v.filter(keep)]: arrays have the methods. *)
Definition unshift (v : JsValue) (x : JsValue) : Completion (list JsValue) :=
  match v with
  | JArr elems => Normal (x :: elems)
  | _ => Throw TypeError
  end.

Definition Array_filter (keep : JsValue -> Completion bool) (v : JsValue)
  : Completion (list JsValue) :=
  match v with
  | JArr elems =>
      mapM (fun e => b ← keep e; Normal (e, b)) elems
      ≫= fun marked => Normal (List.map fst (List.filter snd marked))
  | _ => Throw TypeError
  end.

(** [id => id !== seriesId] *)
Definition isNot (seriesId : string) (id : JsValue) : Completion bool :=
  Normal (negb (is_string id seriesId)).

Definition addFavorite (seriesId : string) : Script unit :=
  favorites ← getFavorites;
  found ← lift (includes favorites seriesId);
  if (found : bool) then mret tt
  else
    unshifted ← lift (unshift favorites (JStr seriesId));
    setProperty FAVORITES_PROP (JSON_stringify (JArr (take 50 unshifted))).

Definition removeFavorite (seriesId : string) : Script unit :=
  favorites ← getFavorites;
  filtered ← lift (Array_filter (isNot seriesId) favorites);
  setProperty FAVORITES_PROP (JSON_stringify (JArr filtered)).

Definition addToRecent (seriesId : string) : Script unit :=
  recent ← getRecent;
  filtered ← lift (Array_filter (isNot seriesId) recent);
  setProperty RECENT_PROP (JSON_stringify (JArr (take 20 (JStr seriesId :: filtered)))).

(** [Date.now().toString()] is the decimal numeral of the time value. *)
Definition saveTemplate (name : string) (formulas : JsValue) : Script JsValue :=
  templates ← getTemplates;
  now ← Date_now;
  created ← Date_now;
  let newTemplate :=
    JObj [("id", JStr (pretty now)); ("name", JStr name); ("formulas", formulas);
          ("createdAt", JStr (Date_toISOString created))] in
  unshifted ← lift (unshift templates newTemplate);
  setProperty TEMPLATES_PROP (JSON_stringify (JArr (take 20 unshifted)));;
  mret newTemplate.

(** [t => t.id !== templateId] *)
Definition hasOtherId (templateId : string) (t : JsValue) : Completion bool :=
  id ← get_prop t "id";
  Normal (negb (is_string id templateId)).

Definition deleteTemplate (templateId : string) : Script unit :=
  templates ← getTemplates;
  filtered ← lift (Array_filter (hasOtherId templateId) templates);
  setProperty TEMPLATES_PROP (JSON_stringify (JArr filtered)).

(** ** The formula builder (lines 1271-1289) *)

(** The members of [config] are the arguments; [freq] and [startDate] may
    be missing. *)
Definition buildFormula (functionName seriesId : string) (freq startDate : option string)
  : string :=
  let formula := "=" +:+ functionName +:+ "(" +:+ quoteMark +:+ seriesId +:+ quoteMark in
  let formula :=
    if String.eqb functionName "DSIQ" || String.eqb functionName "DSIQ_VALUE" then
      let formula :=
        if absent freq then formula
        else formula +:+ ", " +:+ quoteMark +:+ default "" freq +:+ quoteMark in
      if absent startDate then formula
      else formula +:+ ", " +:+ quoteMark +:+ default "" startDate +:+ quoteMark
    else formula in
  formula +:+ ")".

End Further.

(** ** An executable runtime *)

Module DemoRuntime.

(** What every object inherits from [Object.prototype], and an array from
    [Array.prototype] besides; the names the examples use. *)
Definition objectPrototype : list string :=
  ["constructor"; "toString"; "valueOf"; "hasOwnProperty"; "isPrototypeOf";
   "propertyIsEnumerable"; "toLocaleString"; "__proto__"].

Definition arrayPrototype : list string :=
  ["map"; "filter"; "includes"; "unshift"; "slice"; "sort"; "push"; "join";
   "forEach"; "find"; "concat"; "indexOf"].

Definition member (name : string) (names : list string) : bool :=
  existsb (String.eqb name) names.

Definition onPrototype (v : JsValue) (name : string) : bool :=
  match v with
  | JArr _ => member name arrayPrototype || member name objectPrototype
  | JObj _ | JDate _ => member name objectPrototype
  | _ => false
  end.

(** [YYYY-MM-DDTHH:mm:ss.sssZ], for the years 0 to 9999. *)
Definition toISOString (t : Z) : string :=
  let ms := t mod DemoHost.msPerDay in
  DemoHost.formatDate t +:+ "T" +:+ DemoHost.pad 2 (ms / 3600000) +:+ ":"
  +:+ DemoHost.pad 2 (ms / 60000 mod 60) +:+ ":" +:+ DemoHost.pad 2 (ms / 1000 mod 60)
  +:+ "." +:+ DemoHost.pad 3 (ms mod 1000) +:+ "Z".

Definition runtime : Runtime := {|
  JSON_stringify := DemoHost.json;
  SyntaxError_message := fun _ => "Unexpected token in JSON";
  inherited := onPrototype;
  Date_toISOString := toISOString;
|}.

End DemoRuntime.

(** * Properties of the further functions *)

Section FurtherFacts.
Context `{Host} `{Runtime}.

Lemma transformResponse_meta body :
  truthy (get_prop_opt body "dataset") = true ->
  transformResponse "meta" body = Normal (JObj [("dataset", get_prop_opt body "dataset")]).
Proof.
  intros Hd. destruct body; try discriminate Hd.
  unfold transformResponse. cbn [String.eqb Ascii.eqb Bool.eqb get_prop].
  change (String.eqb "meta" "meta") with true. cbn.
  cbn in Hd. rewrite Hd. reflexivity.
Qed.

(** The address of a metadata request: no data path and no query. *)
Definition metaUrl (series : string) : string :=
  BASE_URL +:+ SERIES_PATH +:+ encodeURIComponent series.

Definition notFound (name : string) : JsError :=
  Error ("Metadata " +:+ quoteMark +:+ name +:+ quoteMark +:+ " not found.").

Lemma DSIQ_META_unfold seriesId field series name w :
  normalizeSeriesId seriesId = Normal series ->
  normalizeOptionalString field = Some name ->
  name <> "" ->
  DSIQ_META seriesId field w =
  let key := userProperties w !! API_KEY_PROP in
  let w' := extend (fetchEvents (metaUrl series) (buildRequest key) w) w in
  match outcome (transformResponse "meta") (decisive w) with
  | Normal r =>
      if truthy (errorMessage r) then (Throw (Error (String_ (errorMessage r))), w')
      else
        let dataset := get_prop_opt (response r) "dataset" in
        match (if truthy dataset then hasProperty dataset name else Normal false) with
        | Normal true => (Normal (readProperty dataset name), w')
        | Normal false => (Throw (notFound name), w')
        | Throw e => (Throw e, w')
        end
  | Throw e => (Throw e, w')
  end.
Proof.
  intros Hs Hf Hn. unfold DSIQ_META. rewrite Hf.
  assert (Ha : absent (Some name) = false).
  { cbn. apply String.eqb_neq. exact Hn. }
  rewrite Ha. change (default "" (Some name)) with name.
  unfold mbind, Script_bind, lift at 1. rewrite Hs.
  rewrite fetchSeries_unfold. cbn zeta.
  change (buildUrl (userProperties w !! API_KEY_PROP) series metaOptions) with (metaUrl series).
  change (mode metaOptions) with "meta".
  destruct (outcome (transformResponse "meta") (decisive w)) as [r|e]; [|reflexivity].
  destruct (truthy (errorMessage r)); [reflexivity|].
  destruct (truthy (get_prop_opt (response r) "dataset")).
  - unfold lift. destruct (hasProperty _ name) as [[|]|]; reflexivity.
  - reflexivity.
Qed.

(** X11. With a series and a field given, on a successful response whose
    [dataset] is an object, DSIQ_META sends its request to the series
    address itself (no data path, no query) and returns the member of the
    dataset that the field names.  A name the dataset does not own is not
    found, unless a prototype defines it: then the inherited built-in is
    returned. *)
Theorem X11_metadata_field_of_the_dataset
  (seriesId field : JsValue) (series name : string)
  (props : list (string * JsValue)) (w : World) :
  normalizeSeriesId seriesId = Normal series ->
  normalizeOptionalString field = Some name ->
  name <> "" ->
  succeeded (decisive w) = true ->
  get_prop_opt (bodyOf (decisive w)) "dataset" = JObj props ->
  DSIQ_META seriesId field w =
  (if hasOwn name props then Normal (Own (assoc name props))
   else if inherited (JObj props) name then Normal (Inherited name)
   else Throw (notFound name),
   extend (fetchEvents (metaUrl series)
             (buildRequest (userProperties w !! API_KEY_PROP)) w) w).
Proof.
  intros Hs Hf Hn Hok Hd.
  rewrite (DSIQ_META_unfold _ _ _ _ _ Hs Hf Hn). cbn zeta.
  unfold outcome. rewrite Hok.
  rewrite transformResponse_meta by (rewrite Hd; reflexivity).
  rewrite Hd. cbn [mbind mret Completion_bind errorMessage response truthy get_prop_opt assoc].
  cbn. unfold readProperty, ownProperty.
  destruct (hasOwn name props); [reflexivity|].
  destruct (inherited (JObj props) name); reflexivity.
Qed.

(** X12. DSIQ_META checks its arguments before anything else: a blank
    series is refused first, then a blank field, each with its own message
    and with no request sent and nothing stored. *)
Theorem X12_metadata_arguments_checked_first
  (seriesId field : JsValue) (w : World) :
  absent (normalizeOptionalString seriesId) = true
  \/ absent (normalizeOptionalString field) = true ->
  DSIQ_META seriesId field w =
  (Throw (Error (if absent (normalizeOptionalString seriesId)
                 then "series_id is required."
                 else "Field is required for DSIQ_META.")), w).
Proof.
  intros Hblank. unfold DSIQ_META, normalizeSeriesId.
  unfold mbind, Script_bind, lift at 1.
  destruct (absent (normalizeOptionalString seriesId)) eqn:Hs; [reflexivity|].
  destruct Hblank as [Hb|Hb]; [discriminate|].
  rewrite Hb. reflexivity.
Qed.

(** X13. On a successful response that carries no [dataset] (and no
    observations, or well-formed ones), DSIQ_META raises the not-found
    error that quotes the field. *)
Theorem X13_metadata_without_dataset
  (seriesId field : JsValue) (series name : string) (w : World) :
  normalizeSeriesId seriesId = Normal series ->
  normalizeOptionalString field = Some name ->
  name <> "" ->
  succeeded (decisive w) = true ->
  nullish (bodyOf (decisive w)) = false ->
  truthy (get_prop_opt (bodyOf (decisive w)) "dataset") = false ->
  truthy (get_prop_opt (bodyOf (decisive w)) "data") = false
  \/ (exists elems, get_prop_opt (bodyOf (decisive w)) "data" = JArr elems
                    /\ Forall (fun o => nullish o = false) elems) ->
  fst (DSIQ_META seriesId field w) = Throw (notFound name).
Proof.
  intros Hs Hf Hn Hok Hbody Hd Hdata.
  rewrite (DSIQ_META_unfold _ _ _ _ _ Hs Hf Hn). cbn zeta.
  unfold outcome. rewrite Hok.
  destruct Hdata as [Hdata|(elems & Hdata & Helems)].
  - assert (Ht : transformResponse "meta" (bodyOf (decisive w))
                 = Normal (bodyOf (decisive w))).
    { unfold transformResponse. change (String.eqb "meta" "meta") with true. cbv iota.
      rewrite (get_prop_defined _ "dataset" Hbody).
      cbn [mbind Completion_bind]. rewrite Hd.
      rewrite (get_prop_defined _ "data" Hbody).
      cbn [mbind Completion_bind]. rewrite Hdata. reflexivity. }
    rewrite Ht. cbn [mbind Completion_bind errorMessage response truthy].
    rewrite Hd. reflexivity.
  - rewrite (transformResponse_data "meta" _ elems Hdata Helems)
      by (rewrite Hd; reflexivity).
    cbv zeta. reflexivity.
Qed.


Lemma searchSeries_unfold query q w :
  normalizeOptionalString query = Some q ->
  q <> "" ->
  searchSeries query w =
  (searchResults (firstResponse w),
   record (Fetch (searchUrl q) (buildRequest (userProperties w !! API_KEY_PROP))) w).
Proof.
  intros Hq Hn. unfold searchSeries. rewrite Hq.
  assert (Ha : absent (Some q) = false) by (apply String.eqb_neq; exact Hn).
  rewrite Ha. change (default "" (Some q)) with q. reflexivity.
Qed.

Lemma browseBySource_unfold source w :
  source <> "" ->
  browseBySource source w =
  (searchResults (firstResponse w),
   record (Fetch (browseUrl source) (buildRequest (userProperties w !! API_KEY_PROP))) w).
Proof.
  intros Hn. unfold browseBySource.
  apply String.eqb_neq in Hn. rewrite Hn. reflexivity.
Qed.

Lemma searchResults_failed response :
  300 <= getResponseCode response \/ JSON_parse (getContentText response) = None ->
  searchResults response = Normal [].
Proof.
  intros [Hstatus|Hbody]; unfold searchResults.
  - apply Z.leb_le in Hstatus. rewrite Hstatus. reflexivity.
  - destruct (300 <=? getResponseCode response); [reflexivity|].
    unfold parseJson. rewrite Hbody. reflexivity.
Qed.

(** X14. A search or a browse that reaches the network sends one request
    and never retries it: when the answer has a status of 300 or more,
    429 and 5xx included, or a body that is not JSON, the result is the
    empty list (no error is raised) and the log holds that one request and
    no pause. *)
Theorem X14_search_is_sent_once_and_failure_is_empty
  (query : JsValue) (q source : string) (w : World) :
  normalizeOptionalString query = Some q ->
  q <> "" ->
  source <> "" ->
  300 <= getResponseCode (firstResponse w)
  \/ JSON_parse (getContentText (firstResponse w)) = None ->
  let request := buildRequest (userProperties w !! API_KEY_PROP) in
  searchSeries query w = (Normal [], record (Fetch (searchUrl q) request) w)
  /\ browseBySource source w = (Normal [], record (Fetch (browseUrl source) request) w).
Proof.
  intros Hq Hn Hs Hfailed. cbv zeta.
  rewrite (searchSeries_unfold _ _ _ Hq Hn), (browseBySource_unfold _ _ Hs).
  rewrite (searchResults_failed _ Hfailed). split; reflexivity.
Qed.

(** The five fields the sidebar shows of a search hit. *)
Definition summary (item : JsValue) : JsValue :=
  JObj [("id", get_prop_opt item "id"); ("title", get_prop_opt item "title");
        ("frequency", get_prop_opt item "frequency");
        ("units", get_prop_opt item "units"); ("source", get_prop_opt item "source")].

Lemma searchItem_defined item :
  nullish item = false -> searchItem item = Normal (summary item).
Proof.
  intros Hitem. unfold searchItem. rewrite !get_prop_defined by assumption. reflexivity.
Qed.

Lemma mapM_searchItem items :
  mapM searchItem items =
  if forallb (fun item => negb (nullish item)) items
  then Normal (List.map summary items) else Throw TypeError.
Proof.
  induction items as [|item rest IH]; [reflexivity|].
  simpl. destruct (nullish item) eqn:Hitem.
  - destruct item; simpl in Hitem; try discriminate; reflexivity.
  - rewrite (searchItem_defined _ Hitem), IH. simpl.
    destruct (forallb _ rest); reflexivity.
Qed.

(** X15. On an answer below 300 whose body has a [results] list, search and
    browse return one record per entry, in the order received, holding the
    entry's [id], [title], [frequency], [units] and [source] and nothing
    else of it; a [null] entry makes them raise a [TypeError] instead. *)
Theorem X15_search_hits_are_cut_to_five_fields
  (query : JsValue) (q source : string) (items : list JsValue) (w : World) :
  normalizeOptionalString query = Some q ->
  q <> "" ->
  source <> "" ->
  getResponseCode (firstResponse w) < 300 ->
  get_prop_opt (bodyOf (firstResponse w)) "results" = JArr items ->
  let hits := if forallb (fun item => negb (nullish item)) items
              then Normal (List.map summary items) else Throw TypeError in
  fst (searchSeries query w) = hits /\ fst (browseBySource source w) = hits.
Proof.
  intros Hq Hn Hs Hstatus Hresults. cbv zeta.
  rewrite (searchSeries_unfold _ _ _ Hq Hn), (browseBySource_unfold _ _ Hs).
  cbn [fst].
  assert (Hr : searchResults (firstResponse w)
               = if forallb (fun item => negb (nullish item)) items
                 then Normal (List.map summary items) else Throw TypeError).
  { unfold searchResults. apply Z.ltb_lt in Hstatus.
    rewrite Z.leb_antisym, Hstatus. cbn [negb].
    destruct (get_prop_opt_array _ _ _ Hresults) as [props Hbody].
    fold (bodyOf (firstResponse w)). rewrite Hbody in *.
    cbn [get_prop get_prop_opt mbind Completion_bind] in *. rewrite Hresults.
    apply mapM_searchItem. }
  rewrite Hr. split; reflexivity.
Qed.


Lemma getPreviewData_unfold seriesId w :
  getPreviewData seriesId w =
  let key := userProperties w !! API_KEY_PROP in
  let request := buildRequest key in
  let w1 := extend (fetchEvents (buildUrl key seriesId (scalarOptions "latest" None))
                      request w) w in
  let w2 := extend (fetchEvents (metaUrl seriesId) request w1) w1 in
  match outcome (transformResponse "latest") (decisive w) with
  | Normal latest =>
      match outcome (transformResponse "meta") (decisive w1) with
      | Normal meta =>
          (Normal
             (if truthy (errorMessage latest) || truthy (errorMessage meta) then
                JObj [("error", if truthy (errorMessage latest)
                                then errorMessage latest else errorMessage meta)]
              else
                JObj [("latest", get_prop_opt (response latest) "scalar");
                      ("meta", get_prop_opt (response meta) "dataset");
                      ("isMetadataOnly",
                       JBool (is_string (get_prop_opt (response latest) "status")
                                "metadata_only"));
                      ("isPending",
                       JBool (is_string (get_prop_opt (response latest) "status")
                                "ingestion_pending"));
                      ("statusMessage", get_prop_opt (response latest) "message")]),
           w2)
      | Throw e => (Throw e, w2)
      end
  | Throw e => (Throw e, w1)
  end.
Proof.
  unfold getPreviewData, mbind, Script_bind.
  rewrite fetchSeries_unfold. cbn zeta.
  change (mode (scalarOptions "latest" None)) with "latest".
  destruct (outcome (transformResponse "latest") (decisive w)) as [latest|e]; [|reflexivity].
  rewrite fetchSeries_unfold. cbn zeta.
  change (mode metaOptions) with "meta".
  change (userProperties (extend ?evs w)) with (userProperties w).
  change (buildUrl (userProperties w !! API_KEY_PROP) seriesId metaOptions)
    with (metaUrl seriesId).
  destruct (outcome (transformResponse "meta") _) as [meta|e]; [|reflexivity].
  destruct (truthy (errorMessage latest) || truthy (errorMessage meta)); reflexivity.
Qed.

(** X16. The preview sends both of its requests, the latest value first and
    the metadata second, also when the first one has failed; the failure of
    the first is then what it reports, whatever the second returned, as an
    [error] member and not as an exception. *)
Theorem X16_preview_reports_first_failure_after_both_requests
  (seriesId : string) (w : World) (meta : FetchResult) :
  let key := userProperties w !! API_KEY_PROP in
  let request := buildRequest key in
  let w1 := extend (fetchEvents (buildUrl key seriesId (scalarOptions "latest" None))
                      request w) w in
  let w2 := extend (fetchEvents (metaUrl seriesId) request w1) w1 in
  succeeded (decisive w) = false ->
  outcome (transformResponse "meta") (decisive w1) = Normal meta ->
  getPreviewData seriesId w = (Normal (JObj [("error", errorOf (decisive w))]), w2).
Proof.
  cbv zeta. intros Hfailed Hmeta.
  rewrite getPreviewData_unfold. cbv zeta.
  unfold outcome at 1. rewrite Hfailed, Hmeta.
  cbn [errorMessage]. unfold errorOf at 1 2. rewrite mapError_truthy. reflexivity.
Qed.

(** X17. When both requests succeed, the first with a body that has no
    observations and the second with a [dataset], the preview hands on the
    body's [scalar] and [message] and the dataset, and its two flags tell
    whether the body's [status] is metadata_only or ingestion_pending. *)
Theorem X17_preview_of_a_dataset_without_observations
  (seriesId : string) (w : World) :
  let key := userProperties w !! API_KEY_PROP in
  let w1 := extend (fetchEvents (buildUrl key seriesId (scalarOptions "latest" None))
                      (buildRequest key) w) w in
  let latest := bodyOf (decisive w) in
  let meta := bodyOf (decisive w1) in
  succeeded (decisive w) = true ->
  nullish latest = false ->
  truthy (get_prop_opt latest "data") = false ->
  succeeded (decisive w1) = true ->
  truthy (get_prop_opt meta "dataset") = true ->
  fst (getPreviewData seriesId w) =
  Normal (JObj [("latest", get_prop_opt latest "scalar");
                ("meta", get_prop_opt meta "dataset");
                ("isMetadataOnly",
                 JBool (is_string (get_prop_opt latest "status") "metadata_only"));
                ("isPending",
                 JBool (is_string (get_prop_opt latest "status") "ingestion_pending"));
                ("statusMessage", get_prop_opt latest "message")]).
Proof.
  cbv zeta. intros Hok1 Hbody Hdata Hok2 Hdataset.
  rewrite getPreviewData_unfold. cbv zeta.
  unfold outcome. rewrite Hok1, Hok2.
  assert (Ht : transformResponse "latest" (bodyOf (decisive w))
               = Normal (bodyOf (decisive w))).
  { unfold transformResponse. change (String.eqb "latest" "meta") with false. cbv iota.
    cbn [mbind Completion_bind].
    rewrite (get_prop_defined _ "data" Hbody).
    cbn [mbind Completion_bind]. rewrite Hdata. reflexivity. }
  rewrite Ht, (transformResponse_meta _ Hdataset). reflexivity.
Qed.


(** ** Stored lists *)

(** The value survives being written to the store and read back. *)
Definition roundTrips (v : JsValue) : Prop :=
  JSON_stringify v <> "" /\ JSON_parse (JSON_stringify v) = Some v.

(** What a list getter reads under key [k]. *)
Definition storedList (k : string) (w : World) : Completion JsValue :=
  if absent (userProperties w !! k) then Normal (JArr [])
  else JSON_parse_ (default "" (userProperties w !! k)).

Definition store (k v : string) (w : World) : World := snd (setProperty k v w).

Lemma getFavorites_unfold w : getFavorites w = (storedList FAVORITES_PROP w, w).
Proof.
  unfold getFavorites, storedList, mbind, Script_bind, getProperty.
  destruct (absent _); reflexivity.
Qed.

Lemma getRecent_unfold w : getRecent w = (storedList RECENT_PROP w, w).
Proof.
  unfold getRecent, storedList, mbind, Script_bind, getProperty.
  destruct (absent _); reflexivity.
Qed.

Lemma getTemplates_unfold w : getTemplates w = (storedList TEMPLATES_PROP w, w).
Proof.
  unfold getTemplates, storedList, mbind, Script_bind, getProperty.
  destruct (absent _); reflexivity.
Qed.

Lemma storedList_store k v w :
  roundTrips v -> storedList k (store k (JSON_stringify v) w) = Normal v.
Proof.
  intros [Hne Hparse]. unfold storedList, store, setProperty. cbn [snd userProperties].
  rewrite lookup_insert_eq.
  change (default "" (Some (JSON_stringify v))) with (JSON_stringify v).
  unfold absent. apply String.eqb_neq in Hne. rewrite Hne.
  unfold JSON_parse_. rewrite Hparse. reflexivity.
Qed.

Lemma Array_filter_pure keep p elems :
  (forall e, keep e = Normal (p e)) ->
  Array_filter keep (JArr elems) = Normal (List.filter p elems).
Proof.
  intros Hkeep. unfold Array_filter.
  assert (Hm : mapM (fun e => b ← keep e; Normal (e, b)) elems
               = Normal (List.map (fun e => (e, p e)) elems)).
  { induction elems as [|e rest IH]; [reflexivity|].
    simpl. rewrite Hkeep, IH. reflexivity. }
  rewrite Hm. cbn [mbind Completion_bind]. f_equal. clear Hm.
  induction elems as [|e rest IH]; [reflexivity|].
  simpl. destruct (p e); simpl; rewrite IH; reflexivity.
Qed.

(** [e] is not the series. *)
Definition other (seriesId : string) (e : JsValue) : bool := negb (is_string e seriesId).

Lemma addToRecent_unfold seriesId elems w :
  storedList RECENT_PROP w = Normal (JArr elems) ->
  addToRecent seriesId w =
  (Normal tt,
   store RECENT_PROP
     (JSON_stringify (JArr (take 20 (JStr seriesId :: List.filter (other seriesId) elems)))) w).
Proof.
  intros Hstored. unfold addToRecent, mbind, Script_bind.
  rewrite getRecent_unfold, Hstored. unfold lift.
  rewrite (Array_filter_pure _ (other seriesId)) by reflexivity.
  reflexivity.
Qed.

(** X18. Marking a series as recent puts it at the head of the stored list
    and takes its earlier entries out; the other entries follow in their
    order, and the list is cut to 20.  No request is sent and no other
    stored property changes. *)
Theorem X18_recent_list_is_most_recent_first
  (seriesId : string) (elems : list JsValue) (w : World) :
  let rest := take 19 (List.filter (other seriesId) elems) in
  let w' := snd (addToRecent seriesId w) in
  fst (getRecent w) = Normal (JArr elems) ->
  roundTrips (JArr (JStr seriesId :: rest)) ->
  fst (getRecent w') = Normal (JArr (JStr seriesId :: rest))
  /\ Forall (fun e => is_string e seriesId = false) rest
  /\ (length (JStr seriesId :: rest) <= 20)%nat
  /\ events w' = events w
  /\ forall k, k <> RECENT_PROP -> userProperties w' !! k = userProperties w !! k.
Proof.
  cbv zeta. rewrite !getRecent_unfold. cbn [fst]. intros Hstored Hround.
  rewrite (addToRecent_unfold _ _ _ Hstored). cbn [snd].
  change (take 20 (JStr seriesId :: List.filter (other seriesId) elems))
    with (JStr seriesId :: take 19 (List.filter (other seriesId) elems)).
  rewrite (storedList_store _ _ _ Hround).
  split; [reflexivity|]. split; [|split; [|split]].
  - apply Forall_take. apply List.Forall_forall. intros e He.
    apply List.filter_In in He. destruct He as [_ He]. unfold other in He.
    destruct (is_string e seriesId); [discriminate|reflexivity].
  - cbn [length]. rewrite length_take. lia.
  - reflexivity.
  - intros k Hk. unfold store, setProperty. cbn [snd userProperties].
    apply lookup_insert_ne. congruence.
Qed.


(** [favorites.includes(seriesId)] of a list. *)
Definition listed (seriesId : string) (elems : list JsValue) : bool :=
  existsb (fun e => is_string e seriesId) elems.

Lemma filter_other_unlisted seriesId elems :
  listed seriesId elems = false -> List.filter (other seriesId) elems = elems.
Proof.
  induction elems as [|e rest IH]; [reflexivity|].
  unfold listed. simpl. unfold other at 1.
  destruct (is_string e seriesId); [discriminate|].
  simpl. intros Hrest. rewrite (IH Hrest). reflexivity.
Qed.

Lemma addFavorite_unfold seriesId elems w :
  storedList FAVORITES_PROP w = Normal (JArr elems) ->
  addFavorite seriesId w =
  if listed seriesId elems then (Normal tt, w)
  else (Normal tt,
        store FAVORITES_PROP (JSON_stringify (JArr (take 50 (JStr seriesId :: elems)))) w).
Proof.
  intros Hstored. unfold addFavorite, mbind, Script_bind.
  rewrite getFavorites_unfold, Hstored. unfold lift. cbn [includes].
  fold (listed seriesId elems). destruct (listed seriesId elems); reflexivity.
Qed.

Lemma removeFavorite_unfold seriesId elems w :
  storedList FAVORITES_PROP w = Normal (JArr elems) ->
  removeFavorite seriesId w =
  (Normal tt,
   store FAVORITES_PROP (JSON_stringify (JArr (List.filter (other seriesId) elems))) w).
Proof.
  intros Hstored. unfold removeFavorite, mbind, Script_bind.
  rewrite getFavorites_unfold, Hstored. unfold lift.
  rewrite (Array_filter_pure _ (other seriesId)) by reflexivity.
  reflexivity.
Qed.

(** X19. Adding a favourite is idempotent: a series already in the list
    leaves the store as it is (the series keeps its place), a new one goes
    to the head of the list, which is cut to 50, and adding the same series
    again then changes nothing. *)
Theorem X19_adding_a_favorite_twice_is_adding_it_once
  (seriesId : string) (elems : list JsValue) (w : World) :
  let w' := snd (addFavorite seriesId w) in
  fst (getFavorites w) = Normal (JArr elems) ->
  roundTrips (JArr (take 50 (JStr seriesId :: elems))) ->
  fst (getFavorites w')
  = Normal (JArr (if listed seriesId elems then elems
                  else take 50 (JStr seriesId :: elems)))
  /\ (listed seriesId elems = true -> w' = w)
  /\ addFavorite seriesId w' = (Normal tt, w').
Proof.
  cbv zeta. rewrite !getFavorites_unfold. cbn [fst]. intros Hstored Hround.
  rewrite (addFavorite_unfold _ _ _ Hstored).
  destruct (listed seriesId elems) eqn:Hlisted; cbn [snd].
  - split; [exact Hstored|]. split; [reflexivity|].
    rewrite (addFavorite_unfold _ _ _ Hstored), Hlisted. reflexivity.
  - split; [apply storedList_store; exact Hround|]. split; [discriminate|].
    rewrite (addFavorite_unfold _ (take 50 (JStr seriesId :: elems)))
      by (apply storedList_store; exact Hround).
    change (take 50 (JStr seriesId :: elems)) with (JStr seriesId :: take 49 elems).
    unfold listed at 1. cbn [existsb is_string]. rewrite String.eqb_refl. reflexivity.
Qed.

(** X20. Adding a series that is not a favourite yet, to a list of fewer
    than 50, and removing it again gives back the list as it was; removing
    takes out every entry equal to the series. *)
Theorem X20_removing_undoes_adding
  (seriesId : string) (elems : list JsValue) (w : World) :
  let added := snd (addFavorite seriesId w) in
  let removed := snd (removeFavorite seriesId added) in
  fst (getFavorites w) = Normal (JArr elems) ->
  listed seriesId elems = false ->
  (length elems < 50)%nat ->
  roundTrips (JArr (JStr seriesId :: elems)) ->
  roundTrips (JArr elems) ->
  fst (getFavorites added) = Normal (JArr (JStr seriesId :: elems))
  /\ fst (getFavorites removed) = Normal (JArr elems).
Proof.
  cbv zeta. rewrite !getFavorites_unfold. cbn [fst].
  intros Hstored Hlisted Hlen Hadded Hround.
  rewrite (addFavorite_unfold _ _ _ Hstored), Hlisted. cbn [snd].
  assert (Htake : take 50 (JStr seriesId :: elems) = JStr seriesId :: elems).
  { apply take_ge. cbn [length]. lia. }
  rewrite Htake.
  assert (Hread : storedList FAVORITES_PROP
                    (store FAVORITES_PROP (JSON_stringify (JArr (JStr seriesId :: elems))) w)
                  = Normal (JArr (JStr seriesId :: elems)))
    by (apply storedList_store; exact Hadded).
  split; [exact Hread|].
  rewrite (removeFavorite_unfold _ _ _ Hread). cbn [snd].
  cbn [List.filter]. unfold other at 1. cbn [is_string]. rewrite String.eqb_refl. cbn [negb].
  rewrite (filter_other_unlisted _ _ Hlisted).
  apply storedList_store. exact Hround.
Qed.


(** A stored text that is no list: not JSON at all, or JSON of something
    else than an array or a string. *)
Definition unusable (text : string) : Prop :=
  text <> ""
  /\ match JSON_parse text with
     | Some (JArr _) | Some (JStr _) => False
     | _ => True
     end.

(** What working on such a text raises: the parser's error, or the
    [TypeError] of a missing array method. *)
Definition failure (text : string) : JsError :=
  match JSON_parse text with
  | None => Error (SyntaxError_message text)
  | Some _ => TypeError
  end.

Lemma storedList_text k text w :
  userProperties w !! k = Some text ->
  text <> "" ->
  storedList k w = JSON_parse_ text.
Proof.
  intros Hk Hne. unfold storedList. rewrite Hk.
  change (default "" (Some text)) with text.
  unfold absent. apply String.eqb_neq in Hne. rewrite Hne. reflexivity.
Qed.

(** X21. A stored list that cannot be used (text that is not JSON, or JSON
    of a number, a boolean, null or an object) is never repaired or
    overwritten: every operation on the favourites, the recent series and
    the templates raises, the parser's error or a [TypeError], and leaves
    the store and the log as they were. *)
Theorem X21_unusable_store_raises_and_is_kept
  (text seriesId name templateId : string) (formulas : JsValue) (w : World) :
  unusable text ->
  (userProperties w !! FAVORITES_PROP = Some text ->
   addFavorite seriesId w = (Throw (failure text), w)
   /\ removeFavorite seriesId w = (Throw (failure text), w))
  /\ (userProperties w !! RECENT_PROP = Some text ->
      addToRecent seriesId w = (Throw (failure text), w))
  /\ (userProperties w !! TEMPLATES_PROP = Some text ->
      saveTemplate name formulas w = (Throw (failure text), w)
      /\ deleteTemplate templateId w = (Throw (failure text), w)).
Proof.
  intros [Hne Hshape].
  split; [|split]; intros Hstored.
  - unfold addFavorite, removeFavorite, mbind, Script_bind.
    rewrite getFavorites_unfold, (storedList_text _ _ _ Hstored Hne).
    unfold JSON_parse_, failure.
    destruct (JSON_parse text) as [[]|]; try contradiction; split; reflexivity.
  - unfold addToRecent, mbind, Script_bind.
    rewrite getRecent_unfold, (storedList_text _ _ _ Hstored Hne).
    unfold JSON_parse_, failure.
    destruct (JSON_parse text) as [[]|]; try contradiction; reflexivity.
  - unfold saveTemplate, deleteTemplate, mbind, Script_bind.
    rewrite getTemplates_unfold, (storedList_text _ _ _ Hstored Hne).
    unfold JSON_parse_, failure.
    destruct (JSON_parse text) as [[]|]; try contradiction; split; reflexivity.
Qed.


(** The template that is saved at clock reading [now]. *)
Definition templateAt (now : Z) (name : string) (formulas : JsValue) : JsValue :=
  JObj [("id", JStr (pretty now)); ("name", JStr name); ("formulas", formulas);
        ("createdAt", JStr (Date_toISOString now))].

(** The template has another id. *)
Definition otherTemplate (templateId : string) (t : JsValue) : bool :=
  negb (is_string (get_prop_opt t "id") templateId).

Lemma Array_filter_on keep p elems :
  Forall (fun e => keep e = Normal (p e)) elems ->
  Array_filter keep (JArr elems) = Normal (List.filter p elems).
Proof.
  intros Hkeep. unfold Array_filter.
  assert (Hm : mapM (fun e => b ← keep e; Normal (e, b)) elems
               = Normal (List.map (fun e => (e, p e)) elems)).
  { induction Hkeep as [|e rest He _ IH]; [reflexivity|].
    simpl. rewrite He, IH. reflexivity. }
  rewrite Hm. cbn [mbind Completion_bind]. f_equal. clear Hm Hkeep.
  induction elems as [|e rest IH]; [reflexivity|].
  simpl. destruct (p e); simpl; rewrite IH; reflexivity.
Qed.

Lemma saveTemplate_unfold name formulas elems w :
  storedList TEMPLATES_PROP w = Normal (JArr elems) ->
  saveTemplate name formulas w =
  let template := templateAt (clock w) name formulas in
  (Normal template,
   store TEMPLATES_PROP (JSON_stringify (JArr (take 20 (template :: elems)))) w).
Proof.
  intros Hstored. unfold saveTemplate, mbind, Script_bind.
  rewrite getTemplates_unfold, Hstored. reflexivity.
Qed.

Lemma deleteTemplate_unfold templateId elems w :
  storedList TEMPLATES_PROP w = Normal (JArr elems) ->
  Forall (fun t => nullish t = false) elems ->
  deleteTemplate templateId w =
  (Normal tt,
   store TEMPLATES_PROP
     (JSON_stringify (JArr (List.filter (otherTemplate templateId) elems))) w).
Proof.
  intros Hstored Helems. unfold deleteTemplate, mbind, Script_bind.
  rewrite getTemplates_unfold, Hstored. unfold lift.
  rewrite (Array_filter_on _ (otherTemplate templateId)).
  - reflexivity.
  - eapply List.Forall_impl; [|exact Helems].
    intros t Ht. unfold hasOtherId. rewrite (get_prop_defined _ "id" Ht). reflexivity.
Qed.

(** X22. A saved template gets the clock reading, in milliseconds, as its id
    and goes to the head of the stored list, of which the first 20 are
    kept.  Deleting by that id takes it out again, together with every
    earlier template that has the same id, so one saved within the same
    millisecond. *)
Theorem X22_template_saved_then_deleted
  (name : string) (formulas : JsValue) (elems : list JsValue) (w : World) :
  let templateId := pretty (clock w) in
  let template := templateAt (clock w) name formulas in
  let saved := snd (saveTemplate name formulas w) in
  let deleted := snd (deleteTemplate templateId saved) in
  let kept := List.filter (otherTemplate templateId) (take 19 elems) in
  fst (getTemplates w) = Normal (JArr elems) ->
  Forall (fun t => nullish t = false) elems ->
  roundTrips (JArr (template :: take 19 elems)) ->
  roundTrips (JArr kept) ->
  fst (saveTemplate name formulas w) = Normal template
  /\ fst (getTemplates saved) = Normal (JArr (template :: take 19 elems))
  /\ fst (getTemplates deleted) = Normal (JArr kept).
Proof.
  cbv zeta. rewrite !getTemplates_unfold. cbn [fst].
  intros Hstored Helems Hsaved Hkept.
  rewrite (saveTemplate_unfold _ _ _ _ Hstored). cbv zeta. cbn [fst snd].
  change (take 20 (templateAt (clock w) name formulas :: elems))
    with (templateAt (clock w) name formulas :: take 19 elems).
  assert (Hread : storedList TEMPLATES_PROP
                    (store TEMPLATES_PROP
                       (JSON_stringify
                          (JArr (templateAt (clock w) name formulas :: take 19 elems))) w)
                  = Normal (JArr (templateAt (clock w) name formulas :: take 19 elems)))
    by (apply storedList_store; exact Hsaved).
  split; [reflexivity|]. split; [exact Hread|].
  rewrite (deleteTemplate_unfold _ _ _ Hread).
  - cbn [snd List.filter]. unfold otherTemplate at 1, templateAt at 1.
    cbn [get_prop_opt assoc]. change (String.eqb "id" "id") with true. cbv iota.
    cbn [is_string]. rewrite String.eqb_refl. cbn [negb].
    apply storedList_store. exact Hkept.
  - constructor; [reflexivity|]. apply Forall_take. exact Helems.
Qed.


(** ** The credential *)

(** X23. The life cycle of the credential: a key that is not blank is
    stored trimmed, from then on premium access is granted and requests
    carry the key as a Bearer token; after clearing it, no key is stored,
    premium access is refused with the message that points to the key page,
    and requests carry no header. *)
Theorem X23_credential_life_cycle (key : JsValue) (trimmed : string) (w : World) :
  let saved := snd (saveApiKey key w) in
  let cleared := snd (clearApiKey saved) in
  normalizeOptionalString key = Some trimmed ->
  trimmed <> "" ->
  fst (getApiKey saved) = Normal (Some trimmed)
  /\ fst (checkPremiumAccess saved) = Normal {| allowed := true; message := None |}
  /\ headers (buildRequest (userProperties saved !! API_KEY_PROP))
     = {[ "Authorization" := "Bearer " +:+ trimmed ]}
  /\ fst (getApiKey cleared) = Normal None
  /\ fst (checkPremiumAccess cleared)
     = Normal {| allowed := false; message := Some premiumMessage |}
  /\ headers (buildRequest (userProperties cleared !! API_KEY_PROP)) = ∅.
Proof.
  cbv zeta. intros Hkey Hne.
  assert (Ha : absent (Some trimmed) = false) by (apply String.eqb_neq; exact Hne).
  assert (Hsaved : userProperties (snd (saveApiKey key w)) !! API_KEY_PROP = Some trimmed).
  { unfold saveApiKey. rewrite Hkey, Ha. unfold setProperty. cbn [snd userProperties].
    change (default "" (Some trimmed)) with trimmed. apply lookup_insert_eq. }
  assert (Hcleared : userProperties (snd (clearApiKey (snd (saveApiKey key w))))
                       !! API_KEY_PROP = None).
  { unfold clearApiKey, deleteProperty. cbn [snd userProperties]. apply lookup_delete_eq. }
  unfold checkPremiumAccess, getApiKey, getProperty, mbind, Script_bind, buildRequest.
  cbn [fst headers]. rewrite Hsaved, Hcleared, Ha.
  repeat split; reflexivity.
Qed.

(** X24. The status panel reports connected exactly when a credential is
    stored and the provider answers the probe with a 2xx status, and then
    also reports the plan as paid, with no error.  Without a credential it
    sends nothing; with one it sends the probe once, whatever the answer,
    with the credential as a Bearer token. *)
Theorem X24_status_panel (w : World) :
  let key := userProperties w !! API_KEY_PROP in
  let code := getResponseCode (firstResponse w) in
  let probe := Fetch statusUrl
                 {| method := "get"; muteHttpExceptions := true;
                    headers := {[ "Authorization" := "Bearer " +:+ default "" key ]} |} in
  exists s,
    fst (getSidebarStatus w) = Normal s
    /\ connected s = negb (absent key) && (200 <=? code) && (code <? 300)
    /\ isPaid s = connected s
    /\ (if connected s then error s = None /\ status s = Some connectedStatus
        else status s = None)
    /\ snd (getSidebarStatus w) = if absent key then w else record probe w.
Proof.
  cbv zeta. unfold getSidebarStatus, getApiKey, getProperty, mbind, Script_bind.
  cbn [fst snd].
  destruct (absent (userProperties w !! API_KEY_PROP)) eqn:Hkey.
  - eexists. repeat split.
  - unfold UrlFetchApp_fetch. fold (firstResponse w).
    set (code := getResponseCode (firstResponse w)).
    destruct (code =? 401) eqn:H401; [|destruct (code =? 403) eqn:H403].
    + apply Z.eqb_eq in H401. eexists. split; [reflexivity|].
      cbn [connected isPaid error status orb negb andb].
      rewrite H401. repeat split.
    + apply Z.eqb_eq in H403. eexists. split; [reflexivity|].
      cbn [connected isPaid error status orb negb andb].
      rewrite H403. repeat split.
    + cbn [orb]. destruct ((200 <=? code) && (code <? 300)) eqn:Hok.
      * eexists. split; [reflexivity|]. cbn [connected isPaid error status negb andb].
        rewrite Hok. repeat split.
      * eexists. split; [reflexivity|]. cbn [connected isPaid error status negb andb].
        rewrite Hok. repeat split.
Qed.


(** ** The frequency argument and the formula builder *)

(** X25. The frequency given to DSIQ has no effect: with any two
    frequencies the function sends the same requests and returns the same
    table or raises the same error. *)
Theorem X25_frequency_is_ignored
  (seriesId frequency frequency' startDate : JsValue) (w : World) :
  DSIQ seriesId frequency startDate w = DSIQ seriesId frequency' startDate w.
Proof.
  unfold DSIQ, mbind, Script_bind, lift.
  destruct (normalizeSeriesId seriesId) as [series|e]; [|reflexivity].
  destruct (normalizeDateInput startDate) as [start|e]; [|reflexivity].
  rewrite !fetchSeries_unfold. reflexivity.
Qed.


(** X26. The builder writes its optional arguments by position only: a
    start date given without a frequency becomes the second argument of
    the formula, so the formula is the one built for that text as the
    frequency and no start date. *)
Theorem X26_builder_cannot_tell_start_date_from_frequency
  (functionName seriesId : string) (text : option string) :
  buildFormula functionName seriesId None text
  = buildFormula functionName seriesId text None.
Proof.
  unfold buildFormula. cbn [absent].
  destruct (String.eqb functionName "DSIQ" || String.eqb functionName "DSIQ_VALUE");
    [|reflexivity].
  destruct (absent text); reflexivity.
Qed.

End FurtherFacts.

(** ** Closed instances of the further properties *)

(** A field the dataset owns, a built-in it inherits, and a name it does
    not have. *)
Lemma X11_metadata_field_witness :
  let w := DemoHost.world ∅
             [DemoHost.reply 200 (JObj [("dataset", JObj [("title", JStr "GDP")])]) []] in
  fst (@DSIQ_META DemoHost.host DemoRuntime.runtime (JStr " gdp ") (JStr "title") w)
  = Normal (Own (JStr "GDP"))
  /\ fst (@DSIQ_META DemoHost.host DemoRuntime.runtime (JStr "gdp") (JStr "constructor") w)
     = Normal (Inherited "constructor")
  /\ fst (@DSIQ_META DemoHost.host DemoRuntime.runtime (JStr "gdp") (JStr "units") w)
     = Throw (notFound "units").
Proof.
  cbv zeta. set (w := DemoHost.world ∅ _).
  assert (Hn : forall name : string, String.eqb name "" = false -> name <> "").
  { intros name Hname. apply String.eqb_neq. exact Hname. }
  split; [|split].
  - rewrite (@X11_metadata_field_of_the_dataset DemoHost.host DemoRuntime.runtime
               (JStr " gdp ") (JStr "title") "gdp" "title" [("title", JStr "GDP")] w
               eq_refl eq_refl (Hn "title" eq_refl) eq_refl eq_refl).
    reflexivity.
  - rewrite (@X11_metadata_field_of_the_dataset DemoHost.host DemoRuntime.runtime
               (JStr "gdp") (JStr "constructor") "gdp" "constructor" [("title", JStr "GDP")] w
               eq_refl eq_refl (Hn "constructor" eq_refl) eq_refl eq_refl).
    reflexivity.
  - rewrite (@X11_metadata_field_of_the_dataset DemoHost.host DemoRuntime.runtime
               (JStr "gdp") (JStr "units") "gdp" "units" [("title", JStr "GDP")] w
               eq_refl eq_refl (Hn "units" eq_refl) eq_refl eq_refl).
    reflexivity.
Defined.

Lemma X12_metadata_arguments_witness :
  let w := DemoHost.world ∅ [] in
  @DSIQ_META DemoHost.host DemoRuntime.runtime (JStr "gdp") (JStr "  ") w
  = (Throw (Error "Field is required for DSIQ_META."), w)
  /\ @DSIQ_META DemoHost.host DemoRuntime.runtime JNull (JStr "") w
     = (Throw (Error "series_id is required."), w).
Proof.
  cbv zeta. split.
  - exact (@X12_metadata_arguments_checked_first DemoHost.host DemoRuntime.runtime
             (JStr "gdp") (JStr "  ") (DemoHost.world ∅ []) (or_intror eq_refl)).
  - exact (@X12_metadata_arguments_checked_first DemoHost.host DemoRuntime.runtime
             JNull (JStr "") (DemoHost.world ∅ []) (or_introl eq_refl)).
Defined.

Lemma X13_metadata_without_dataset_witness :
  let w := DemoHost.world ∅ [DemoHost.reply 200 (JObj [("id", JStr "gdp")]) []] in
  fst (@DSIQ_META DemoHost.host DemoRuntime.runtime (JStr "gdp") (JStr "title") w)
  = Throw (notFound "title").
Proof.
  cbv zeta. set (w := DemoHost.world ∅ _).
  refine (@X13_metadata_without_dataset DemoHost.host DemoRuntime.runtime
            (JStr "gdp") (JStr "title") "gdp" "title" w
            eq_refl eq_refl _ eq_refl eq_refl eq_refl (or_introl eq_refl)).
  discriminate.
Defined.

Lemma X14_search_is_sent_once_witness :
  let w := DemoHost.world ∅ [DemoHost.reply 503 (JObj []) []] in
  fst (@searchSeries DemoHost.host (JStr "gdp") w) = Normal []
  /\ calls (snd (@searchSeries DemoHost.host (JStr "gdp") w)) = 1%nat
  /\ fst (@browseBySource DemoHost.host "FRED" w) = Normal []
  /\ calls (snd (@browseBySource DemoHost.host "FRED" w)) = 1%nat.
Proof.
  cbv zeta. set (w := DemoHost.world ∅ _).
  assert (Hq : "gdp" <> "") by discriminate.
  assert (Hs : "FRED" <> "") by discriminate.
  assert (Hfailed : 300 <= getResponseCode (firstResponse w)
                    \/ @JSON_parse DemoHost.host (getContentText (firstResponse w)) = None).
  { left. vm_compute. discriminate. }
  destruct (@X14_search_is_sent_once_and_failure_is_empty DemoHost.host
              (JStr "gdp") "gdp" "FRED" w eq_refl Hq Hs Hfailed) as [-> ->].
  repeat split.
Defined.

Lemma X15_search_hits_witness :
  let hit := JObj [("id", JStr "gdp"); ("title", JStr "GDP"); ("score", JNum 3)] in
  let w := DemoHost.world ∅ [DemoHost.reply 200 (JObj [("results", JArr [hit])]) []] in
  fst (@searchSeries DemoHost.host (JStr "gdp") w)
  = Normal [JObj [("id", JStr "gdp"); ("title", JStr "GDP"); ("frequency", JUndefined);
                  ("units", JUndefined); ("source", JUndefined)]].
Proof.
  cbv zeta.
  set (hit := JObj [("id", JStr "gdp"); ("title", JStr "GDP"); ("score", JNum 3)]).
  set (w := DemoHost.world ∅ _).
  assert (Hq : "gdp" <> "") by discriminate.
  assert (Hs : "FRED" <> "") by discriminate.
  assert (Hstatus : getResponseCode (firstResponse w) < 300) by (vm_compute; reflexivity).
  destruct (@X15_search_hits_are_cut_to_five_fields DemoHost.host
              (JStr "gdp") "gdp" "FRED" [hit] w eq_refl Hq Hs Hstatus eq_refl) as [-> _].
  reflexivity.
Defined.

Lemma X16_preview_reports_first_failure_witness :
  let w := DemoHost.world ∅
             [DemoHost.reply 404 (JObj []) [];
              DemoHost.reply 200 (JObj [("dataset", JObj [("title", JStr "GDP")])]) []] in
  fst (@getPreviewData DemoHost.host "gdp" w)
  = Normal (JObj [("error", JStr "Unable to fetch data.")])
  /\ calls (snd (@getPreviewData DemoHost.host "gdp" w)) = 2%nat.
Proof.
  cbv zeta. set (w := DemoHost.world ∅ _).
  rewrite (@X16_preview_reports_first_failure_after_both_requests DemoHost.host "gdp" w
             (FResponse (JObj [("dataset", JObj [("title", JStr "GDP")])]))
             eq_refl eq_refl).
  split; reflexivity.
Defined.

Lemma X17_preview_of_a_dataset_witness :
  let w := DemoHost.world ∅
             [DemoHost.reply 200 (JObj [("status", JStr "metadata_only");
                                        ("message", JStr "Not ingested yet.")]) [];
              DemoHost.reply 200 (JObj [("dataset", JObj [("title", JStr "GDP")])]) []] in
  fst (@getPreviewData DemoHost.host "gdp" w)
  = Normal (JObj [("latest", JUndefined); ("meta", JObj [("title", JStr "GDP")]);
                  ("isMetadataOnly", JBool true); ("isPending", JBool false);
                  ("statusMessage", JStr "Not ingested yet.")]).
Proof.
  cbv zeta. set (w := DemoHost.world ∅ _).
  rewrite (@X17_preview_of_a_dataset_without_observations DemoHost.host "gdp" w
             eq_refl eq_refl eq_refl eq_refl eq_refl).
  reflexivity.
Defined.

Lemma X18_recent_list_witness :
  let w := DemoHost.world
             {[ RECENT_PROP := DemoHost.json (JArr [JStr "GDP"; JStr "CPI"; JStr "M2"]) ]} [] in
  fst (@getRecent DemoHost.host DemoRuntime.runtime
         (snd (@addToRecent DemoHost.host DemoRuntime.runtime "CPI" w)))
  = Normal (JArr [JStr "CPI"; JStr "GDP"; JStr "M2"]).
Proof.
  cbv zeta. set (w := DemoHost.world _ _).
  assert (Hround : @roundTrips DemoHost.host DemoRuntime.runtime
                     (JArr [JStr "CPI"; JStr "GDP"; JStr "M2"])).
  { split; [vm_compute; discriminate|vm_compute; reflexivity]. }
  destruct (@X18_recent_list_is_most_recent_first DemoHost.host DemoRuntime.runtime
              "CPI" [JStr "GDP"; JStr "CPI"; JStr "M2"] w eq_refl Hround) as [Hread _].
  exact Hread.
Defined.

Lemma X19_adding_a_favorite_witness :
  let w := DemoHost.world {[ FAVORITES_PROP := DemoHost.json (JArr [JStr "GDP"]) ]} [] in
  let w' := snd (@addFavorite DemoHost.host DemoRuntime.runtime "CPI" w) in
  fst (@getFavorites DemoHost.host DemoRuntime.runtime w')
  = Normal (JArr [JStr "CPI"; JStr "GDP"])
  /\ @addFavorite DemoHost.host DemoRuntime.runtime "CPI" w' = (Normal tt, w').
Proof.
  cbv zeta. set (w := DemoHost.world _ _).
  assert (Hround : @roundTrips DemoHost.host DemoRuntime.runtime
                     (JArr (take 50 [JStr "CPI"; JStr "GDP"]))).
  { split; [vm_compute; discriminate|vm_compute; reflexivity]. }
  destruct (@X19_adding_a_favorite_twice_is_adding_it_once DemoHost.host DemoRuntime.runtime
              "CPI" [JStr "GDP"] w eq_refl Hround) as (Hread & _ & Hagain).
  split; [exact Hread|exact Hagain].
Defined.

Lemma X20_removing_undoes_adding_witness :
  let w := DemoHost.world {[ FAVORITES_PROP := DemoHost.json (JArr [JStr "GDP"]) ]} [] in
  fst (@getFavorites DemoHost.host DemoRuntime.runtime
         (snd (@removeFavorite DemoHost.host DemoRuntime.runtime "CPI"
                 (snd (@addFavorite DemoHost.host DemoRuntime.runtime "CPI" w)))))
  = Normal (JArr [JStr "GDP"]).
Proof.
  cbv zeta. set (w := DemoHost.world _ _).
  assert (Hadded : @roundTrips DemoHost.host DemoRuntime.runtime
                     (JArr [JStr "CPI"; JStr "GDP"])).
  { split; [vm_compute; discriminate|vm_compute; reflexivity]. }
  assert (Hround : @roundTrips DemoHost.host DemoRuntime.runtime (JArr [JStr "GDP"])).
  { split; [vm_compute; discriminate|vm_compute; reflexivity]. }
  assert (Hlen : (length [JStr "GDP"] < 50)%nat) by (simpl; lia).
  destruct (@X20_removing_undoes_adding DemoHost.host DemoRuntime.runtime
              "CPI" [JStr "GDP"] w eq_refl eq_refl Hlen Hadded Hround) as [_ Hremoved].
  exact Hremoved.
Defined.

Lemma X21_unusable_store_witness :
  let w := DemoHost.world {[ FAVORITES_PROP := "GDP,CPI" ]} [] in
  let w' := DemoHost.world {[ RECENT_PROP := "{}" ]} [] in
  @addFavorite DemoHost.host DemoRuntime.runtime "M2" w
  = (Throw (Error "Unexpected token in JSON"), w)
  /\ @addToRecent DemoHost.host DemoRuntime.runtime "M2" w' = (Throw TypeError, w').
Proof.
  cbv zeta. split.
  - set (w := DemoHost.world _ _).
    assert (Hbad : @unusable DemoHost.host "GDP,CPI").
    { split; [discriminate|vm_compute; exact I]. }
    destruct (@X21_unusable_store_raises_and_is_kept DemoHost.host DemoRuntime.runtime
                "GDP,CPI" "M2" "" "" JNull w Hbad) as [Hfav _].
    destruct (Hfav eq_refl) as [Hadd _]. exact Hadd.
  - set (w := DemoHost.world _ _).
    assert (Hbad : @unusable DemoHost.host "{}").
    { split; [discriminate|vm_compute; exact I]. }
    destruct (@X21_unusable_store_raises_and_is_kept DemoHost.host DemoRuntime.runtime
                "{}" "M2" "" "" JNull w Hbad) as (_ & Hrecent & _).
    exact (Hrecent eq_refl).
Defined.

(** Two templates saved at the same clock reading share their id, and
    deleting by it removes both. *)
Lemma X22_template_witness :
  let first := JObj [("id", JStr "1700000000000"); ("name", JStr "first")] in
  let formulas := JArr [JObj [("cell", JStr "A1"); ("formula", JStr "=TODAY()")]] in
  let w := DemoHost.world {[ TEMPLATES_PROP := DemoHost.json (JArr [first]) ]} [] in
  let saved := snd (@saveTemplate DemoHost.host DemoRuntime.runtime "second" formulas w) in
  fst (@saveTemplate DemoHost.host DemoRuntime.runtime "second" formulas w)
  = Normal (JObj [("id", JStr "1700000000000"); ("name", JStr "second");
                  ("formulas", formulas); ("createdAt", JStr "2023-11-14T22:13:20.000Z")])
  /\ fst (@getTemplates DemoHost.host DemoRuntime.runtime
            (snd (@deleteTemplate DemoHost.host DemoRuntime.runtime "1700000000000" saved)))
     = Normal (JArr []).
Proof.
  cbv zeta.
  set (first := JObj [("id", JStr "1700000000000"); ("name", JStr "first")]).
  set (formulas := JArr [JObj [("cell", JStr "A1"); ("formula", JStr "=TODAY()")]]).
  set (w := DemoHost.world _ _).
  assert (Helems : Forall (fun t => nullish t = false) [first]) by (repeat constructor).
  assert (Hsaved : @roundTrips DemoHost.host DemoRuntime.runtime
                     (JArr (@templateAt DemoRuntime.runtime (clock w) "second" formulas
                              :: take 19 [first]))).
  { split; [vm_compute; discriminate|vm_compute; reflexivity]. }
  assert (Hkept : @roundTrips DemoHost.host DemoRuntime.runtime
                    (JArr (List.filter (otherTemplate (pretty (clock w))) (take 19 [first])))).
  { split; [vm_compute; discriminate|vm_compute; reflexivity]. }
  destruct (@X22_template_saved_then_deleted DemoHost.host DemoRuntime.runtime
              "second" formulas [first] w eq_refl Helems Hsaved Hkept)
    as (Hreturned & _ & Hdeleted).
  split; [rewrite Hreturned; vm_compute; reflexivity|].
  etransitivity; [exact Hdeleted|]. vm_compute. reflexivity.
Defined.

Lemma X23_credential_life_cycle_witness :
  let saved := snd (@saveApiKey DemoHost.host (JStr " sk-1 ") (DemoHost.world ∅ [])) in
  fst (getApiKey saved) = Normal (Some "sk-1")
  /\ fst (checkPremiumAccess (snd (clearApiKey saved)))
     = Normal {| allowed := false; message := Some premiumMessage |}.
Proof.
  cbv zeta.
  assert (Hne : "sk-1" <> "") by discriminate.
  destruct (@X23_credential_life_cycle DemoHost.host (JStr " sk-1 ") "sk-1"
              (DemoHost.world ∅ []) eq_refl Hne) as (Hsaved & _ & _ & _ & Hcleared & _).
  split; [exact Hsaved|exact Hcleared].
Defined.

